(** * todo-web-app: the client-side task list, activity feed and task API

    A shallow embedding of the TypeScript sources

    - [frontend/src/app/tasks/page.tsx]      ([getToday], [applyFiltersAndSorting]),
    - [frontend/src/app/components/Dashboard/RecentActivity.tsx]
                                             ([fetchActivities], [handleTaskActivity]),
    - [frontend/src/app/utils/timeUtils.ts]  ([formatTimeAgo]),
    - [frontend/src/app/api/tasks.ts]        ([tasksApi]),
    - [frontend/src/app/tasks/new/page.tsx]  ([handleSubmit]),

    followed by the properties the specification states about them.

    Conventions of the embedding.

    - A JavaScript number that the code computes from dates is a [Num]:
      [Some z] for an integral value, [None] for [NaN] (the time value of
      an invalid [Date]).  Only the sign of a comparator result and the
      outcome of [<] / [>=] are ever observed, so no rounding is modelled.
    - A JavaScript string is a [string] holding the bytes of the UTF-8
      encoding of its text.  [includes] and [trim] are the language's
      functions on it, [trim] stripping every white space character and
      line terminator of the language; [toLowerCase] folds the letters A
      to Z, which is all that the sample searches need; [toUpperCase]
      depends on the engine's Unicode tables and is a field of [Runtime].
    - What the host decides (the time zone, the date parser, the collation
      of [localeCompare], the locale's date formats, the case mapping of
      its Unicode tables) is a [Runtime] record;
      the clock is an explicit argument [now] (milliseconds since the epoch).
    - Arrays live in a store ([Heap]) where the code's aliasing matters; the
      list-level functions are related to the store-level ones by theorems. *)

From Stdlib Require Import ZArith List String Ascii Bool Lia Permutation DecimalString.
From Stdlib Require OrderedTypeEx.
From stdpp Require Import gmap.
Import ListNotations.
Open Scope string_scope.
Open Scope list_scope.
Open Scope Z_scope.

(* ===================================================================== *)
(** ** JavaScript numbers, truthiness and strings                         *)
(* ===================================================================== *)

Module Js.

(** A number: [None] is [NaN]. *)
Definition Num : Type := option Z.

Definition num_sub (a b : Num) : Num :=
  match a, b with
  | Some x, Some y => Some (x - y)
  | _, _ => None
  end.

Definition num_neg (a : Num) : Num :=
  match a with
  | Some x => Some (- x)
  | None => None
  end.

(** [Math.floor(a / d)] for a positive constant [d]. *)
Definition num_floor_div (a : Num) (d : Z) : Num :=
  match a with
  | Some x => Some (x / d)
  | None => None
  end.

(** [a < b]: false as soon as one side is [NaN]. *)
Definition num_ltb (a b : Num) : bool :=
  match a, b with
  | Some x, Some y => x <? y
  | _, _ => false
  end.

(** [a >= b]: false as soon as one side is [NaN]. *)
Definition num_geb (a b : Num) : bool :=
  match a, b with
  | Some x, Some y => y <=? x
  | _, _ => false
  end.

(** Truthiness of a string: the empty string is falsy. *)
Definition truthy_string (s : string) : bool :=
  match s with
  | EmptyString => false
  | String _ _ => true
  end.

(** Truthiness of an optional string property ([undefined] is falsy). *)
Definition truthy_opt (o : option string) : bool :=
  match o with
  | Some s => truthy_string s
  | None => false
  end.

(** The lower case of the letters A to Z; the other bytes, those of the
    letters beyond ASCII among them, are kept. *)
Definition lower_unit (c : ascii) : ascii :=
  let n := nat_of_ascii c in
  if ((65 <=? n)%nat && (n <=? 90)%nat)%bool then ascii_of_nat (n + 32) else c.

Fixpoint toLowerCase (s : string) : string :=
  match s with
  | EmptyString => EmptyString
  | String c s' => String (lower_unit c) (toLowerCase s')
  end.

(** [s.startsWith(t)] *)
Fixpoint startsWith (s t : string) : bool :=
  match t, s with
  | EmptyString, _ => true
  | String _ _, EmptyString => false
  | String b t', String a s' => (Ascii.eqb a b && startsWith s' t')%bool
  end.

(** [s.includes(t)] *)
Fixpoint includes (s t : string) : bool :=
  if startsWith s t then true
  else match s with
       | EmptyString => false
       | String _ s' => includes s' t
       end.

(** The UTF-8 encoding of a character of the Basic Multilingual Plane,
    given by its code point. *)
Definition utf8 (p : N) : string :=
  (if p <? 128 then String (ascii_of_N p) EmptyString
   else if p <? 2048 then
     String (ascii_of_N (192 + p / 64))
       (String (ascii_of_N (128 + p mod 64)) EmptyString)
   else
     String (ascii_of_N (224 + p / 4096))
       (String (ascii_of_N (128 + (p / 64) mod 64))
          (String (ascii_of_N (128 + p mod 64)) EmptyString)))%N.

(** The code points that [trim] strips: the white space of the language
    (TAB, VT, FF, U+FEFF and the space separators SPACE, U+00A0, U+1680,
    U+2000 to U+200A, U+202F, U+205F, U+3000) and its line terminators
    (LF, CR, U+2028, U+2029). *)
Definition white_points : list N :=
  [9; 10; 11; 12; 13; 32; 160; 5760;
   8192; 8193; 8194; 8195; 8196; 8197; 8198; 8199; 8200; 8201; 8202;
   8232; 8233; 8239; 8287; 12288; 65279]%N.

Definition white_space : list string := Eval cbv in map utf8 white_points.

(** [s] without its prefix [p], when it starts with [p]. *)
Fixpoint strip_prefix (p s : string) : option string :=
  match p, s with
  | EmptyString, _ => Some s
  | String _ _, EmptyString => None
  | String a p', String b s' => if Ascii.eqb a b then strip_prefix p' s' else None
  end.

(** [s] without the first of the characters [ws] that it starts with. *)
Fixpoint strip_first (ws : list string) (s : string) : option string :=
  match ws with
  | [] => None
  | w :: ws' =>
      match strip_prefix w s with
      | Some r => Some r
      | None => strip_first ws' s
      end
  end.

(** [s] without the white space character that it starts with. *)
Definition strip_white (s : string) : option string := strip_first white_space s.

(** Strips white space characters from the front, at most [n] of them. *)
Fixpoint trimStart_upto (n : nat) (s : string) : string :=
  match n with
  | O => s
  | S n' =>
      match strip_white s with
      | Some r => trimStart_upto n' r
      | None => s
      end
  end.

(** [s.trimStart()]: a text has no more characters than bytes. *)
Definition trimStart (s : string) : string := trimStart_upto (String.length s) s.

(** [s.trimEnd()]: the text is cut where only white space follows. *)
Fixpoint trimEnd (s : string) : string :=
  match s with
  | EmptyString => EmptyString
  | String c s' =>
      match trimStart s with
      | EmptyString => EmptyString
      | String _ _ => String c (trimEnd s')
      end
  end.

(** [s.trim()] *)
Definition trim (s : string) : string := trimEnd (trimStart s).

(** The first code unit of a JavaScript string, as the text of its
    character, and the text after it: [(s.charAt(0), s.slice(1))].  A
    character of the Basic Multilingual Plane is one code unit and one to
    three bytes, told by the first byte (below C0: one byte, below E0:
    two, below F0: three).  [None] for the empty text, where both parts
    are empty, and for a first character outside that plane, whose first
    code unit is half of a surrogate pair and no text of its own. *)
Definition firstUnit (s : string) : option (string * string) :=
  match s with
  | EmptyString => None
  | String c1 r1 =>
      let n := nat_of_ascii c1 in
      if (n <? 192)%nat then Some (String c1 EmptyString, r1)
      else if (n <? 224)%nat then
        match r1 with
        | String c2 r2 => Some (String c1 (String c2 EmptyString), r2)
        | EmptyString => Some (String c1 EmptyString, r1)
        end
      else if (n <? 240)%nat then
        match r1 with
        | String c2 (String c3 r3) =>
            Some (String c1 (String c2 (String c3 EmptyString)), r3)
        | _ => Some (String c1 EmptyString, r1)
        end
      else None
  end.

(** The decimal text of an integer, as a template literal prints it
    (below 10^21, where the language turns to the exponent notation: the
    identifiers, counts and time values printed here are far below). *)
Definition decimal (z : Z) : string := NilZero.string_of_int (Z.to_int z).

(** [a.slice(0, n)] on an array *)
Definition slice0 {A : Type} (n : nat) (a : list A) : list A := firstn n a.

(** The result of awaiting a promise. *)
Inductive Completion (A : Type) : Type :=
| Fulfilled (a : A)
| Rejected (reason : string).
Arguments Fulfilled {A} a.
Arguments Rejected {A} reason.

End Js.
Import Js.

(* ===================================================================== *)
(** ** The host: time zone, date parser, collation, date formats          *)
(* ===================================================================== *)

Record Runtime : Type := {
  (** the time value of [new Date(s)]; [None] for an invalid date *)
  Date_parse : string -> Num;
  (** the time value after [d.setHours(0, 0, 0, 0)], local time *)
  startOfDay : Z -> Z;
  (** the time value after [d.setDate(d.getDate() - 1)], local time *)
  previousDay : Z -> Z;
  (** [a.localeCompare(b)] *)
  localeCompare : string -> string -> Z;
  (** [d.toDateString()] of a valid date *)
  toDateString : Z -> string;
  (** [d.toLocaleTimeString([], {hour: '2-digit', minute: '2-digit'})] *)
  toLocaleTimeString : Z -> string;
  (** [d.toLocaleDateString([], {weekday: 'long', hour: '2-digit', minute: '2-digit'})] *)
  toLocaleWeekday : Z -> string;
  (** [d.toLocaleDateString([], {month: 'short', day: 'numeric', year: 'numeric'})] *)
  toLocaleShortDate : Z -> string;
  (** [s.toUpperCase()], by the Unicode tables of the engine *)
  toUpperCase : string -> string
}.

(** [s.charAt(0).toUpperCase() + s.slice(1)].  The empty text stays
    empty.  A lone half of a surrogate pair has no upper case, so a text
    whose first character is outside the Basic Multilingual Plane is left
    as it is. *)
Definition capitalized (rt : Runtime) (s : string) : string :=
  match firstUnit s with
  | Some (first, rest) => (toUpperCase rt first ++ rest)%string
  | None => s
  end.

(** What [localeCompare] has to be for a sort that calls it to be
    determined: the sign flips when the arguments are swapped, and
    "sorts before" is transitive. *)
Record Collation (rt : Runtime) : Prop := {
  collation_swap : forall s t, localeCompare rt s t < 0 <-> 0 < localeCompare rt t s;
  collation_trans : forall s t u,
      localeCompare rt s t < 0 -> localeCompare rt t u < 0 -> localeCompare rt s u < 0
}.

(* ===================================================================== *)
(** ** Data model                                                         *)
(* ===================================================================== *)

(** Modelled from the spec: [types/task.ts] is not among the sources.  A
    task is {id, title, description?, completed, priority in
    {low, medium, high}, due_date?, recurring in {none, daily, weekly,
    monthly}, category in {work, home, other}, created_at, user_id}; the
    pages read [recurring] and [category] as optional. *)
Inductive Priority : Type := low | medium | high.
Inductive Recurring : Type := rec_none | daily | weekly | monthly.
Inductive Category : Type := work | home | other.

Record Task : Type := {
  id : Z;
  title : string;
  description : option string;
  completed : bool;
  priority : Priority;
  due_date : option string;
  recurring : option Recurring;
  category : option Category;
  created_at : string;
  user_id : Z
}.

(* ===================================================================== *)
(** ** Array.prototype.sort                                               *)
(* ===================================================================== *)

(** [sort] is stable and observes the comparator's result only through
    its sign, [NaN] counting as zero.  The model is a stable insertion:
    each element in turn is the pivot and goes before the first element
    of the sorted prefix that it precedes.  For a consistent comparator,
    one whose "sorts before" is a strict order that ranks unrelated
    elements alike, this is the array that every engine returns.  A
    comparator that returns [NaN] against some element, as the date keys
    do for a date that does not parse, is not consistent: the language
    leaves the order to the engine then, and the model gives the order
    of this insertion only. *)
Module ArraySort.
Section Sort.
Context {A : Type}.
Variable comparefn : A -> A -> Num.

Definition precedes (a b : A) : bool :=
  match comparefn a b with
  | Some v => v <? 0
  | None => false
  end.

Fixpoint insert (pivot : A) (sorted : list A) : list A :=
  match sorted with
  | [] => [pivot]
  | e :: rest =>
      if precedes pivot e then pivot :: e :: rest
      else e :: insert pivot rest
  end.

Definition sort (a : list A) : list A :=
  fold_left (fun sorted pivot => insert pivot sorted) a [].
End Sort.
End ArraySort.

(* ===================================================================== *)
(** ** tasks/page.tsx: the filter and sort pipeline                       *)
(* ===================================================================== *)

Module TasksPage.

Inductive Filter : Type := all | active | filter_completed | overdue | upcoming.
Inductive SortBy : Type := by_created_at | by_due_date | by_priority | by_title.
Inductive SortOrder : Type := asc | desc.

(** The component state that [applyFiltersAndSorting] reads. *)
Record View : Type := {
  searchTerm : string;
  filter : Filter;
  sortBy : SortBy;
  sortOrder : SortOrder
}.

(** [getToday]: the clock's date at local midnight. *)
Definition getToday (rt : Runtime) (now : Z) : Z := startOfDay rt now.

(** The predicate of the search filter; [term] is already lower case. *)
Definition matchesSearch (term : string) (task : Task) : bool :=
  includes (toLowerCase (title task)) term
  || match description task with
     | Some d => includes (toLowerCase d) term
     | None => false
     end.

(** [taskDate]: [null] without a due date, else the [Date] set to local
    midnight; the time value of an invalid [Date] stays [NaN]. *)
Definition taskDate (rt : Runtime) (task : Task) : option Num :=
  match due_date task with
  | Some s =>
      if truthy_string s
      then Some (match Date_parse rt s with
                 | Some t => Some (startOfDay rt t)
                 | None => None
                 end)
      else None
  | None => None
  end.

(** The predicate of the status filter. *)
Definition statusKeeps (rt : Runtime) (today : Z) (f : Filter) (task : Task) : bool :=
  let taskDate := taskDate rt task in
  match f with
  | active => negb (completed task)
  | filter_completed => completed task
  | overdue =>
      negb (completed task)
      && match taskDate with
         | Some d => num_ltb d (Some today)
         | None => false
         end
  | upcoming =>
      negb (completed task)
      && match taskDate with
         | Some d => num_geb d (Some today)
         | None => false
         end
  | all => true
  end.

Definition pOrder (p : Priority) : Z :=
  match p with
  | high => 3
  | medium => 2
  | low => 1
  end.

(** [new Date(s).getTime()] *)
Definition getTime (rt : Runtime) (s : string) : Num := Date_parse rt s.

(** The value of [comparison] at the end of the [switch]. *)
Definition comparison (rt : Runtime) (key : SortBy) (a b : Task) : Num :=
  match key with
  | by_title => Some (localeCompare rt (title a) (title b))
  | by_due_date =>
      if negb (truthy_opt (due_date a)) && negb (truthy_opt (due_date b)) then Some 0
      else if negb (truthy_opt (due_date a)) then Some 1
      else if negb (truthy_opt (due_date b)) then Some (-1)
      else num_sub (getTime rt (default EmptyString (due_date a)))
                   (getTime rt (default EmptyString (due_date b)))
  | by_priority => Some (pOrder (priority b) - pOrder (priority a))
  | by_created_at => num_sub (getTime rt (created_at b)) (getTime rt (created_at a))
  end.

(** The comparator handed to [sort]. *)
Definition comparator (rt : Runtime) (key : SortBy) (order : SortOrder) (a b : Task) : Num :=
  match order with
  | asc => comparison rt key a b
  | desc => num_neg (comparison rt key a b)
  end.

(** The array that [applyFiltersAndSorting] hands to [setFilteredTasks]. *)
Definition applyFiltersAndSorting
    (rt : Runtime) (now : Z) (v : View) (tasksToFilter : list Task) : list Task :=
  let result := tasksToFilter in
  let today := getToday rt now in
  let result :=
    if truthy_string (searchTerm v)
    then let term := toLowerCase (searchTerm v) in
         List.filter (matchesSearch term) result
    else result in
  let result := List.filter (statusKeeps rt today (filter v)) result in
  ArraySort.sort (comparator rt (sortBy v) (sortOrder v)) result.

End TasksPage.

(* ===================================================================== *)
(** ** Arrays in a store                                                  *)
(* ===================================================================== *)

(** An array is a location of a store; [[...a]] and [a.filter(p)] allocate,
    [a.sort(f)] writes the array it is called on.  A computation fails
    ([None]) only when it reads a location that holds no array. *)
Module Store.

Abbreviation loc := nat.
Abbreviation Heap := (gmap nat (list Task)).

Definition M (A : Type) : Type := Heap -> option (A * Heap).

Definition ret {A : Type} (a : A) : M A := fun h => Some (a, h).

Definition bind {A B : Type} (m : M A) (k : A -> M B) : M B :=
  fun h => match m h with
           | Some (a, h') => k a h'
           | None => None
           end.

Definition alloc (a : list Task) : M loc :=
  fun h => let l := fresh (dom h) in Some (l, <[l := a]> h).

Definition read (l : loc) : M (list Task) :=
  fun h => match h !! l with
           | Some a => Some (a, h)
           | None => None
           end.

Definition write (l : loc) (a : list Task) : M unit :=
  fun h => match h !! l with
           | Some _ => Some (tt, <[l := a]> h)
           | None => None
           end.

(** [[...a]] *)
Definition spread (a : loc) : M loc := bind (read a) alloc.

(** [a.filter(p)] *)
Definition Array_filter (p : Task -> bool) (a : loc) : M loc :=
  bind (read a) (fun elems => alloc (List.filter p elems)).

(** [a.sort(f)]: in place, returns the array itself *)
Definition Array_sort (f : Task -> Task -> Num) (a : loc) : M loc :=
  bind (read a) (fun elems =>
  bind (write a (ArraySort.sort f elems)) (fun _ =>
  ret a)).

End Store.

Module TasksPageStore.
Import Store TasksPage.

Notation "x <- m ;; k" := (bind m (fun x => k))
  (at level 100, m at next level, right associativity).

(** [applyFiltersAndSorting] on the store; the result is the array passed
    to [setFilteredTasks]. *)
Definition applyFiltersAndSorting
    (rt : Runtime) (now : Z) (v : View) (tasksToFilter : loc) : M loc :=
  result <- spread tasksToFilter ;;
  let today := getToday rt now in
  result <- (if truthy_string (searchTerm v)
             then let term := toLowerCase (searchTerm v) in
                  Array_filter (matchesSearch term) result
             else ret result) ;;
  result <- Array_filter (statusKeeps rt today (filter v)) result ;;
  _ <- Array_sort (comparator rt (sortBy v) (sortOrder v)) result ;;
  ret result.

End TasksPageStore.

(* ===================================================================== *)
(** ** types/activity.ts, as its users read and write it                  *)
(* ===================================================================== *)

Module Activity.

(** Modelled from the spec: [types/activity.ts] is not among the sources.
    An activity is {id, action/type, task_title, created_at/timestamp}:
    the records of the server have the first name of each pair, the
    events of the pages the second, as [handleTaskActivity] converts them.

    An identifier is a number (server records) or a string (events
    emitted by the pages). *)
Inductive Id : Type := IdNum (n : Z) | IdStr (s : string).

(** [a === b] on identifiers: values of different types differ. *)
Definition strict_eqb (a b : Id) : bool :=
  match a, b with
  | IdNum x, IdNum y => x =? y
  | IdStr s, IdStr t => String.eqb s t
  | _, _ => false
  end.

(** An entry of the feed, in the shape of the server's records. *)
Record Item : Type := {
  id : Id;
  action : string;
  task_title : option string;
  created_at : string
}.

(** The [detail] of a ['task-activity'] event. *)
Record Detail : Type := {
  detail_id : Id;
  type : string;
  taskId : option Z;
  taskTitle : option string;
  userId : option Z;
  timestamp : string;
  message : string
}.

End Activity.

(* ===================================================================== *)
(** ** api/client.ts, as the callers see it                               *)
(* ===================================================================== *)

Module ApiClient.

(** Modelled from the spec: [api/client.ts] is not among the sources.  The
    client issues GET, POST, PUT and DELETE requests and returns a
    normalised {success, data | error}; what it answers is left open. *)
Inductive Payload : Type :=
| PTask (t : Task)
| PTasks (ts : list Task)
| PActivities (acts : list Activity.Item).

(** The normalised answer of the client; a missing [data] is [None]. *)
Record Response : Type := {
  success : bool;
  data : option Payload;
  error : option string
}.

Definition Headers : Type := list (string * string).

Record CreateTaskData : Type := {
  c_title : string;
  c_description : option string;
  c_priority : option Priority;
  c_due_date : option string;
  c_recurring : option Recurring;
  c_category : option Category
}.

Record UpdateTaskData : Type := {
  u_title : option string;
  u_description : option string;
  u_completed : option bool;
  u_priority : option Priority;
  u_due_date : option string;
  u_recurring : option Recurring;
  u_category : option Category
}.

Inductive Body : Type :=
| BCreate (d : CreateTaskData)
| BUpdate (d : UpdateTaskData).

(** The client: what each request is answered with. *)
Record Client : Type := {
  get : string -> Headers -> Completion Response;
  post : string -> Body -> Headers -> Completion Response;
  put : string -> Body -> Headers -> Completion Response;
  delete : string -> Headers -> Completion Response
}.

(** [await m] followed by [k], with rejections passed on. *)
Definition await {A B : Type} (m : Completion A) (k : A -> Completion B) : Completion B :=
  match m with
  | Fulfilled a => k a
  | Rejected r => Rejected r
  end.

End ApiClient.

(* ===================================================================== *)
(** ** api/tasks.ts                                                       *)
(* ===================================================================== *)

Module TasksApi.
Import ApiClient.

(** The result objects; a key that is not set is [None]. *)
Record Result : Type := {
  r_success : bool;
  r_tasks : option Payload;
  r_task : option Payload;
  r_error : option string
}.

Definition bearer (token : string) : Headers :=
  [("Authorization", ("Bearer " ++ token)%string)].

Definition isSome {A : Type} (o : option A) : bool :=
  match o with Some _ => true | None => false end.

Definition getAllTasks (c : Client) (token : string) : Completion Result :=
  await (get c "/tasks" (bearer token)) (fun response =>
  if success response
  then Fulfilled {| r_success := true; r_tasks := data response;
                    r_task := None; r_error := None |}
  else Fulfilled {| r_success := false; r_tasks := None;
                    r_task := None; r_error := error response |}).

Definition createTask (c : Client) (taskData : CreateTaskData) (token : string)
  : Completion Result :=
  await (post c "/tasks" (BCreate taskData) (bearer token)) (fun response =>
  if success response && isSome (data response)
  then Fulfilled {| r_success := true; r_tasks := None;
                    r_task := data response; r_error := None |}
  else Fulfilled {| r_success := false; r_tasks := None;
                    r_task := None; r_error := error response |}).

Definition updateTask (c : Client) (taskId : Z) (taskData : UpdateTaskData) (token : string)
  : Completion Result :=
  await (put c ("/tasks/" ++ decimal taskId)%string (BUpdate taskData) (bearer token))
    (fun response =>
  if success response && isSome (data response)
  then Fulfilled {| r_success := true; r_tasks := None;
                    r_task := data response; r_error := None |}
  else Fulfilled {| r_success := false; r_tasks := None;
                    r_task := None; r_error := error response |}).

Definition deleteTask (c : Client) (taskId : Z) (token : string) : Completion Result :=
  await (delete c ("/tasks/" ++ decimal taskId)%string (bearer token)) (fun response =>
  if success response
  then Fulfilled {| r_success := true; r_tasks := None;
                    r_task := None; r_error := None |}
  else Fulfilled {| r_success := false; r_tasks := None;
                    r_task := None; r_error := error response |}).

Definition getTaskById (c : Client) (taskId : Z) (token : string) : Completion Result :=
  await (get c ("/tasks/" ++ decimal taskId)%string (bearer token)) (fun response =>
  if success response && isSome (data response)
  then Fulfilled {| r_success := true; r_tasks := None;
                    r_task := data response; r_error := None |}
  else Fulfilled {| r_success := false; r_tasks := None;
                    r_task := None; r_error := error response |}).

End TasksApi.

(* ===================================================================== *)
(** ** components/Dashboard/RecentActivity.tsx                            *)
(* ===================================================================== *)

Module RecentActivity.
Import Activity ApiClient.

Record State : Type := {
  activities : list Item;
  loading : bool;
  error : option string
}.

(** The message of the [TypeError] raised when [data] is no array. *)
Definition slice_type_error : string := "response.data?.slice is not a function".

(** [fetchActivities], from the state at mount to the state once the
    request has settled.  The request is declared to answer with a list
    of activities.  Data of another shape are outside that type: the
    model ends them all in the branch of the [TypeError] that a value
    without [slice] raises, and does not follow a list of tasks, which
    has [slice], into the feed. *)
Definition fetchActivities (c : Client) (token : option string) (st : State) : State :=
  if negb (truthy_opt token)
  then {| activities := activities st; loading := false;
          error := Some "Authentication token not available" |}
  else
    match get c "/activities/recent"
              [("Authorization", ("Bearer " ++ default EmptyString token)%string);
               ("Content-Type", "application/json")] with
    | Fulfilled response =>
        if negb (success response)
        then {| activities := activities st; loading := false;
                error := Some ("Failed to fetch activities: "
                               ++ default "undefined" (ApiClient.error response))%string |}
        else
          match data response with
          | Some (PActivities acts) =>
              {| activities := slice0 10 acts; loading := false; error := None |}
          | None =>
              {| activities := []; loading := false; error := None |}
          | Some _ =>
              {| activities := activities st; loading := false;
                 error := Some slice_type_error |}
          end
    | Rejected reason =>
        {| activities := activities st; loading := false; error := Some reason |}
    end.

(** The entry built from an event's detail. *)
Definition convertedActivity (activityDetail : Detail) : Item :=
  {| id := detail_id activityDetail;
     action := type activityDetail;
     task_title := taskTitle activityDetail;
     created_at := timestamp activityDetail |}.

(** [handleTaskActivity]: the update it applies to [activities]. *)
Definition handleTaskActivity (activityDetail : Detail) (prevActivities : list Item)
  : list Item :=
  let convertedActivity := convertedActivity activityDetail in
  let filteredActivities :=
    List.filter (fun activity => negb (strict_eqb (id activity) (id convertedActivity)))
                prevActivities in
  slice0 10 (convertedActivity :: filteredActivities).

End RecentActivity.

(* ===================================================================== *)
(** ** utils/timeUtils.ts                                                 *)
(* ===================================================================== *)

Module TimeUtils.

(** The text of a number in a template literal. *)
Definition num_text (n : Num) : string :=
  match n with
  | Some z => decimal z
  | None => "NaN"
  end.

(** [n !== 1] *)
Definition num_is_not_one (n : Num) : bool :=
  match n with
  | Some z => negb (z =? 1)
  | None => true
  end.

(** A date method that returns text; an invalid date prints as such. *)
Definition date_text (f : Z -> string) (d : Num) : string :=
  match d with
  | Some t => f t
  | None => "Invalid Date"
  end.

Definition formatTimeAgo (rt : Runtime) (now : Z) (dateString : option string) : string :=
  if negb (truthy_opt dateString) then "just now"
  else
    let date := Date_parse rt (default EmptyString dateString) in
    let seconds := num_floor_div (num_sub (Some now) date) 1000 in
    if num_ltb seconds (Some 60) then "just now"
    else if num_ltb seconds (Some 3600) then
      let minutes := num_floor_div seconds 60 in
      (num_text minutes ++ " minute" ++ (if num_is_not_one minutes then "s" else EmptyString)
         ++ " ago")%string
    else if num_ltb seconds (Some 86400) then
      let hours := num_floor_div seconds 3600 in
      (num_text hours ++ " hour" ++ (if num_is_not_one hours then "s" else EmptyString)
         ++ " ago")%string
    else if String.eqb (date_text (toDateString rt) date) (toDateString rt now) then
      ("Today at " ++ date_text (toLocaleTimeString rt) date)%string
    else
      let yesterday := previousDay rt now in
      if String.eqb (date_text (toDateString rt) date) (toDateString rt yesterday) then
        ("Yesterday at " ++ date_text (toLocaleTimeString rt) date)%string
      else if num_ltb seconds (Some 604800) then
        date_text (toLocaleWeekday rt) date
      else
        date_text (toLocaleShortDate rt) date.

End TimeUtils.

(* ===================================================================== *)
(** ** tasks/new/page.tsx                                                 *)
(* ===================================================================== *)

Module NewTaskPage.
Import ApiClient.

Record State : Type := {
  formData : CreateTaskData;
  loading : bool;
  error : string
}.

(** What a run of the handler does besides setting state, in order. *)
Inductive Effect : Type :=
| preventDefault
| callCreateTask (taskData : CreateTaskData) (token : string)
| dispatchEvent (name : string) (detail : option Activity.Detail)
| routerPush (path : string)
| consoleError (text : string).

(** What the handler reads from the host when it builds an event:
    [Date.now()], the nine characters kept of [Math.random()] in base 36,
    and [new Date().toISOString()]. *)
Record Host : Type := {
  Date_now : Z;
  random36 : string;
  nowISOString : string
}.

Definition with_title (d : CreateTaskData) (t : string) : CreateTaskData :=
  {| c_title := t;
     c_description := c_description d;
     c_priority := c_priority d;
     c_due_date := c_due_date d;
     c_recurring := c_recurring d;
     c_category := c_category d |}.

(** The task that a payload is read as; the properties read from a
    payload of another shape are [undefined]. *)
Definition asTask (p : Payload) : option Task :=
  match p with
  | PTask t => Some t
  | _ => None
  end.

Definition dquote : string := String (ascii_of_nat 34) EmptyString.

Definition createdActivity (host : Host) (newTask : Payload) : Activity.Detail :=
  {| Activity.detail_id :=
       Activity.IdStr ("act-" ++ decimal (Date_now host) ++ "-" ++ random36 host)%string;
     Activity.type := "task_created";
     Activity.taskId := option_map id (asTask newTask);
     Activity.taskTitle := option_map title (asTask newTask);
     Activity.userId := option_map user_id (asTask newTask);
     Activity.timestamp :=
       if truthy_opt (option_map created_at (asTask newTask))
       then default EmptyString (option_map created_at (asTask newTask))
       else nowISOString host;
     Activity.message :=
       ("Task " ++ dquote
          ++ default "undefined" (option_map title (asTask newTask))
          ++ dquote ++ " was created")%string |}.

(** [handleSubmit]: the state once the handler has run to its end, and
    its effects. *)
Definition handleSubmit (rt : Runtime) (c : Client) (host : Host) (token : string)
  (st : State) : State * list Effect :=
  if negb (truthy_string (trim (c_title (formData st))))
  then ({| formData := formData st; loading := loading st;
           error := "Title is required" |},
        [preventDefault])
  else
    let capitalizedFormData :=
      with_title (formData st) (capitalized rt (c_title (formData st))) in
    let call := callCreateTask capitalizedFormData token in
    match TasksApi.createTask c capitalizedFormData token with
    | Fulfilled result =>
        match TasksApi.r_success result, TasksApi.r_task result with
        | true, Some newTask =>
            ({| formData := formData st; loading := true; error := EmptyString |},
             [preventDefault; call;
              dispatchEvent "task-updated" None;
              dispatchEvent "task-activity" (Some (createdActivity host newTask));
              routerPush "/tasks"])
        | _, _ =>
            ({| formData := formData st; loading := false;
                error := if truthy_opt (TasksApi.r_error result)
                         then default EmptyString (TasksApi.r_error result)
                         else "Failed to create task" |},
             [preventDefault; call])
        end
    | Rejected reason =>
        ({| formData := formData st; loading := false;
            error := "An error occurred while creating the task" |},
         [preventDefault; call; consoleError "Error creating task:"])
    end.

End NewTaskPage.

(* ===================================================================== *)
(** ** A host to run the model on                                         *)
(* ===================================================================== *)

(** A host in the UTC time zone that reads ISO 8601 calendar dates
    ([YYYY-MM-DD], optionally followed by [THH:MM:SS] and [Z]), collates
    strings by code unit and prints dates in ISO style. *)
Module ExampleHost.

Definition msPerDay : Z := 86400000.

(** Days since 1970-01-01 of a date of the proleptic Gregorian calendar. *)
Definition days_from_civil (y m d : Z) : Z :=
  let y' := if m <=? 2 then y - 1 else y in
  let era := y' / 400 in
  let yoe := y' - era * 400 in
  let doy := (153 * (if 2 <? m then m - 3 else m + 9) + 2) / 5 + d - 1 in
  let doe := yoe * 365 + yoe / 4 - yoe / 100 + doy in
  era * 146097 + doe - 719468.

(** Year, month and day of a number of days since 1970-01-01. *)
Definition civil_from_days (z : Z) : Z * Z * Z :=
  let z := z + 719468 in
  let era := z / 146097 in
  let doe := z - era * 146097 in
  let yoe := (doe - doe / 1460 + doe / 36524 - doe / 146096) / 365 in
  let doy := doe - (365 * yoe + yoe / 4 - yoe / 100) in
  let mp := (5 * doy + 2) / 153 in
  let d := doy - (153 * mp + 2) / 5 + 1 in
  let m := if mp <? 10 then mp + 3 else mp - 9 in
  let y := yoe + era * 400 in
  (if m <=? 2 then y + 1 else y, m, d).

Definition digit (c : ascii) : option Z :=
  let n := nat_of_ascii c in
  if ((48 <=? n)%nat && (n <=? 57)%nat)%bool then Some (Z.of_nat n - 48) else None.

Definition number (cs : list ascii) : option Z :=
  fold_left (fun acc c =>
               match acc, digit c with
               | Some n, Some k => Some (10 * n + k)
               | _, _ => None
               end) cs (Some 0).

Definition calendar_date (y m d : list ascii) : option Z :=
  match number y, number m, number d with
  | Some y, Some m, Some d =>
      if (1 <=? m) && (m <=? 12) && (1 <=? d) && (d <=? 31)
      then Some (days_from_civil y m d * msPerDay)
      else None
  | _, _, _ => None
  end.

Definition time_of_day (h m s : list ascii) : option Z :=
  match number h, number m, number s with
  | Some h, Some m, Some s =>
      if (h <=? 23) && (m <=? 59) && (s <=? 59)
      then Some (((h * 60 + m) * 60 + s) * 1000)
      else None
  | _, _, _ => None
  end.

Definition parse (s : string) : Num :=
  match list_ascii_of_string s with
  | [y1; y2; y3; y4; "-"; m1; m2; "-"; d1; d2]%char =>
      calendar_date [y1; y2; y3; y4] [m1; m2] [d1; d2]
  | [y1; y2; y3; y4; "-"; m1; m2; "-"; d1; d2; "T"; h1; h2; ":"; n1; n2; ":"; s1; s2]%char
  | [y1; y2; y3; y4; "-"; m1; m2; "-"; d1; d2; "T"; h1; h2; ":"; n1; n2; ":"; s1; s2; "Z"]%char =>
      match calendar_date [y1; y2; y3; y4] [m1; m2] [d1; d2],
            time_of_day [h1; h2] [n1; n2] [s1; s2] with
      | Some day, Some ms => Some (day + ms)
      | _, _ => None
      end
  | _ => None
  end.

Definition midnight (t : Z) : Z := t - t mod msPerDay.

Definition collate (s t : string) : Z :=
  match String.compare s t with
  | Lt => -1
  | Eq => 0
  | Gt => 1
  end.

Definition two_digits (n : Z) : string :=
  if n <? 10 then ("0" ++ decimal n)%string else decimal n.

Definition iso_date (t : Z) : string :=
  let '(y, m, d) := civil_from_days (t / msPerDay) in
  (decimal y ++ "-" ++ two_digits m ++ "-" ++ two_digits d)%string.

Definition iso_time (t : Z) : string :=
  let minutes := (t mod msPerDay) / 60000 in
  (two_digits (minutes / 60) ++ ":" ++ two_digits (minutes mod 60))%string.

(** The upper case of the letters a to z; the other bytes are kept. *)
Definition upper_unit (c : ascii) : ascii :=
  let n := nat_of_ascii c in
  if ((97 <=? n)%nat && (n <=? 122)%nat)%bool then ascii_of_nat (n - 32) else c.

Fixpoint upper (s : string) : string :=
  match s with
  | EmptyString => EmptyString
  | String c s' => String (upper_unit c) (upper s')
  end.

Definition host : Runtime :=
  {| Date_parse := parse;
     startOfDay := midnight;
     previousDay := fun t => t - msPerDay;
     localeCompare := collate;
     toDateString := iso_date;
     toLocaleTimeString := iso_time;
     toLocaleWeekday := fun t => (iso_date t ++ " " ++ iso_time t)%string;
     toLocaleShortDate := iso_date;
     toUpperCase := upper |}.

End ExampleHost.

(** A host five hours west of UTC, without daylight saving.  As the
    language has it, a calendar date alone ([YYYY-MM-DD]) is read as
    midnight UTC, a date with a time and no zone as local time, and one
    that ends in [Z] as UTC. *)
Module WestHost.

(** What has to be added to a local time to get the time UTC. *)
Definition offset : Z := 5 * 3600000.

Definition parse (s : string) : Num :=
  match list_ascii_of_string s with
  | [y1; y2; y3; y4; "-"; m1; m2; "-"; d1; d2]%char =>
      ExampleHost.calendar_date [y1; y2; y3; y4] [m1; m2] [d1; d2]
  | [y1; y2; y3; y4; "-"; m1; m2; "-"; d1; d2; "T"; h1; h2; ":"; n1; n2; ":"; s1; s2]%char =>
      match ExampleHost.calendar_date [y1; y2; y3; y4] [m1; m2] [d1; d2],
            ExampleHost.time_of_day [h1; h2] [n1; n2] [s1; s2] with
      | Some day, Some ms => Some (day + ms + offset)
      | _, _ => None
      end
  | [y1; y2; y3; y4; "-"; m1; m2; "-"; d1; d2; "T"; h1; h2; ":"; n1; n2; ":"; s1; s2; "Z"]%char =>
      match ExampleHost.calendar_date [y1; y2; y3; y4] [m1; m2] [d1; d2],
            ExampleHost.time_of_day [h1; h2] [n1; n2] [s1; s2] with
      | Some day, Some ms => Some (day + ms)
      | _, _ => None
      end
  | _ => None
  end.

(** Local midnight of the local day of [t]. *)
Definition midnight (t : Z) : Z := ExampleHost.midnight (t - offset) + offset.

Definition host : Runtime :=
  {| Date_parse := parse;
     startOfDay := midnight;
     previousDay := fun t => t - ExampleHost.msPerDay;
     localeCompare := ExampleHost.collate;
     toDateString := fun t => ExampleHost.iso_date (t - offset);
     toLocaleTimeString := fun t => ExampleHost.iso_time (t - offset);
     toLocaleWeekday :=
       fun t => (ExampleHost.iso_date (t - offset) ++ " "
                 ++ ExampleHost.iso_time (t - offset))%string;
     toLocaleShortDate := fun t => ExampleHost.iso_date (t - offset);
     toUpperCase := ExampleHost.upper |}.

End WestHost.

(* ===================================================================== *)
(** ** Sample data                                                        *)
(* ===================================================================== *)

Module Sample.
Import TasksPage.

Definition task (i : Z) (t : string) (done : bool) (p : Priority) (due : option string)
  : Task :=
  {| id := i; title := t; description := None; completed := done;
     priority := p; due_date := due; recurring := Some rec_none;
     category := Some other; created_at := "2024-01-01T09:00:00"; user_id := 1 |}.

Definition view (f : Filter) (key : SortBy) (order : SortOrder) : View :=
  {| searchTerm := EmptyString; filter := f; sortBy := key; sortOrder := order |}.

(** 2024-03-10, 12:00 and 2024-03-20, 12:00 *)
Definition march10 : Z := 1710072000000.
Definition march20 : Z := 1710936000000.

Definition undated : Task := task 1 "No date" false medium None.
Definition dated : Task := task 2 "Dated" false medium (Some "2024-03-15").
Definition past_due : Task := task 3 "Past" false medium (Some "2024-03-05").

(** 2024-03-10, 12:00 five hours west of UTC, and a task due that day. *)
Definition west_noon : Z := 1710090000000.
Definition due_today : Task := task 8 "Due today" false medium (Some "2024-03-10").

(** A record of the server and the detail of an event of a page. *)
Definition server_item (n : Z) (t : string) : Activity.Item :=
  {| Activity.id := Activity.IdNum n;
     Activity.action := "task_created";
     Activity.task_title := Some t;
     Activity.created_at := "2024-03-10T09:00:00" |}.

Definition local_detail : Activity.Detail :=
  {| Activity.detail_id := Activity.IdStr "act-1710072000000-k3j9x0a1b";
     Activity.type := "task_completed";
     Activity.taskId := Some 2;
     Activity.taskTitle := Some "Dated";
     Activity.userId := Some 1;
     Activity.timestamp := "2024-03-10T12:00:00";
     Activity.message :=
       ("Task " ++ NewTaskPage.dquote ++ "Dated" ++ NewTaskPage.dquote
          ++ " was marked as completed")%string |}.

(** A client that answers every request with the same response. *)
Definition answering (r : ApiClient.Response) : ApiClient.Client :=
  {| ApiClient.get := fun _ _ => Fulfilled r;
     ApiClient.post := fun _ _ _ => Fulfilled r;
     ApiClient.put := fun _ _ _ => Fulfilled r;
     ApiClient.delete := fun _ _ => Fulfilled r |}.

Definition failure : ApiClient.Response :=
  {| ApiClient.success := false;
     ApiClient.data := None;
     ApiClient.error := Some "Network error" |}.

(** An answer of the server in which two records have the identifier 7. *)
Definition repeated_ids : ApiClient.Response :=
  {| ApiClient.success := true;
     ApiClient.data :=
       Some (ApiClient.PActivities [server_item 7 "Dated"; server_item 7 "Dated"]);
     ApiClient.error := None |}.

Definition at_mount : RecentActivity.State :=
  {| RecentActivity.activities := [];
     RecentActivity.loading := true;
     RecentActivity.error := None |}.

Definition form (t : string) : NewTaskPage.State :=
  {| NewTaskPage.formData :=
       {| ApiClient.c_title := t;
          ApiClient.c_description := Some EmptyString;
          ApiClient.c_priority := Some medium;
          ApiClient.c_due_date := Some EmptyString;
          ApiClient.c_recurring := Some rec_none;
          ApiClient.c_category := Some other |};
     NewTaskPage.loading := false;
     NewTaskPage.error := EmptyString |}.

(** A title of white space only: U+00A0, a space, U+2028, a tab and
    U+FEFF. *)
Definition white_title : string :=
  (utf8 160 ++ " " ++ utf8 8232 ++ utf8 9 ++ utf8 65279)%string.

Definition page_host : NewTaskPage.Host :=
  {| NewTaskPage.Date_now := march10;
     NewTaskPage.random36 := "k3j9x0a1b";
     NewTaskPage.nowISOString := "2024-03-10T12:00:00.000Z" |}.

Definition no_update : ApiClient.UpdateTaskData :=
  {| ApiClient.u_title := None;
     ApiClient.u_description := None;
     ApiClient.u_completed := Some true;
     ApiClient.u_priority := None;
     ApiClient.u_due_date := None;
     ApiClient.u_recurring := None;
     ApiClient.u_category := None |}.

End Sample.

(* ===================================================================== *)
(** ** Date.prototype.toISOString                                         *)
(* ===================================================================== *)

(** The UTC text of a time value, [YYYY-MM-DDTHH:mm:ss.sssZ]; years outside
    0..9999 are written with a sign and six digits. *)
Module IsoText.

Fixpoint zeros (n : nat) : string :=
  match n with
  | O => EmptyString
  | S n' => String "0" (zeros n')
  end.

(** The decimal text of a natural number, filled with zeros on the left
    up to [width] characters. *)
Definition padded (width : nat) (n : Z) : string :=
  let text := decimal n in
  (zeros (width - String.length text) ++ text)%string.

Definition year_text (y : Z) : string :=
  if (0 <=? y) && (y <=? 9999) then padded 4 y
  else if y <? 0 then ("-" ++ padded 6 (- y))%string
  else ("+" ++ padded 6 y)%string.

Definition toISOString (t : Z) : string :=
  let '(y, m, d) := ExampleHost.civil_from_days (t / ExampleHost.msPerDay) in
  let ms := t mod ExampleHost.msPerDay in
  (year_text y ++ "-" ++ padded 2 m ++ "-" ++ padded 2 d
     ++ "T" ++ padded 2 (ms / 3600000)
     ++ ":" ++ padded 2 ((ms / 60000) mod 60)
     ++ ":" ++ padded 2 ((ms / 1000) mod 60)
     ++ "." ++ padded 3 (ms mod 1000) ++ "Z")%string.

(** [s.split('T')[0]]: the text before the first [T]. *)
Fixpoint beforeT (s : string) : string :=
  match s with
  | EmptyString => EmptyString
  | String c s' => if Ascii.eqb c "T" then EmptyString else String c (beforeT s')
  end.

End IsoText.

(* ===================================================================== *)
(** ** tasks/page.tsx: the handlers and the task item                     *)
(* ===================================================================== *)

Module TasksPageHandlers.
Import ApiClient.

(** The component state the handlers read and set. *)
Record State : Type := {
  tasks : list Task;
  loading : bool;
  editingTask : option Task;
  editFormData : CreateTaskData
}.

(** What a handler does besides setting state, in order. *)
Inductive Effect : Type :=
| callGetAllTasks (token : string)
| callUpdateTask (taskId : Z) (taskData : UpdateTaskData) (token : string)
| callDeleteTask (taskId : Z) (token : string)
| dispatchEvent (name : string) (detail : option Activity.Detail)
| routerPush (path : string)
| consoleError (text : string)
| alert (text : string).

(** A run of a handler: the state updates it queues, as one function of
    the state they are applied to, and its effects.  The handler reads
    the state of the render it was created in; the updates of [setTasks]
    with a function read the state they are applied to. *)
Record Outcome : Type := {
  update : State -> State;
  effects : list Effect
}.

Definition setTasks (f : list Task -> list Task) (st : State) : State :=
  {| tasks := f (tasks st); loading := loading st;
     editingTask := editingTask st; editFormData := editFormData st |}.

Definition setLoading (b : bool) (st : State) : State :=
  {| tasks := tasks st; loading := b;
     editingTask := editingTask st; editFormData := editFormData st |}.

Definition setEditingTask (t : option Task) (st : State) : State :=
  {| tasks := tasks st; loading := loading st;
     editingTask := t; editFormData := editFormData st |}.

Definition setEditFormData (d : CreateTaskData) (st : State) : State :=
  {| tasks := tasks st; loading := loading st;
     editingTask := editingTask st; editFormData := d |}.

Definition quoted (s : string) : string :=
  (NewTaskPage.dquote ++ s ++ NewTaskPage.dquote)%string.

Definition activityId (host : NewTaskPage.Host) : Activity.Id :=
  Activity.IdStr ("act-" ++ decimal (NewTaskPage.Date_now host) ++ "-"
                    ++ NewTaskPage.random36 host)%string.

(** [loadTasks].  An answer whose [tasks] is not a list of tasks is
    outside the declared type of [getAllTasks]; the model stops there
    ([None]). *)
Definition loadTasks (c : Client) (isAuthenticated : bool) (token : option string)
  : option Outcome :=
  if negb isAuthenticated || negb (truthy_opt token)
  then Some {| update := fun st => st; effects := [routerPush "/login"] |}
  else
    let tok := default EmptyString token in
    match TasksApi.getAllTasks c tok with
    | Fulfilled response =>
        if TasksApi.r_success response
        then match TasksApi.r_tasks response with
             | Some (PTasks loadedTasks) =>
                 Some {| update := fun st => setLoading false (setTasks (fun _ => loadedTasks) st);
                         effects := [callGetAllTasks tok] |}
             | None =>
                 Some {| update := fun st => setLoading false (setTasks (fun _ => []) st);
                         effects := [callGetAllTasks tok] |}
             | Some _ => None
             end
        else Some {| update := setLoading false; effects := [callGetAllTasks tok] |}
    | Rejected _ =>
        Some {| update := setLoading false;
                effects := [callGetAllTasks tok; consoleError "Failed to load tasks"] |}
    end.

Definition completedOnly (b : bool) : UpdateTaskData :=
  {| u_title := None; u_description := None; u_completed := Some b;
     u_priority := None; u_due_date := None; u_recurring := None; u_category := None |}.

(** [handleToggleComplete].  An answer whose [task] is not a task is
    outside the declared type of [updateTask]; the model stops there. *)
Definition handleToggleComplete
    (c : Client) (host : NewTaskPage.Host) (token : option string) (task : Task)
  : option Outcome :=
  if negb (truthy_opt token)
  then Some {| update := fun st => st; effects := [] |}
  else
    let tok := default EmptyString token in
    let taskData := completedOnly (negb (completed task)) in
    let call := callUpdateTask (id task) taskData tok in
    match TasksApi.updateTask c (id task) taskData tok with
    | Fulfilled result =>
        match TasksApi.r_success result, TasksApi.r_task result with
        | true, Some (PTask updatedTask) =>
            let activity :=
              {| Activity.detail_id := activityId host;
                 Activity.type := if negb (completed task) then "task_completed"
                                  else "task_uncompleted";
                 Activity.taskId := Some (id updatedTask);
                 Activity.taskTitle := Some (title updatedTask);
                 Activity.userId := Some (user_id updatedTask);
                 Activity.timestamp := NewTaskPage.nowISOString host;
                 Activity.message :=
                   if negb (completed task)
                   then ("Task " ++ quoted (title updatedTask)
                           ++ " was marked as completed")%string
                   else ("Task " ++ quoted (title updatedTask)
                           ++ " was marked as incomplete")%string |} in
            Some {| update :=
                      setTasks (map (fun t => if id t =? id task then updatedTask else t));
                    effects := [call;
                                dispatchEvent "task-updated" None;
                                dispatchEvent "task-activity" (Some activity)] |}
        | true, Some _ => None
        | _, _ => Some {| update := fun st => st; effects := [call] |}
        end
    | Rejected _ =>
        Some {| update := fun st => st; effects := [call; alert "Failed to update task."] |}
    end.

(** [tasks.find(t => t.id === taskId)] *)
Definition findTask (taskId : Z) (tasks : list Task) : option Task :=
  List.find (fun t => id t =? taskId) tasks.

(** [handleDeleteTask]; [rendered] is the state the handler was created
    in, which [tasks.find] reads. *)
Definition handleDeleteTask
    (c : Client) (host : NewTaskPage.Host) (token : option string) (rendered : State)
    (taskId : Z) : Outcome :=
  if negb (truthy_opt token)
  then {| update := fun st => st; effects := [] |}
  else
    let tok := default EmptyString token in
    let call := callDeleteTask taskId tok in
    match TasksApi.deleteTask c taskId tok with
    | Fulfilled result =>
        if TasksApi.r_success result
        then
          {| update := setTasks (List.filter (fun t => negb (id t =? taskId)));
             effects :=
               [call; dispatchEvent "task-updated" None]
               ++ match findTask taskId (tasks rendered) with
                  | Some deletedTask =>
                      [dispatchEvent "task-activity"
                         (Some {| Activity.detail_id := activityId host;
                                  Activity.type := "task_deleted";
                                  Activity.taskId := Some (id deletedTask);
                                  Activity.taskTitle := Some (title deletedTask);
                                  Activity.userId := Some (user_id deletedTask);
                                  Activity.timestamp := NewTaskPage.nowISOString host;
                                  Activity.message :=
                                    ("Task " ++ quoted (title deletedTask)
                                       ++ " was deleted")%string |})]
                  | None => []
                  end |}
        else {| update := fun st => st; effects := [call] |}
    | Rejected _ =>
        {| update := fun st => st; effects := [call; alert "Could not delete task."] |}
    end.

(** The form that [handleEditClick] fills in; [None] when [toISOString]
    raises a [RangeError] on an invalid date. *)
Definition editFormOf (rt : Runtime) (task : Task) : option CreateTaskData :=
  let form (due : string) :=
    {| c_title := title task;
       c_description := Some (if truthy_opt (description task)
                              then default EmptyString (description task)
                              else EmptyString);
       c_priority := Some (priority task);
       c_due_date := Some due;
       c_recurring := Some (default rec_none (recurring task));
       c_category := Some (default other (category task)) |} in
  if truthy_opt (due_date task)
  then match Date_parse rt (default EmptyString (due_date task)) with
       | Some t => Some (form (IsoText.beforeT (IsoText.toISOString t)))
       | None => None
       end
  else Some (form EmptyString).

(** [handleEditClick]: [setEditingTask] has run when the form is built. *)
Definition handleEditClick (rt : Runtime) (task : Task) (st : State) : State :=
  match editFormOf rt task with
  | Some form => setEditFormData form (setEditingTask (Some task) st)
  | None => setEditingTask (Some task) st
  end.

(** [formattedData]; [None] when [toISOString] raises a [RangeError]. *)
Definition formattedData (rt : Runtime) (form : CreateTaskData) : option UpdateTaskData :=
  let data (due : option string) :=
    {| u_title := Some (capitalized rt (c_title form));
       u_description := c_description form;
       u_completed := None;
       u_priority := c_priority form;
       u_due_date := due;
       u_recurring := c_recurring form;
       u_category := c_category form |} in
  if truthy_opt (c_due_date form)
  then match Date_parse rt (default EmptyString (c_due_date form) ++ "T00:00:00")%string with
       | Some t => Some (data (Some (IsoText.toISOString t)))
       | None => None
       end
  else Some (data None).

(** [{...updatedTask, due_date: updatedTask.due_date || undefined}] *)
Definition withDueDateOrUndefined (t : Task) : Task :=
  {| id := id t; title := title t; description := description t;
     completed := completed t; priority := priority t;
     due_date := if truthy_opt (due_date t) then due_date t else None;
     recurring := recurring t; category := category t;
     created_at := created_at t; user_id := user_id t |}.

(** [handleSaveEdit]; [rendered] is the state the handler was created in.
    An answer whose [task] is not a task is outside the declared type of
    [updateTask]; the model stops there. *)
Definition handleSaveEdit
    (rt : Runtime) (c : Client) (host : NewTaskPage.Host) (token : option string)
    (rendered : State) : option Outcome :=
  match truthy_opt token, editingTask rendered with
  | true, Some editing =>
      let tok := default EmptyString token in
      match formattedData rt (editFormData rendered) with
      | None =>
          Some {| update := fun st => st;
                  effects := [consoleError "Error updating task:";
                              alert "Save failed. Please check your connection and try again."] |}
      | Some data =>
          let call := callUpdateTask (id editing) data tok in
          match TasksApi.updateTask c (id editing) data tok with
          | Fulfilled result =>
              match TasksApi.r_success result, TasksApi.r_task result with
              | true, Some (PTask updatedTask) =>
                  let activity :=
                    {| Activity.detail_id := activityId host;
                       Activity.type := "task_updated";
                       Activity.taskId := Some (id updatedTask);
                       Activity.taskTitle := Some (title updatedTask);
                       Activity.userId := Some (user_id updatedTask);
                       Activity.timestamp := NewTaskPage.nowISOString host;
                       Activity.message :=
                         ("Task " ++ quoted (title updatedTask) ++ " was updated")%string |} in
                  Some {| update := fun st =>
                            setEditingTask None
                              (setTasks
                                 (map (fun t => if id t =? id editing
                                                then withDueDateOrUndefined updatedTask
                                                else t))
                                 st);
                          effects := [call;
                                      dispatchEvent "task-updated" None;
                                      dispatchEvent "task-activity" (Some activity)] |}
              | true, Some _ => None
              | _, _ =>
                  Some {| update := fun st => st;
                          effects :=
                            [call;
                             alert (if truthy_opt (TasksApi.r_error result)
                                    then default EmptyString (TasksApi.r_error result)
                                    else "Failed to update task. Please try again.")] |}
              end
          | Rejected _ =>
              Some {| update := fun st => st;
                      effects := [call;
                                  consoleError "Error updating task:";
                                  alert "Save failed. Please check your connection and try again."] |}
          end
      end
  | _, _ => Some {| update := fun st => st; effects := [] |}
  end.

(** The number in "You have ... active tasks". *)
Definition activeCount (st : State) : nat :=
  length (List.filter (fun t => negb (completed t)) (tasks st)).

End TasksPageHandlers.

Module TaskItem.

(** [Math.ceil(a / d)] for a positive constant [d]. *)
Definition num_ceil_div (a : Num) (d : Z) : Num :=
  match a with
  | Some x => Some (- ((- x) / d))
  | None => None
  end.

(** [daysUntilDue]: [null] ([None]) without a due date. *)
Definition daysUntilDue (rt : Runtime) (now : Z) (task : Task) : option Num :=
  let today := startOfDay rt now in
  match due_date task with
  | Some s =>
      if truthy_string s
      then
        let dueDate :=
          if includes s "T" then Date_parse rt s
          else Date_parse rt (s ++ "T00:00:00")%string in
        let dueDate := match dueDate with
                       | Some t => Some (startOfDay rt t)
                       | None => None
                       end in
        Some (num_ceil_div (num_sub dueDate (Some today)) (1000 * 60 * 60 * 24))
      else None
  | None => None
  end.

(** [n === 0] *)
Definition is_zero (n : Num) : bool :=
  match n with
  | Some z => z =? 0
  | None => false
  end.

(** Truthiness of a number: zero and [NaN] are falsy. *)
Definition truthy_num (n : Num) : bool :=
  match n with
  | Some z => negb (z =? 0)
  | None => false
  end.

(** The text of [Math.abs(n)] and of [n] in a template literal. *)
Definition abs_text (n : Num) : string :=
  match n with
  | Some z => decimal (Z.abs z)
  | None => "NaN"
  end.

(** The colour classes and the text of the due-date badge; [None] when
    the badge is not rendered. *)
Definition dueBadge (rt : Runtime) (now : Z) (task : Task) : option (string * string) :=
  if truthy_opt (due_date task)
  then
    match daysUntilDue rt now task with
    | Some daysUntilDue =>
        Some (if is_zero daysUntilDue then "bg-orange-100 text-orange-800"
              else if truthy_num daysUntilDue && num_ltb daysUntilDue (Some 0)
                   then "bg-red-100 text-red-800"
                   else "bg-blue-100 text-blue-800",
              if is_zero daysUntilDue then "Due Today"
              else if truthy_num daysUntilDue && num_ltb daysUntilDue (Some 1)
                   then ("Overdue " ++ abs_text daysUntilDue ++ " day")%string
                   else ("In " ++ TimeUtils.num_text daysUntilDue ++ " day")%string)
    | None => None
    end
  else None.

End TaskItem.

(* ===================================================================== *)
(** ** dashboard/page.tsx                                                 *)
(* ===================================================================== *)

Module Dashboard.
Import ApiClient.

Record Stats : Type := {
  total : Z;
  completed_count : Z;
  pending : Z
}.

Inductive Effect : Type :=
| callGetAllTasks (token : string)
| consoleError (text : string).

Definition noStats : Stats := {| total := 0; completed_count := 0; pending := 0 |}.

(** [fetchTaskStats]: the stats once the request has settled.  A [tasks]
    that is no array makes [tasks.filter] raise, which the handler
    catches; in an array of other records no element has a truthy
    [completed]. *)
Definition fetchTaskStats
    (c : Client) (isAuthenticated : bool) (token : option string) (stats : Stats)
  : Stats * list Effect :=
  if negb isAuthenticated || negb (truthy_opt token) then (stats, [])
  else
    let tok := default EmptyString token in
    match TasksApi.getAllTasks c tok with
    | Fulfilled response =>
        match TasksApi.r_success response, TasksApi.r_tasks response with
        | true, Some (PTasks tasks) =>
            let completedCount :=
              Z.of_nat (length (List.filter (fun task => completed task) tasks)) in
            let pendingCount := Z.of_nat (length tasks) - completedCount in
            ({| total := Z.of_nat (length tasks);
                completed_count := completedCount;
                pending := pendingCount |},
             [callGetAllTasks tok])
        | true, Some (PActivities acts) =>
            ({| total := Z.of_nat (length acts);
                completed_count := 0;
                pending := Z.of_nat (length acts) - 0 |},
             [callGetAllTasks tok])
        | true, Some (PTask _) =>
            (noStats, [callGetAllTasks tok; consoleError "Error fetching tasks:"])
        | _, _ => (noStats, [callGetAllTasks tok])
        end
    | Rejected _ =>
        (noStats, [callGetAllTasks tok; consoleError "Error fetching tasks:"])
    end.

End Dashboard.

(* ===================================================================== *)
(** ** RecentActivity.tsx: the line of an entry and the life of the feed  *)
(* ===================================================================== *)

Module Feed.
Import Activity RecentActivity.

Definition squoted (s : string) : string := ("'" ++ s ++ "'")%string.

(** [getActivityMessage]; a missing title prints as [undefined]. *)
Definition getActivityMessage (activity : Item) : string :=
  let task_title := default "undefined" (task_title activity) in
  if String.eqb (action activity) "task_created"
  then ("Task " ++ squoted task_title ++ " was created")%string
  else if String.eqb (action activity) "task_updated"
  then ("Task " ++ squoted task_title ++ " was updated")%string
  else if String.eqb (action activity) "task_deleted"
  then ("Task " ++ squoted task_title ++ " was deleted")%string
  else if String.eqb (action activity) "task_completed"
  then ("Task " ++ squoted task_title ++ " was completed")%string
  else if String.eqb (action activity) "task_uncompleted"
  then ("Task " ++ squoted task_title ++ " was marked as incomplete")%string
  else ("Task " ++ squoted task_title ++ " was updated")%string.

(** The state of the component when it mounts. *)
Definition mounted : State :=
  {| activities := []; loading := true; error := None |}.

(** What happens to the component: a fetch settles with what the client
    answers, or an event of a page arrives. *)
Inductive Step : Type :=
| fetched (c : ApiClient.Client) (token : option string)
| received (activityDetail : Detail).

Definition step (st : State) (s : Step) : State :=
  match s with
  | fetched c token => fetchActivities c token st
  | received activityDetail =>
      {| activities := handleTaskActivity activityDetail (activities st);
         loading := loading st;
         error := error st |}
  end.

Definition run (steps : list Step) : State := fold_left step steps mounted.

End Feed.

(* ===================================================================== *)
(** ** Vocabulary of the properties                                       *)
(* ===================================================================== *)

Module Props.
Import TasksPage.

(** A strict order given as a boolean relation. *)
Record strict {A : Type} (R : A -> A -> bool) : Prop := {
  strict_asym : forall a b, R a b = true -> R b a = false;
  strict_trans : forall a b c, R a b = true -> R b c = true -> R a c = true
}.

(** No element of the list precedes an element that comes before it. *)
Inductive ordered {A : Type} (R : A -> A -> bool) : list A -> Prop :=
| ordered_nil : ordered R []
| ordered_cons : forall a l,
    Forall (fun b => R b a = false) l -> ordered R l -> ordered R (a :: l).

(** The task has a due date, as the code tests it. *)
Definition hasDueDate (task : Task) : bool := truthy_opt (due_date task).

(** Every task without a due date stands after every task with one. *)
Definition missing_last (l : list Task) : Prop :=
  forall i j a b,
    nth_error l i = Some a -> nth_error l j = Some b ->
    hasDueDate a = false -> hasDueDate b = true -> (j < i)%nat.

(** Every task without a due date stands before every task with one. *)
Definition missing_first (l : list Task) : Prop :=
  forall i j a b,
    nth_error l i = Some a -> nth_error l j = Some b ->
    hasDueDate a = false -> hasDueDate b = true -> (i < j)%nat.

(** The list has no [late] element before one that is not. *)
Inductive split_by {A : Type} (late : A -> bool) : list A -> Prop :=
| split_nil : split_by late []
| split_cons : forall a l,
    (late a = true -> Forall (fun b => late b = true) l) ->
    split_by late l -> split_by late (a :: l).

(** The identifiers of a feed. *)
Definition ids (l : list Activity.Item) : list Activity.Id := map Activity.id l.

(** The text is a sequence of at most [n] white space characters. *)
Fixpoint blank_upto (n : nat) (s : string) : bool :=
  match s with
  | EmptyString => true
  | String _ _ =>
      match n with
      | O => false
      | S n' =>
          existsb (fun w => match strip_prefix w s with
                            | Some r => blank_upto n' r
                            | None => false
                            end) white_space
      end
  end.

(** The text is empty or made of white space characters only. *)
Definition blank (s : string) : bool := blank_upto (String.length s) s.

(** ["<n> <unit>(s) ago"] *)
Definition ago (n : Z) (unit : string) : string :=
  (decimal n ++ " " ++ unit ++ (if (n =? 1)%Z then EmptyString else "s") ++ " ago")%string.

(** The result of a [tasksApi] operation surfaces the client's answer:
    a failure of the client is a failure with the client's error, and a
    payload comes with success only. *)
Definition surfaces (response : ApiClient.Response) (r : TasksApi.Result) : Prop :=
  (ApiClient.success response = false ->
     TasksApi.r_success r = false /\ TasksApi.r_error r = ApiClient.error response)
  /\ (TasksApi.r_tasks r <> None \/ TasksApi.r_task r <> None ->
        TasksApi.r_success r = true).

End Props.
Import Props.

(** ** More vocabulary *)

Module MoreProps.
Import TasksPage.

(** The task passes the search filter and the status filter. *)
Definition passes (rt : Runtime) (now : Z) (v : View) (task : Task) : bool :=
  (if truthy_string (searchTerm v)
   then matchesSearch (toLowerCase (searchTerm v)) task
   else true)
  && statusKeeps rt (getToday rt now) (filter v) task.

(** The view with another status filter. *)
Definition withFilter (v : View) (f : Filter) : View :=
  {| searchTerm := searchTerm v; filter := f; sortBy := sortBy v; sortOrder := sortOrder v |}.

(** The dates that the sort key reads parse. *)
Definition sortable (rt : Runtime) (key : SortBy) (task : Task) : Prop :=
  match key with
  | by_created_at => Date_parse rt (created_at task) <> None
  | by_due_date =>
      hasDueDate task = true -> Date_parse rt (default EmptyString (due_date task)) <> None
  | by_priority => True
  | by_title => True
  end.

(** An element that precedes another precedes, or is preceded by, any
    third one: incomparable elements rank alike. *)
Definition ranked {A : Type} (dom : A -> Prop) (R : A -> A -> bool) : Prop :=
  forall a b c, dom a -> dom b -> dom c ->
    R a b = true -> R a c = true \/ R c b = true.

(** [localeCompare] ranks the strings. *)
Definition RankedCollation (rt : Runtime) : Prop :=
  Collation rt
  /\ forall s t u, localeCompare rt s t < 0 ->
       localeCompare rt s u < 0 \/ localeCompare rt u t < 0.

Definition priority_eqb (p q : Priority) : bool :=
  match p, q with
  | low, low | medium, medium | high, high => true
  | _, _ => false
  end.

(** The answers of the client to the request of the feed are activity
    records, no two with the same identifier, or carry no data. *)
Definition distinct_answers (s : Feed.Step) : Prop :=
  match s with
  | Feed.fetched c token =>
      forall headers response,
        ApiClient.get c "/activities/recent" headers = Fulfilled response ->
        match ApiClient.data response with
        | Some (ApiClient.PActivities acts) => List.NoDup (ids acts)
        | Some _ => False
        | None => True
        end
  | Feed.received _ => True
  end.

(** The date that the badge of a task item reads from a due date. *)
Definition dueInstant (rt : Runtime) (s : string) : Num :=
  if includes s "T" then Date_parse rt s else Date_parse rt (s ++ "T00:00:00")%string.

Definition msPerDay : Z := 86400000.

End MoreProps.
Import MoreProps.

(** ** More sample data *)

Module MoreSamples.
Import Sample.

(** Tasks created on 2024-01-01 and on 2024-02-01. *)
Definition older : Task := task 5 "Older" false low (Some "2024-03-12").
Definition newer : Task :=
  {| id := 6; title := "Newer"; description := Some "Buy MILK"; completed := true;
     priority := high; due_date := Some "2024-03-11T08:00:00"; recurring := None;
     category := None; created_at := "2024-02-01T09:00:00"; user_id := 1 |}.

(** An incomplete task due on 2024-03-11 at 08:00. *)
Definition timed : Task := task 7 "Timed" false medium (Some "2024-03-11T08:00:00").

(** 2024-03-12, 12:00 *)
Definition march12 : Z := 1710244800000.

Definition answer (ok : bool) (d : option ApiClient.Payload) : ApiClient.Response :=
  {| ApiClient.success := ok; ApiClient.data := d; ApiClient.error := None |}.

(** A client whose requests are all rejected. *)
Definition rejecting (reason : string) : ApiClient.Client :=
  {| ApiClient.get := fun _ _ => Rejected reason;
     ApiClient.post := fun _ _ _ => Rejected reason;
     ApiClient.put := fun _ _ _ => Rejected reason;
     ApiClient.delete := fun _ _ => Rejected reason |}.

Definition recent : ApiClient.Response :=
  answer true (Some (ApiClient.PActivities [server_item 7 "Dated"; server_item 8 "Past"])).

(** The tasks page with three tasks, the editor open on the second. *)
Definition page : TasksPageHandlers.State :=
  {| TasksPageHandlers.tasks := [older; newer; past_due];
     TasksPageHandlers.loading := true;
     TasksPageHandlers.editingTask := Some newer;
     TasksPageHandlers.editFormData := NewTaskPage.formData (form "newer task") |}.

(** The same page with a due date typed in the editor. *)
Definition page_with_due (due : string) : TasksPageHandlers.State :=
  {| TasksPageHandlers.tasks := [older; newer; past_due];
     TasksPageHandlers.loading := false;
     TasksPageHandlers.editingTask := Some newer;
     TasksPageHandlers.editFormData :=
       {| ApiClient.c_title := "newer task";
          ApiClient.c_description := None;
          ApiClient.c_priority := Some high;
          ApiClient.c_due_date := Some due;
          ApiClient.c_recurring := None;
          ApiClient.c_category := None |} |}.

End MoreSamples.

(* ===================================================================== *)
(** * Properties                                                          *)
(* ===================================================================== *)

(** ** [Array.prototype.sort] *)

Section SortFacts.
Context {A : Type}.
Variable comparefn : A -> A -> Num.

Local Abbreviation precedes := (ArraySort.precedes comparefn).
Local Abbreviation insert := (ArraySort.insert comparefn).
Local Abbreviation sort := (ArraySort.sort comparefn).

Lemma insert_perm pivot sorted : Permutation (insert pivot sorted) (pivot :: sorted).
Proof.
  induction sorted as [|e rest IH]; simpl.
  - reflexivity.
  - destruct (precedes pivot e).
    + reflexivity.
    + rewrite IH. apply perm_swap.
Qed.

Lemma sort_from_perm a : forall acc,
  Permutation (fold_left (fun sorted pivot => insert pivot sorted) a acc) (acc ++ a).
Proof.
  induction a as [|x a IH]; intros acc; simpl.
  - rewrite app_nil_r. reflexivity.
  - rewrite IH, insert_perm.
    change (x :: acc) with ([x] ++ acc).
    rewrite (Permutation_app_comm [x] acc), <- app_assoc. reflexivity.
Qed.

Lemma sort_perm a : Permutation (sort a) a.
Proof. unfold ArraySort.sort. apply (sort_from_perm a []). Qed.

Lemma sort_In a x : In x (sort a) <-> In x a.
Proof.
  split; apply Permutation_in; [apply sort_perm | symmetry; apply sort_perm].
Qed.

Lemma sort_length a : length (sort a) = length a.
Proof. apply Permutation_length, sort_perm. Qed.

(** The pivot goes to the end when it precedes nothing. *)
Lemma insert_last pivot sorted :
  Forall (fun e => precedes pivot e = false) sorted ->
  insert pivot sorted = sorted ++ [pivot].
Proof.
  induction 1 as [|e rest He _ IH]; simpl.
  - reflexivity.
  - rewrite He, IH. reflexivity.
Qed.

Lemma ordered_app_last l x :
  ordered precedes (l ++ [x]) ->
  ordered precedes l /\ Forall (fun e => precedes x e = false) l.
Proof.
  induction l as [|a l IH]; simpl; intros H.
  - split; constructor.
  - inversion H as [|? ? Hall Hord]; subst.
    destruct (IH Hord) as [Hl Hx].
    apply List.Forall_app in Hall as [Hall Hxa].
    split.
    + constructor; assumption.
    + constructor; [inversion Hxa; assumption | assumption].
Qed.

(** Sorting an ordered array leaves it as it is. *)
Lemma sort_from_ordered a : forall acc,
  ordered precedes (acc ++ a) ->
  fold_left (fun sorted pivot => insert pivot sorted) a acc = acc ++ a.
Proof.
  induction a as [|x a IH]; intros acc H; simpl.
  - rewrite app_nil_r. reflexivity.
  - assert (Hx : ordered precedes ((acc ++ [x]) ++ a)).
    { rewrite <- app_assoc. exact H. }
    assert (Hacc : Forall (fun e => precedes x e = false) acc).
    { clear IH Hx. revert H. induction acc as [|b acc IHacc]; simpl; intros H.
      - constructor.
      - inversion H as [|? ? Hall Hord]; subst.
        constructor.
        + apply List.Forall_app in Hall as [_ Hall]. inversion Hall; assumption.
        + apply IHacc, Hord. }
    rewrite (insert_last x acc Hacc), (IH _ Hx), <- app_assoc. reflexivity.
Qed.

Lemma sort_ordered_id a : ordered precedes a -> sort a = a.
Proof. intros H. unfold ArraySort.sort. apply (sort_from_ordered a [] H). Qed.

Section Strict.
Hypothesis order : strict precedes.

Lemma insert_ordered pivot sorted :
  ordered precedes sorted -> ordered precedes (insert pivot sorted).
Proof.
  induction 1 as [|e rest Hall Hord IH]; simpl.
  - constructor; constructor.
  - destruct (precedes pivot e) eqn:Hpe.
    + constructor; [|constructor; assumption].
      constructor.
      * apply (strict_asym _ order), Hpe.
      * apply List.Forall_forall. intros b Hb.
        rewrite List.Forall_forall in Hall.
        destruct (precedes b pivot) eqn:Hbp; [|reflexivity].
        rewrite <- (Hall b Hb). symmetry.
        apply (strict_trans _ order b pivot e); assumption.
    + constructor; [|exact IH].
      apply List.Forall_forall. intros b Hb.
      apply (Permutation_in _ (insert_perm pivot rest)) in Hb.
      destruct Hb as [<-|Hb]; [exact Hpe|].
      rewrite List.Forall_forall in Hall. apply Hall, Hb.
Qed.

Lemma sort_from_is_ordered a : forall acc,
  ordered precedes acc ->
  ordered precedes (fold_left (fun sorted pivot => insert pivot sorted) a acc).
Proof.
  induction a as [|x a IH]; intros acc H; simpl.
  - exact H.
  - apply IH, insert_ordered, H.
Qed.

Lemma sort_is_ordered a : ordered precedes (sort a).
Proof. apply sort_from_is_ordered. constructor. Qed.

End Strict.

(** A class of elements that every other element precedes, and that
    precedes none of them, ends up behind the others. *)
Section Late.
Variable late : A -> bool.
Hypothesis late_after : forall a b,
  late a = true -> late b = false -> precedes a b = false /\ precedes b a = true.

Lemma insert_split pivot sorted :
  split_by late sorted -> split_by late (insert pivot sorted).
Proof.
  induction 1 as [|e rest Hlate Hsplit IH]; simpl.
  - constructor; [intros _; constructor | constructor].
  - destruct (precedes pivot e) eqn:Hpe.
    + constructor; [|constructor; assumption].
      intros Hp. destruct (late e) eqn:He.
      * constructor; [exact He | apply Hlate; reflexivity].
      * destruct (late_after pivot e Hp He) as [Hf _]. congruence.
    + constructor; [|exact IH].
      intros He. apply List.Forall_forall. intros b Hb.
      apply (Permutation_in _ (insert_perm pivot rest)) in Hb.
      destruct Hb as [<-|Hb].
      * destruct (late pivot) eqn:Hp; [reflexivity|].
        destruct (late_after e pivot He Hp) as [_ Ht]. congruence.
      * specialize (Hlate He). rewrite List.Forall_forall in Hlate. apply Hlate, Hb.
Qed.

Lemma sort_from_split a : forall acc,
  split_by late acc ->
  split_by late (fold_left (fun sorted pivot => insert pivot sorted) a acc).
Proof.
  induction a as [|x a IH]; intros acc H; simpl.
  - exact H.
  - apply IH, insert_split, H.
Qed.

Lemma sort_split a : split_by late (sort a).
Proof. apply sort_from_split. constructor. Qed.
End Late.

End SortFacts.

Lemma split_by_positions {A : Type} (late : A -> bool) (l : list A) :
  split_by late l ->
  forall i j a b,
    nth_error l i = Some a -> nth_error l j = Some b ->
    late a = true -> late b = false -> (j < i)%nat.
Proof.
  induction 1 as [|x l Hlate Hsplit IH]; intros i j a b Hi Hj Ha Hb.
  - destruct i; discriminate.
  - destruct i as [|i], j as [|j]; simpl in Hi, Hj.
    + congruence.
    + injection Hi as ->. specialize (Hlate Ha).
      rewrite List.Forall_forall in Hlate.
      apply nth_error_In in Hj. rewrite (Hlate b Hj) in Hb. discriminate.
    + lia.
    + apply -> Nat.succ_lt_mono. eapply IH; eassumption.
Qed.

Lemma ordered_positions {A : Type} (R : A -> A -> bool) (l : list A) :
  ordered R l ->
  forall i j a b,
    nth_error l i = Some a -> nth_error l j = Some b -> (i < j)%nat -> R b a = false.
Proof.
  induction 1 as [|x l Hall Hord IH]; intros i j a b Hi Hj Hij.
  - destruct i; discriminate.
  - destruct j as [|j]; [lia|]. simpl in Hj.
    destruct i as [|i]; simpl in Hi.
    + injection Hi as <-. rewrite List.Forall_forall in Hall.
      apply Hall. eapply nth_error_In, Hj.
    + apply (IH i j); [assumption | assumption | lia].
Qed.

(** ** The filter and sort pipeline *)

Section PipelineFacts.
Import TasksPage.
Variable rt : Runtime.

Lemma num_neg_precedes (v : Num) :
  match num_neg v with Some z => z <? 0 | None => false end
  = match v with Some z => 0 <? z | None => false end.
Proof.
  destruct v as [z|]; simpl; [|reflexivity].
  destruct (Z.ltb_spec (- z) 0), (Z.ltb_spec 0 z); try reflexivity; lia.
Qed.

(** The direction only negates the comparator. *)
Lemma comparator_desc key a b :
  comparator rt key desc a b = num_neg (comparator rt key asc a b).
Proof. reflexivity. Qed.

(** The sign of the priority comparison is that of the ranks, the
    higher rank first. *)
Lemma priority_comparison a b :
  comparison rt by_priority a b = Some (pOrder (priority b) - pOrder (priority a)).
Proof. reflexivity. Qed.

Lemma pOrder_ranks : pOrder low < pOrder medium < pOrder high.
Proof. simpl. lia. Qed.

Ltac by_sign :=
  repeat match goal with
         | H : context [(?x <? ?y)] |- _ => destruct (Z.ltb_spec x y)
         | |- context [(?x <? ?y)] => destruct (Z.ltb_spec x y)
         end;
  try reflexivity; try discriminate; try lia.

Ltac comparator_cases :=
  unfold ArraySort.precedes, comparator;
  match goal with |- context [match ?o with asc => _ | desc => _ end] => destruct o end;
  rewrite ?num_neg_precedes;
  unfold comparison, getTime, num_sub;
  repeat match goal with
         | |- context [truthy_opt (due_date ?t)] => destruct (truthy_opt (due_date t))
         end;
  simpl;
  repeat match goal with
         | |- context [Date_parse rt ?s] => destruct (Date_parse rt s)
         end;
  intros; by_sign.

(** The comparator orders strictly; for the key 'title' this is what the
    collation gives. *)
Lemma comparator_strict key order :
  (key = by_title -> Collation rt) ->
  strict (ArraySort.precedes (comparator rt key order)).
Proof.
  intros Hcol.
  destruct key; split;
    [intros a b | intros a b c | intros a b | intros a b c
    | intros a b | intros a b c | intros a b | intros a b c];
    try (comparator_cases; fail); intros;
    destruct (Hcol eq_refl) as [Hswap Htrans].
  - destruct order; unfold ArraySort.precedes, comparator, comparison in *;
      rewrite ?num_neg_precedes in *;
      rewrite ?Z.ltb_lt, ?Z.ltb_ge in *.
    + match goal with H : _ < 0 |- _ => apply Hswap in H end. lia.
    + match goal with H : 0 < _ |- _ => apply Hswap in H end. lia.
  - destruct order; unfold ArraySort.precedes, comparator, comparison in *;
      rewrite ?num_neg_precedes in *;
      rewrite ?Z.ltb_lt in *.
    + eapply Htrans; eassumption.
    + apply Hswap.
      repeat match goal with H : 0 < _ |- _ => apply Hswap in H end.
      eapply Htrans; eassumption.
Qed.

End PipelineFacts.

Lemma filter_keeps_all {A : Type} (p : A -> bool) (l : list A) :
  (forall x, In x l -> p x = true) -> List.filter p l = l.
Proof.
  induction l as [|x l IH]; simpl; intros H.
  - reflexivity.
  - rewrite (H x (or_introl eq_refl)), IH; [reflexivity|].
    intros y Hy. apply H. right. exact Hy.
Qed.


Section PipelineClaims.
Import TasksPage Sample.
Variable rt : Runtime.
Variable now : Z.

(** What the pipeline returns is made of the tasks that pass both
    filters. *)
Lemma applyFiltersAndSorting_In v tasks task :
  In task (applyFiltersAndSorting rt now v tasks) <->
  In task tasks
  /\ (truthy_string (searchTerm v) = true ->
        matchesSearch (toLowerCase (searchTerm v)) task = true)
  /\ statusKeeps rt (getToday rt now) (filter v) task = true.
Proof.
  unfold applyFiltersAndSorting. rewrite sort_In, filter_In.
  destruct (truthy_string (searchTerm v)).
  - rewrite filter_In. intuition.
  - intuition. discriminate.
Qed.

Lemma applyFiltersAndSorting_perm v tasks :
  exists kept,
    Permutation (applyFiltersAndSorting rt now v tasks) kept
    /\ incl kept tasks.
Proof.
  unfold applyFiltersAndSorting.
  eexists. split; [apply sort_perm|].
  intros t Ht. apply filter_In in Ht as [Ht _].
  destruct (truthy_string (searchTerm v)); [apply filter_In in Ht as [Ht _]|]; exact Ht.
Qed.

(** C1, at the input of the example: with the sort key 'priority' and
    the direction 'desc', no search term and the status filter 'all',
    the tasks B (low) and A (high) come out in the order B, A: the
    low priority first.  The comparison is written highest rank first
    and the direction 'desc' negates it. *)
Theorem priority_desc_puts_low_first :
  map title
    (applyFiltersAndSorting rt now (view all by_priority desc)
       [task 1 "B" false low None; task 2 "A" false high None])
  = ["B"; "A"].
Proof. reflexivity. Qed.

(** The same tasks with the direction 'asc': the high priority first. *)
Lemma priority_asc_puts_high_first :
  map title
    (applyFiltersAndSorting rt now (view all by_priority asc)
       [task 1 "B" false low None; task 2 "A" false high None])
  = ["A"; "B"].
Proof. reflexivity. Qed.

(** Under 'desc' a task precedes another exactly when its rank is the
    lower one; under 'asc', when it is the higher one. *)
Lemma priority_precedes order a b :
  ArraySort.precedes (comparator rt by_priority order) a b
  = match order with
    | asc => pOrder (priority b) <? pOrder (priority a)
    | desc => pOrder (priority a) <? pOrder (priority b)
    end.
Proof.
  unfold ArraySort.precedes, comparator, comparison.
  destruct order; simpl;
    repeat match goal with |- context [?x <? ?y] => destruct (Z.ltb_spec x y) end;
    try reflexivity; lia.
Qed.

(** For every input, the direction 'asc' lists the tasks from the highest
    rank to the lowest and the direction 'desc' from the lowest to the
    highest. *)
Lemma priority_order_of_output s f order tasks i j a b :
  let out := applyFiltersAndSorting rt now
               {| searchTerm := s; filter := f; sortBy := by_priority; sortOrder := order |}
               tasks in
  nth_error out i = Some a -> nth_error out j = Some b -> (i < j)%nat ->
  match order with
  | asc => pOrder (priority b) <= pOrder (priority a)
  | desc => pOrder (priority a) <= pOrder (priority b)
  end.
Proof.
  unfold applyFiltersAndSorting; simpl. intros Hi Hj Hij.
  assert (Hstrict : strict (ArraySort.precedes (comparator rt by_priority order))).
  { apply comparator_strict. discriminate. }
  pose proof (ordered_positions _ _ (sort_is_ordered _ Hstrict _) i j a b Hi Hj Hij) as H.
  rewrite priority_precedes in H.
  destruct order; apply Z.ltb_ge in H; exact H.
Qed.

(** C2, as amended: with the sort key 'due_date', the tasks without a
    due date stand after all tasks with one when the direction is
    'asc', and before all of them when it is 'desc'. *)
Theorem due_date_missing_follow_direction s f order tasks :
  let out := applyFiltersAndSorting rt now
               {| searchTerm := s; filter := f; sortBy := by_due_date; sortOrder := order |}
               tasks in
  match order with
  | asc => missing_last out
  | desc => missing_first out
  end.
Proof.
  unfold applyFiltersAndSorting; simpl. destruct order.
  - assert (Hlate : forall x y,
               negb (hasDueDate x) = true -> negb (hasDueDate y) = false ->
               ArraySort.precedes (comparator rt by_due_date asc) x y = false
               /\ ArraySort.precedes (comparator rt by_due_date asc) y x = true).
    { intros x y Hx Hy.
      apply negb_true_iff in Hx. apply negb_false_iff in Hy.
      unfold hasDueDate in Hx, Hy.
      unfold ArraySort.precedes, comparator, comparison. rewrite Hx, Hy.
      split; reflexivity. }
    intros i j a b Hi Hj Ha Hb.
    eapply (split_by_positions _ _ (sort_split _ _ Hlate _)); [exact Hi | exact Hj | |].
    + rewrite Ha. reflexivity.
    + rewrite Hb. reflexivity.
  - assert (Hlate : forall x y,
               hasDueDate x = true -> hasDueDate y = false ->
               ArraySort.precedes (comparator rt by_due_date desc) x y = false
               /\ ArraySort.precedes (comparator rt by_due_date desc) y x = true).
    { intros x y Hx Hy.
      unfold hasDueDate in Hx, Hy.
      unfold ArraySort.precedes, comparator, comparison. rewrite Hx, Hy.
      split; reflexivity. }
    intros i j a b Hi Hj Ha Hb.
    eapply (split_by_positions _ _ (sort_split _ _ Hlate _)); [exact Hj | exact Hi | |].
    + exact Hb.
    + exact Ha.
Qed.

(** What the status filters display, whatever the search term and the
    sort.  'overdue' displays exactly the incomplete tasks of the
    collection that pass the search and whose due date is read by
    [new Date] as an instant whose local midnight lies before the start
    of today, [startOfDay rt now]; 'upcoming' exactly those for which it
    is the start of today or later; a task without a due date is
    displayed by neither.  The day of a due date is here the local day
    of the instant that [new Date] reads, which for a calendar date
    alone is midnight UTC. *)
Lemma overdue_and_upcoming_displayed term key order tasks task :
  let displayed f :=
    applyFiltersAndSorting rt now
      {| searchTerm := term; filter := f; sortBy := key; sortOrder := order |} tasks in
  let found :=
    truthy_string term = true -> matchesSearch (toLowerCase term) task = true in
  (In task (displayed overdue) <->
     In task tasks /\ found /\ completed task = false
     /\ exists d t, due_date task = Some d /\ d <> EmptyString
                    /\ Date_parse rt d = Some t
                    /\ startOfDay rt t < startOfDay rt now)
  /\ (In task (displayed upcoming) <->
        In task tasks /\ found /\ completed task = false
        /\ exists d t, due_date task = Some d /\ d <> EmptyString
                       /\ Date_parse rt d = Some t
                       /\ startOfDay rt now <= startOfDay rt t)
  /\ (due_date task = None ->
        ~ In task (displayed overdue) /\ ~ In task (displayed upcoming)).
Proof.
  intros displayed found. unfold displayed, found.
  rewrite !applyFiltersAndSorting_In. unfold getToday. simpl.
  set (today := startOfDay rt now).
  assert (Hdate : forall (cmp : Num -> Num -> bool) (P : Z -> Prop),
             (forall t, cmp (Some (startOfDay rt t)) (Some today) = true
                        <-> P (startOfDay rt t)) ->
             (forall y, cmp None y = false) ->
             (negb (completed task)
              && match taskDate rt task with
                 | Some d => cmp d (Some today)
                 | None => false
                 end = true
              <-> completed task = false
                  /\ exists s t, due_date task = Some s /\ s <> EmptyString
                                 /\ Date_parse rt s = Some t /\ P (startOfDay rt t))).
  { intros cmp P Hcmp Hnan. unfold taskDate.
    rewrite andb_true_iff, negb_true_iff.
    split.
    - intros [Hc Hd]. split; [exact Hc|].
      destruct (due_date task) as [s|]; [|discriminate].
      destruct s as [|c s]; [discriminate|]. simpl in Hd.
      destruct (Date_parse rt (String c s)) as [t|] eqn:Ht.
      + exists (String c s), t. repeat split; try congruence. apply Hcmp, Hd.
      + rewrite Hnan in Hd. discriminate.
    - intros [Hc (s & t & Hs & Hne & Ht & HP)]. split; [exact Hc|].
      rewrite Hs. destruct s as [|c s]; [congruence|]. simpl.
      rewrite Ht. apply Hcmp, HP. }
  pose proof (Hdate num_ltb (fun d => d < today)
                (fun t => Z.ltb_lt _ _) (fun _ => eq_refl)) as Hover.
  pose proof (Hdate num_geb (fun d => today <= d)
                (fun t => Z.leb_le _ _) (fun _ => eq_refl)) as Hup.
  clear Hdate.
  split; [|split].
  - rewrite Hover. tauto.
  - rewrite Hup. tauto.
  - intros Hnone. rewrite Hover, Hup. rewrite Hnone.
    split; intros (_ & _ & _ & d & t & Hd & _); discriminate.
Qed.

End PipelineClaims.

Section PipelineRelations.
Import TasksPage Sample.

(** C5, as amended: the displayed list is a function of the search
    term, the status filter, the sort key, the direction, the task
    collection and the start of the current day in the host's time zone.
    Two evaluations on the same five inputs give the same sequence when
    they happen on the same day, or when the status filter is 'all',
    'active' or 'completed', which do not read the clock. *)
Theorem displayed_list_function_of_inputs_and_day rt now1 now2 v tasks :
  getToday rt now1 = getToday rt now2
  \/ filter v = all \/ filter v = active \/ filter v = filter_completed ->
  applyFiltersAndSorting rt now1 v tasks = applyFiltersAndSorting rt now2 v tasks.
Proof.
  unfold applyFiltersAndSorting.
  intros [H | [H | [H | H]]]; rewrite H; reflexivity.
Qed.


End PipelineRelations.

(** ** The pipeline on the store *)

Section StoreFacts.
Import Store.

Lemma fresh_unused (h : Heap) : h !! fresh (dom h) = None.
Proof. apply not_elem_of_dom, is_fresh. Qed.

Lemma alloc_kept (h : Heap) (a b : list Task) (l : loc) :
  h !! l = Some a -> <[fresh (dom h) := b]> h !! l = Some a.
Proof.
  intros H. rewrite lookup_insert_ne; [exact H|].
  intros E. rewrite <- E, fresh_unused in H. discriminate.
Qed.

(** C8: the pipeline returns a new array, which holds what the
    list-level pipeline computes, and the store holds at the source
    array, and at every array there was, what it held before. *)
Theorem source_collection_unchanged rt now v (h : Heap) (tasksToFilter : loc) tasks :
  h !! tasksToFilter = Some tasks ->
  exists result h',
    TasksPageStore.applyFiltersAndSorting rt now v tasksToFilter h = Some (result, h')
    /\ h' !! tasksToFilter = Some tasks
    /\ result <> tasksToFilter
    /\ h !! result = None
    /\ h' !! result = Some (TasksPage.applyFiltersAndSorting rt now v tasks)
    /\ forall l a, h !! l = Some a -> h' !! l = Some a.
Proof.
  intros Hsrc.
  unfold TasksPageStore.applyFiltersAndSorting, TasksPage.applyFiltersAndSorting.
  set (p1 := TasksPage.matchesSearch _).
  set (p2 := TasksPage.statusKeeps _ _ _).
  set (f := TasksPage.comparator _ _ _).
  (* the copy *)
  pose (l1 := fresh (dom h)).
  pose (h1 := <[l1 := tasks]> h).
  assert (E1 : spread tasksToFilter h = Some (l1, h1)).
  { unfold spread, bind, read. rewrite Hsrc. reflexivity. }
  assert (K1 : forall l a, h !! l = Some a -> h1 !! l = Some a).
  { intros l a. apply alloc_kept. }
  assert (R1 : h1 !! l1 = Some tasks) by apply lookup_insert_eq.
  (* the search filter *)
  pose (searched := if truthy_string (TasksPage.searchTerm v)
                   then List.filter p1 tasks else tasks).
  assert (E2 : exists l2 h2,
             (if truthy_string (TasksPage.searchTerm v)
              then Array_filter p1 l1 else ret l1) h1 = Some (l2, h2)
             /\ h2 !! l2 = Some searched
             /\ forall l a, h1 !! l = Some a -> h2 !! l = Some a).
  { unfold searched. destruct (truthy_string (TasksPage.searchTerm v)).
    - exists (fresh (dom h1)), (<[fresh (dom h1) := List.filter p1 tasks]> h1).
      split; [|split].
      + unfold Array_filter, bind, read. rewrite R1. reflexivity.
      + apply lookup_insert_eq.
      + intros l a. apply alloc_kept.
    - exists l1, h1. split; [reflexivity | split; [exact R1 | auto]]. }
  destruct E2 as (l2 & h2 & E2 & R2 & K2).
  (* the status filter *)
  pose (l3 := fresh (dom h2)).
  pose (h3 := <[l3 := List.filter p2 searched]> h2).
  assert (E3 : Array_filter p2 l2 h2 = Some (l3, h3)).
  { unfold Array_filter, bind, read. rewrite R2. reflexivity. }
  assert (N3 : h2 !! l3 = None) by apply fresh_unused.
  (* the sort, in place *)
  pose (h4 := <[l3 := ArraySort.sort f (List.filter p2 searched)]> h3).
  assert (E4 : Array_sort f l3 h3 = Some (l3, h4)).
  { assert (R3 : h3 !! l3 = Some (List.filter p2 searched)) by apply lookup_insert_eq.
    unfold Array_sort, bind, read, write, ret. rewrite R3. cbv beta iota.
    rewrite R3. reflexivity. }
  exists l3, h4.
  assert (K : forall l a, h !! l = Some a -> h4 !! l = Some a).
  { intros l a Hl. pose proof (K2 _ _ (K1 _ _ Hl)) as Hl2.
    unfold h4, h3. rewrite !lookup_insert_ne; [exact Hl2 | |];
      intros ->; rewrite N3 in Hl2; discriminate. }
  split; [|split; [|split; [|split; [|split]]]].
  - unfold bind at 1. rewrite E1.
    unfold bind at 1. rewrite E2.
    unfold bind at 1. rewrite E3.
    unfold bind at 1. rewrite E4. reflexivity.
  - apply K, Hsrc.
  - intros ->. rewrite (K2 _ _ (K1 _ _ Hsrc)) in N3. discriminate.
  - destruct (h !! l3) as [a|] eqn:Hl; [|reflexivity].
    rewrite (K2 _ _ (K1 _ _ Hl)) in N3. discriminate.
  - unfold h4. apply lookup_insert_eq.
  - exact K.
Qed.

End StoreFacts.

(** ** The activity feed *)

Section FeedFacts.
Import Activity RecentActivity.

Lemma strict_eqb_eq a b : strict_eqb a b = true <-> a = b.
Proof.
  destruct a as [x|s], b as [y|t]; simpl.
  - rewrite Z.eqb_eq. split; congruence.
  - split; discriminate.
  - split; discriminate.
  - rewrite String.eqb_eq. split; congruence.
Qed.

Lemma firstn_In {A : Type} (n : nat) (l : list A) (x : A) :
  In x (firstn n l) -> In x l.
Proof.
  intros H. rewrite <- (firstn_skipn n l). apply in_or_app. left. exact H.
Qed.

Lemma firstn_NoDup {A : Type} (n : nat) (l : list A) :
  List.NoDup l -> List.NoDup (firstn n l).
Proof.
  intros H. revert n. induction H as [|x l Hx Hl IH]; intros [|n]; simpl;
    try constructor.
  - intros Hin. apply Hx. eapply firstn_In, Hin.
  - apply IH.
Qed.

Lemma ids_filter_NoDup (p : Item -> bool) (l : list Item) :
  List.NoDup (ids l) -> List.NoDup (ids (List.filter p l)).
Proof.
  unfold ids. induction l as [|x l IH]; simpl; intros H.
  - constructor.
  - inversion H as [|? ? Hx Hl]; subst.
    destruct (p x); simpl; [constructor|]; auto.
    intros Hin. apply Hx. apply in_map_iff in Hin as (y & Hy & Hin).
    apply in_map_iff. exists y. apply filter_In in Hin as [Hin _]. auto.
Qed.

Lemma handleTaskActivity_unfold detail prev :
  handleTaskActivity detail prev
  = convertedActivity detail
      :: firstn 9 (List.filter
                     (fun activity => negb (strict_eqb (id activity) (detail_id detail)))
                     prev).
Proof. reflexivity. Qed.

(** C3, as amended: a merge puts the new entry first, keeps after it,
    in their order, the entries of the current list that have another
    identifier, and cuts the list at 10 entries.  The result never has
    more than 10 entries, the identifier of the new entry occurs once in
    it, and it has no two entries with the same identifier when the
    current list has none. *)
Theorem merge_keeps_feed_bounded detail prev :
  let next := handleTaskActivity detail prev in
  next = convertedActivity detail
           :: firstn 9 (List.filter
                          (fun activity =>
                             negb (strict_eqb (id activity) (detail_id detail)))
                          prev)
  /\ (length next <= 10)%nat
  /\ ~ In (detail_id detail) (ids (tl next))
  /\ (List.NoDup (ids prev) -> List.NoDup (ids next)).
Proof.
  intros next. unfold next. rewrite handleTaskActivity_unfold.
  set (others := List.filter _ prev).
  assert (Hnew : ~ In (detail_id detail) (ids (firstn 9 others))).
  { unfold ids. intros Hin. apply in_map_iff in Hin as (x & Hx & Hin).
    apply firstn_In in Hin. apply filter_In in Hin as [_ Hin].
    apply negb_true_iff in Hin.
    assert (Heq : strict_eqb (id x) (detail_id detail) = true)
      by (apply strict_eqb_eq, Hx).
    congruence. }
  split; [reflexivity|split; [|split]].
  - simpl. rewrite length_firstn. lia.
  - exact Hnew.
  - intros Hprev. unfold ids in *. simpl. constructor.
    + exact Hnew.
    + rewrite <- firstn_map. apply firstn_NoDup.
      apply (ids_filter_NoDup _ prev Hprev).
Qed.

End FeedFacts.

(** ** The relative-time formatter *)

Section TimeFacts.
Import TimeUtils.
Variable rt : Runtime.
Variable now : Z.

Lemma seconds_of_delta d k : 0 < k -> (d / 1000 <? k) = (d <? 1000 * k).
Proof.
  intros Hk.
  destruct (Z.ltb_spec (d / 1000) k) as [H|H], (Z.ltb_spec d (1000 * k)) as [H'|H'];
    try reflexivity; exfalso.
  - apply (Z.div_le_lower_bound d 1000 k) in H'; lia.
  - apply (Z.div_lt_upper_bound d 1000 k) in H'; lia.
Qed.

(** C7: without a timestamp, and for a timestamp less than 60 seconds
    before now (or after now), the text is "just now"; from one minute
    to less than one hour it is the number of whole minutes followed by
    "minute ago" or "minutes ago"; from one hour to less than one day it
    is the number of whole hours followed by "hour ago" or "hours ago". *)
Theorem formatTimeAgo_recent :
  formatTimeAgo rt now None = "just now"
  /\ formatTimeAgo rt now (Some EmptyString) = "just now"
  /\ forall s t,
       truthy_string s = true -> Date_parse rt s = Some t ->
       (now - t < 60000 -> formatTimeAgo rt now (Some s) = "just now")
       /\ (60000 <= now - t < 3600000 ->
             formatTimeAgo rt now (Some s) = ago ((now - t) / 60000) "minute")
       /\ (3600000 <= now - t < 86400000 ->
             formatTimeAgo rt now (Some s) = ago ((now - t) / 3600000) "hour").
Proof.
  split; [reflexivity | split; [reflexivity|]].
  intros s t Hs Ht.
  unfold formatTimeAgo, truthy_opt. rewrite Hs. simpl default. rewrite Ht.
  unfold num_sub, num_floor_div, num_ltb, negb.
  rewrite !seconds_of_delta by lia.
  change (1000 * 60) with 60000. change (1000 * 3600) with 3600000.
  change (1000 * 86400) with 86400000.
  split; [|split]; intros Hd.
  - destruct (Z.ltb_spec (now - t) 60000); [reflexivity | lia].
  - destruct (Z.ltb_spec (now - t) 60000); [lia|].
    destruct (Z.ltb_spec (now - t) 3600000); [|lia].
    rewrite Z.div_div by lia. change (1000 * 60) with 60000.
    unfold ago, num_text, num_is_not_one.
    destruct ((now - t) / 60000 =? 1); reflexivity.
  - destruct (Z.ltb_spec (now - t) 60000); [lia|].
    destruct (Z.ltb_spec (now - t) 3600000); [lia|].
    destruct (Z.ltb_spec (now - t) 86400000); [|lia].
    rewrite Z.div_div by lia. change (1000 * 3600) with 3600000.
    unfold ago, num_text, num_is_not_one.
    destruct ((now - t) / 3600000 =? 1); reflexivity.
Qed.

End TimeFacts.

(** ** The task API *)

Section TasksApiFacts.
Import ApiClient TasksApi.
Variable c : Client.

Lemma failure_surfaces response :
  surfaces response
    {| r_success := false; r_tasks := None; r_task := None; r_error := error response |}.
Proof. split; simpl; [auto | intros [H|H]; congruence]. Qed.

Lemma guarded_by_success (guard : bool) response payload_tasks payload_task :
  surfaces response
    (if success response && guard
     then {| r_success := true; r_tasks := payload_tasks; r_task := payload_task;
             r_error := None |}
     else {| r_success := false; r_tasks := None; r_task := None;
             r_error := error response |}).
Proof.
  destruct (success response) eqn:Hs, guard; simpl.
  - split; simpl; [congruence | reflexivity].
  - split; simpl; [congruence | intros [H|H]; congruence].
  - split; simpl; [auto | intros [H|H]; congruence].
  - split; simpl; [auto | intros [H|H]; congruence].
Qed.

(** C9: whatever the client answers to the request of an operation,
    the operation returns a result whose [success] is [false] and whose
    [error] is the client's when the client reports a failure, and that
    has a [task] or [tasks] only with [success] being [true]. *)
Theorem tasksApi_surfaces_client token taskId createData updateData :
  (forall response,
      get c "/tasks" (bearer token) = Fulfilled response ->
      exists r, getAllTasks c token = Fulfilled r /\ surfaces response r)
  /\ (forall response,
        post c "/tasks" (BCreate createData) (bearer token) = Fulfilled response ->
        exists r, createTask c createData token = Fulfilled r /\ surfaces response r)
  /\ (forall response,
        put c ("/tasks/" ++ decimal taskId)%string (BUpdate updateData) (bearer token)
        = Fulfilled response ->
        exists r, updateTask c taskId updateData token = Fulfilled r
                  /\ surfaces response r)
  /\ (forall response,
        delete c ("/tasks/" ++ decimal taskId)%string (bearer token) = Fulfilled response ->
        exists r, deleteTask c taskId token = Fulfilled r /\ surfaces response r)
  /\ (forall response,
        get c ("/tasks/" ++ decimal taskId)%string (bearer token) = Fulfilled response ->
        exists r, getTaskById c taskId token = Fulfilled r /\ surfaces response r).
Proof.
  repeat apply conj; intros response Hresp.
  - unfold getAllTasks. rewrite Hresp. unfold await.
    pose proof (guarded_by_success true response (data response) None) as Hs.
    rewrite andb_true_r in Hs.
    destruct (success response); eexists; (split; [reflexivity | exact Hs]).
  - unfold createTask. rewrite Hresp. unfold await.
    pose proof (guarded_by_success (isSome (data response)) response None (data response))
      as Hs.
    destruct (success response && isSome (data response));
      eexists; (split; [reflexivity | exact Hs]).
  - unfold updateTask. rewrite Hresp. unfold await.
    pose proof (guarded_by_success (isSome (data response)) response None (data response))
      as Hs.
    destruct (success response && isSome (data response));
      eexists; (split; [reflexivity | exact Hs]).
  - unfold deleteTask. rewrite Hresp. unfold await.
    pose proof (guarded_by_success true response None None) as Hs.
    rewrite andb_true_r in Hs.
    destruct (success response); eexists; (split; [reflexivity | exact Hs]).
  - unfold getTaskById. rewrite Hresp. unfold await.
    pose proof (guarded_by_success (isSome (data response)) response None (data response))
      as Hs.
    destruct (success response && isSome (data response));
      eexists; (split; [reflexivity | exact Hs]).
Qed.

End TasksApiFacts.

(** ** The new-task form *)

Section NewTaskFacts.
Import ApiClient NewTaskPage.

Lemma strip_prefix_append p : forall s r,
  strip_prefix p s = Some r -> s = (p ++ r)%string.
Proof.
  induction p as [|a p IH]; intros s r; simpl.
  - intros [= ->]. reflexivity.
  - destruct s as [|b s]; [discriminate|].
    destruct (Ascii.eqb a b) eqn:E; [|discriminate].
    apply Ascii.eqb_eq in E as ->.
    intros H. apply IH in H as ->. reflexivity.
Qed.

Lemma strip_prefix_length p : forall s r,
  strip_prefix p s = Some r ->
  String.length s = (String.length p + String.length r)%nat.
Proof.
  induction p as [|a p IH]; intros s r; simpl.
  - intros [= ->]. reflexivity.
  - destruct s as [|b s]; [discriminate|].
    destruct (Ascii.eqb a b); [|discriminate].
    intros H. apply IH in H. simpl. lia.
Qed.

Lemma strip_first_In ws : forall s r,
  strip_first ws s = Some r -> exists w, In w ws /\ strip_prefix w s = Some r.
Proof.
  induction ws as [|w ws IH]; intros s r; simpl; [discriminate|].
  destruct (strip_prefix w s) as [r'|] eqn:E.
  - intros [= ->]. exists w. auto.
  - intros H. destruct (IH _ _ H) as (w' & Hin & Hw'). exists w'. auto.
Qed.

Lemma white_space_length w : In w white_space -> (1 <= String.length w)%nat.
Proof.
  unfold white_space. simpl In. intros H.
  repeat (destruct H as [<-|H]; [simpl; lia|]). contradiction.
Qed.

(** No white space character begins with another one: the character
    that [strip_white] strips is the one that the text starts with. *)
Lemma strip_white_front w r : In w white_space -> strip_white (w ++ r) = Some r.
Proof.
  unfold white_space. simpl In. intros H.
  repeat (destruct H as [<-|H]; [reflexivity|]). contradiction.
Qed.

Lemma strip_white_shorter s r :
  strip_white s = Some r -> (String.length r < String.length s)%nat.
Proof.
  intros H. apply strip_first_In in H as (w & Hin & Hw).
  apply strip_prefix_length in Hw. apply white_space_length in Hin. lia.
Qed.

Lemma blank_upto_step n s :
  s <> EmptyString ->
  blank_upto (S n) s
  = existsb (fun w => match strip_prefix w s with
                      | Some r => blank_upto n r
                      | None => false
                      end) white_space.
Proof. destruct s; [congruence | reflexivity]. Qed.

Lemma trimStart_upto_step n s :
  trimStart_upto (S n) s
  = match strip_white s with
    | Some r => trimStart_upto n r
    | None => s
    end.
Proof. reflexivity. Qed.

Lemma trimStart_upto_blank n : forall s m,
  blank_upto n s = true -> (String.length s <= m)%nat ->
  trimStart_upto m s = EmptyString.
Proof.
  induction n as [|n IH]; intros s m; destruct s as [|ch s];
    try (intros _ _; destruct m; reflexivity); try discriminate.
  intros H Hm. rewrite blank_upto_step in H by discriminate.
  apply existsb_exists in H as (w & Hin & Hw).
  destruct (strip_prefix w (String ch s)) as [r|] eqn:E; [|discriminate].
  pose proof (strip_prefix_length _ _ _ E) as Hlen.
  pose proof (white_space_length _ Hin) as Hone.
  apply strip_prefix_append in E.
  destruct m as [|m]; [simpl in Hm; lia|].
  rewrite trimStart_upto_step, E, (strip_white_front w r Hin).
  apply IH; [exact Hw | lia].
Qed.

Lemma trimStart_blank s : blank s = true -> trimStart s = EmptyString.
Proof.
  intros H. apply (trimStart_upto_blank _ _ _ H). lia.
Qed.

Lemma trim_blank s : blank s = true -> trim s = EmptyString.
Proof. intros H. unfold trim. rewrite (trimStart_blank s H). reflexivity. Qed.

Lemma trimStart_upto_empty n : forall s,
  trimStart_upto n s = EmptyString -> blank_upto n s = true.
Proof.
  induction n as [|n IH]; intros s.
  - simpl. intros ->. reflexivity.
  - destruct s as [|ch s]; [reflexivity|].
    rewrite trimStart_upto_step, blank_upto_step by discriminate.
    destruct (strip_white (String ch s)) as [r|] eqn:E; [|discriminate].
    intros H. apply IH in H.
    apply strip_first_In in E as (w & Hin & Hw).
    apply existsb_exists. exists w. rewrite Hw. auto.
Qed.

(** What [trimStart] returns does not start with white space. *)
Lemma trimStart_upto_head n : forall s,
  (String.length s <= n)%nat ->
  trimStart_upto n s = EmptyString \/ strip_white (trimStart_upto n s) = None.
Proof.
  induction n as [|n IH]; intros s Hn.
  - destruct s; [left; reflexivity | simpl in Hn; lia].
  - rewrite trimStart_upto_step. destruct (strip_white s) as [r|] eqn:E.
    + apply IH. apply strip_white_shorter in E. lia.
    + right. exact E.
Qed.

(** [trim] returns the empty string for the blank strings only. *)
Lemma trim_empty_blank s : trim s = EmptyString -> blank s = true.
Proof.
  unfold trim. intros H.
  apply trimStart_upto_empty. fold (trimStart s).
  destruct (trimStart_upto_head (String.length s) s (le_n _)) as [Hs|Hs];
    [exact Hs|]. fold (trimStart s) in Hs.
  destruct (trimStart s) as [|ch t] eqn:Ht; [reflexivity|].
  change (trimEnd (String ch t))
    with (match trimStart (String ch t) with
          | EmptyString => EmptyString
          | String _ _ => String ch (trimEnd t)
          end) in H.
  change (trimStart (String ch t))
    with (trimStart_upto (S (String.length t)) (String ch t)) in H.
  rewrite trimStart_upto_step, Hs in H. discriminate.
Qed.

(** C10: when the title is empty or made of white space only (the white
    space characters and line terminators of the language, U+00A0,
    U+2028 and U+FEFF among them), the handler sets the error to 'Title
    is required', leaves the form data and the loading flag as they are,
    and does nothing else: no request to create the task is made,
    whatever the client would answer. *)
Theorem blank_title_rejected rt c host token st :
  blank (c_title (formData st)) = true ->
  handleSubmit rt c host token st
  = ({| formData := formData st; loading := loading st; error := "Title is required" |},
     [preventDefault]).
Proof.
  intros H. unfold handleSubmit. rewrite (trim_blank _ H). reflexivity.
Qed.

(** With any other title the request is made. *)
Lemma other_title_submitted rt c host token st :
  blank (c_title (formData st)) = false ->
  exists data, In (callCreateTask data token) (snd (handleSubmit rt c host token st)).
Proof.
  intros H. unfold handleSubmit.
  destruct (trim (c_title (formData st))) eqn:Ht.
  - apply trim_empty_blank in Ht. congruence.
  - simpl negb. cbv iota.
    eexists.
    destruct (TasksApi.createTask c _ token) as [result|reason].
    + destruct (TasksApi.r_success result), (TasksApi.r_task result);
        simpl; auto.
    + simpl; auto.
Qed.

End NewTaskFacts.

(** ** The properties at sample inputs *)

Section Instances.
Import TasksPage Sample.

(** C2 as stated fails for the direction 'desc': the task without a due
    date comes out first, before the task that has one. *)
Lemma due_date_desc_missing_not_last :
  ~ missing_last
      (applyFiltersAndSorting ExampleHost.host march10 (view all by_due_date desc)
         [undated; dated]).
Proof.
  intros H.
  specialize (H 0%nat 1%nat undated dated eq_refl eq_refl eq_refl eq_refl).
  lia.
Qed.

(** C3 as stated fails on a feed with two records of one identifier,
    as set by [fetchActivities] from such an answer: the merge of an
    event with another identifier keeps both. *)
Lemma merge_keeps_repeated_ids :
  let current :=
    RecentActivity.activities
      (RecentActivity.fetchActivities (answering repeated_ids) (Some "token") at_mount) in
  let next := RecentActivity.handleTaskActivity local_detail current in
  ~ ((length next <= 10)%nat /\ List.NoDup (ids next)).
Proof.
  intros current next [_ H].
  vm_compute in H.
  inversion H as [|? ? _ Hrest]. inversion Hrest as [|? ? Hnot _].
  apply Hnot. left. reflexivity.
Qed.

(** C5 as stated fails for the status filter 'overdue': the same five
    inputs give the empty list on 2024-03-10 and the task, due on
    2024-03-15, on 2024-03-20. *)
Lemma displayed_list_depends_on_clock :
  applyFiltersAndSorting ExampleHost.host march10 (view overdue by_created_at desc) [dated]
  <> applyFiltersAndSorting ExampleHost.host march20 (view overdue by_created_at desc) [dated].
Proof. vm_compute. discriminate. Qed.

(** C3 on a feed of two records with the identifiers 7 and 8. *)
Lemma merge_keeps_feed_bounded_witness :
  List.NoDup (ids [server_item 7 "Dated"; server_item 8 "Past"])
  /\ List.NoDup
       (ids (RecentActivity.handleTaskActivity local_detail
               [server_item 7 "Dated"; server_item 8 "Past"])).
Proof.
  assert (H : List.NoDup (ids [server_item 7 "Dated"; server_item 8 "Past"])).
  { repeat constructor; simpl; intuition discriminate. }
  split; [exact H|].
  destruct (merge_keeps_feed_bounded local_detail
              [server_item 7 "Dated"; server_item 8 "Past"]) as (_ & _ & _ & Hnodup).
  apply Hnodup, H.
Defined.

(** C4: on a host west of UTC the code departs from the claim for a due
    date given as a calendar date.  Five hours west of UTC, on 2024-03-10
    at noon, the start of today is 2024-03-10 at 05:00 UTC.  An
    incomplete task due on 2024-03-10, today, is displayed by the filter
    'overdue' and not by 'upcoming': [new Date] reads the calendar date
    as midnight UTC, which is the evening of the 9th in local time, and
    [setHours(0, 0, 0, 0)] sets it to the local midnight of the 9th.  The
    task item of the same page reads the date as a local one and shows
    'Due Today'; a host in UTC displays the task under 'upcoming'. *)
Theorem overdue_keeps_task_due_today :
  getToday WestHost.host west_noon = 1710046800000
  /\ taskDate WestHost.host due_today = Some (Some 1709960400000)
  /\ applyFiltersAndSorting WestHost.host west_noon
       (view overdue by_due_date asc) [due_today] = [due_today]
  /\ applyFiltersAndSorting WestHost.host west_noon
       (view upcoming by_due_date asc) [due_today] = []
  /\ TaskItem.dueBadge WestHost.host west_noon due_today
     = Some ("bg-orange-100 text-orange-800", "Due Today")
  /\ applyFiltersAndSorting ExampleHost.host west_noon
       (view upcoming by_due_date asc) [due_today] = [due_today].
Proof. vm_compute. repeat split. Qed.

(** C5, as amended, at two times of 2024-03-10. *)
Lemma displayed_list_function_of_inputs_and_day_witness :
  getToday ExampleHost.host march10 = getToday ExampleHost.host (march10 + 1000)
  /\ applyFiltersAndSorting ExampleHost.host march10
       (view overdue by_due_date asc) [dated; past_due]
     = applyFiltersAndSorting ExampleHost.host (march10 + 1000)
         (view overdue by_due_date asc) [dated; past_due].
Proof.
  split; [vm_compute; reflexivity|].
  apply displayed_list_function_of_inputs_and_day.
  left. vm_compute. reflexivity.
Defined.


(** C7 for timestamps 90 seconds and 2 hours 50 minutes before now. *)
Lemma formatTimeAgo_recent_witness :
  TimeUtils.formatTimeAgo ExampleHost.host march10 (Some "2024-03-10T11:58:30")
  = "1 minute ago"
  /\ TimeUtils.formatTimeAgo ExampleHost.host march10 (Some "2024-03-10T09:10:00")
     = "2 hours ago".
Proof.
  destruct (formatTimeAgo_recent ExampleHost.host march10) as (_ & _ & H).
  split.
  - destruct (H "2024-03-10T11:58:30" 1710071910000) as (_ & Hminutes & _);
      [reflexivity | vm_compute; reflexivity |].
    rewrite Hminutes; [reflexivity | unfold march10; lia].
  - destruct (H "2024-03-10T09:10:00" 1710061800000) as (_ & _ & Hhours);
      [reflexivity | vm_compute; reflexivity |].
    rewrite Hhours; [reflexivity | unfold march10; lia].
Defined.

(** C8 on a store that holds the source array at location 0. *)
Lemma source_collection_unchanged_witness :
  exists result h',
    TasksPageStore.applyFiltersAndSorting ExampleHost.host march10
      (view active by_priority asc) 0%nat {[ 0%nat := [undated; dated] ]}
    = Some (result, h')
    /\ h' !! 0%nat = Some [undated; dated]
    /\ result <> 0%nat.
Proof.
  destruct (source_collection_unchanged ExampleHost.host march10
              (view active by_priority asc) {[ 0%nat := [undated; dated] ]} 0%nat
              [undated; dated])
    as (result & h' & Hrun & Hsrc & Hnew & _).
  - apply lookup_singleton_eq.
  - exists result, h'. auto.
Defined.

(** C9 for a client that reports a network error. *)
Lemma tasksApi_surfaces_client_witness :
  exists r,
    TasksApi.getAllTasks (answering failure) "token" = Fulfilled r
    /\ TasksApi.r_success r = false
    /\ TasksApi.r_error r = Some "Network error".
Proof.
  destruct (tasksApi_surfaces_client (answering failure) "token" 1
              (NewTaskPage.formData (form "Buy milk")) no_update) as (Hall & _).
  destruct (Hall failure eq_refl) as (r & Hr & Hfail & _).
  exists r. split; [exact Hr|]. apply Hfail. reflexivity.
Defined.

(** C10 for a title made of a no-break space, a space, a line
    separator, a tab and a byte order mark. *)
Lemma blank_title_rejected_witness :
  blank white_title = true
  /\ NewTaskPage.handleSubmit ExampleHost.host (answering failure) page_host "token"
       (form white_title)
     = ({| NewTaskPage.formData := NewTaskPage.formData (form white_title);
           NewTaskPage.loading := false;
           NewTaskPage.error := "Title is required" |},
        [NewTaskPage.preventDefault]).
Proof.
  split; [reflexivity|].
  apply (blank_title_rejected ExampleHost.host (answering failure) page_host "token"
           (form white_title)).
  reflexivity.
Defined.

End Instances.

(* ===================================================================== *)
(** * Further properties                                                  *)
(* ===================================================================== *)

(** ** The pipeline as a whole *)

Section PipelineContents.
Import TasksPage.
Variable rt : Runtime.
Variable now : Z.

Lemma filter_filter {A : Type} (p q : A -> bool) (l : list A) :
  List.filter q (List.filter p l) = List.filter (fun x => p x && q x) l.
Proof.
  induction l as [|x l IH]; simpl; [reflexivity|].
  destruct (p x); simpl; [destruct (q x)|]; rewrite IH; reflexivity.
Qed.

Lemma filter_split_perm {A : Type} (p : A -> bool) (l : list A) :
  Permutation (List.filter p l ++ List.filter (fun x => negb (p x)) l) l.
Proof.
  induction l as [|x l IH]; simpl; [reflexivity|].
  destruct (p x); simpl.
  - apply perm_skip, IH.
  - rewrite <- Permutation_middle. apply perm_skip, IH.
Qed.

Lemma pipeline_filtered v tasks :
  applyFiltersAndSorting rt now v tasks
  = ArraySort.sort (comparator rt (sortBy v) (sortOrder v))
      (List.filter (passes rt now v) tasks).
Proof.
  unfold applyFiltersAndSorting, passes.
  destruct (truthy_string (searchTerm v)).
  - rewrite filter_filter. reflexivity.
  - reflexivity.
Qed.

(** X1: the displayed list holds exactly the tasks that pass the search
    filter and the status filter, each as many times as the collection
    holds it: it is a rearrangement of the filtered collection. *)
Theorem displayed_is_rearranged_selection v tasks :
  Permutation (applyFiltersAndSorting rt now v tasks)
              (List.filter (passes rt now v) tasks)
  /\ (length (applyFiltersAndSorting rt now v tasks) <= length tasks)%nat.
Proof.
  rewrite pipeline_filtered. split.
  - apply sort_perm.
  - rewrite sort_length. apply filter_length_le.
Qed.

(** Without a search term and with the status filter 'all', whatever
    the sort key and the direction, the displayed list is a rearrangement
    of the whole collection: no task is dropped and none is added. *)
Theorem all_tasks_displayed key order tasks :
  Permutation
    (applyFiltersAndSorting rt now
       {| searchTerm := EmptyString; filter := all; sortBy := key; sortOrder := order |}
       tasks)
    tasks.
Proof.
  unfold applyFiltersAndSorting; simpl.
  rewrite sort_perm, filter_keeps_all; [reflexivity | reflexivity].
Qed.

(** X2: under the same search term, the lists displayed for 'active' and
    for 'completed' together are a rearrangement of the list displayed
    for 'all': every task is in exactly one of the two. *)
Theorem active_and_completed_split_all v tasks :
  Permutation
    (applyFiltersAndSorting rt now (withFilter v active) tasks
     ++ applyFiltersAndSorting rt now (withFilter v filter_completed) tasks)
    (applyFiltersAndSorting rt now (withFilter v all) tasks).
Proof.
  unfold applyFiltersAndSorting; simpl.
  set (searched := if truthy_string (searchTerm v) then _ else _).
  rewrite !sort_perm.
  rewrite (filter_keeps_all (statusKeeps rt (getToday rt now) all)) by reflexivity.
  rewrite Permutation_app_comm.
  apply (filter_split_perm completed searched).
Qed.

(** X3: a task displayed for 'overdue' or for 'upcoming' is displayed for
    'active' too, and no task is displayed for both 'overdue' and
    'upcoming'. *)
Theorem overdue_and_upcoming_within_active v tasks task :
  (In task (applyFiltersAndSorting rt now (withFilter v overdue) tasks) ->
     In task (applyFiltersAndSorting rt now (withFilter v active) tasks)
     /\ ~ In task (applyFiltersAndSorting rt now (withFilter v upcoming) tasks))
  /\ (In task (applyFiltersAndSorting rt now (withFilter v upcoming) tasks) ->
        In task (applyFiltersAndSorting rt now (withFilter v active) tasks)).
Proof.
  rewrite !applyFiltersAndSorting_In. simpl.
  unfold statusKeeps.
  destruct (negb (completed task)); simpl; [|intuition discriminate].
  destruct (taskDate rt task) as [[d|]|]; simpl; try (intuition discriminate).
  destruct (Z.ltb_spec d (getToday rt now)), (Z.leb_spec (getToday rt now) d);
    try lia; intuition discriminate.
Qed.

End PipelineContents.

Section SearchCase.
Import TasksPage.

Lemma lower_upper_unit c : lower_unit (ExampleHost.upper_unit c) = lower_unit c.
Proof.
  destruct c as [[] [] [] [] [] [] [] []]; reflexivity.
Qed.

Lemma toLowerCase_upper s : toLowerCase (ExampleHost.upper s) = toLowerCase s.
Proof.
  induction s as [|c s IH]; simpl; [reflexivity|].
  rewrite lower_upper_unit, IH. reflexivity.
Qed.

Lemma truthy_toLowerCase s : truthy_string (toLowerCase s) = truthy_string s.
Proof. destruct s; reflexivity. Qed.

(** X4: the search does not depend on the case of the search term: two
    terms with the same lower-case form, such as a term and its upper-case
    form, give the same displayed list. *)
Theorem search_term_case_insensitive rt now s1 s2 f key order tasks :
  toLowerCase s1 = toLowerCase s2 ->
  applyFiltersAndSorting rt now
    {| searchTerm := s1; filter := f; sortBy := key; sortOrder := order |} tasks
  = applyFiltersAndSorting rt now
      {| searchTerm := s2; filter := f; sortBy := key; sortOrder := order |} tasks.
Proof.
  intros H. unfold applyFiltersAndSorting; simpl.
  rewrite <- (truthy_toLowerCase s1), <- (truthy_toLowerCase s2), H. reflexivity.
Qed.

End SearchCase.

Section KeyOrder.
Import TasksPage.
Variable rt : Runtime.
Variable now : Z.

Lemma output_ordered v tasks i j a b :
  (sortBy v = by_title -> Collation rt) ->
  nth_error (applyFiltersAndSorting rt now v tasks) i = Some a ->
  nth_error (applyFiltersAndSorting rt now v tasks) j = Some b ->
  (i < j)%nat ->
  ArraySort.precedes (comparator rt (sortBy v) (sortOrder v)) b a = false.
Proof.
  intros Hcol Hi Hj Hij.
  rewrite pipeline_filtered in Hi, Hj.
  eapply ordered_positions; [|exact Hi|exact Hj|exact Hij].
  apply sort_is_ordered, comparator_strict, Hcol.
Qed.

Lemma precedes_by_priority order a b :
  ArraySort.precedes (comparator rt by_priority order) a b
  = match order with
    | asc => pOrder (priority b) <? pOrder (priority a)
    | desc => pOrder (priority a) <? pOrder (priority b)
    end.
Proof.
  unfold ArraySort.precedes, comparator, comparison.
  destruct order; simpl;
    repeat match goal with |- context [?x <? ?y] => destruct (Z.ltb_spec x y) end;
    try reflexivity; lia.
Qed.

(** X5: with the sort key 'priority', for every collection and every
    filter, the direction 'asc' displays the tasks from the highest
    priority to the lowest, and the direction 'desc' from the lowest to
    the highest. *)
Theorem priority_order_of_display s f order tasks i j a b :
  let out := applyFiltersAndSorting rt now
               {| searchTerm := s; filter := f; sortBy := by_priority; sortOrder := order |}
               tasks in
  nth_error out i = Some a -> nth_error out j = Some b -> (i < j)%nat ->
  match order with
  | asc => pOrder (priority b) <= pOrder (priority a)
  | desc => pOrder (priority a) <= pOrder (priority b)
  end.
Proof.
  intros out Hi Hj Hij.
  pose proof (output_ordered
                {| searchTerm := s; filter := f; sortBy := by_priority; sortOrder := order |}
                tasks i j a b) as H.
  simpl in H. specialize (H ltac:(discriminate) Hi Hj Hij).
  rewrite precedes_by_priority in H.
  destruct order; apply Z.ltb_ge in H; exact H.
Qed.

(** X6: with the sort key 'created_at', when the creation date of every
    task of the collection parses, of two displayed tasks the one
    displayed first is the older one (or as old) when the direction is
    'desc', the state the page starts in, and the newer one (or as new)
    when it is 'asc'.  (With a creation date that does not parse the
    comparator returns [NaN] against it, and where the tasks end up is
    left to the sort of the engine.) *)
Theorem created_at_order_of_output s f order tasks i j a b ta tb :
  let out := applyFiltersAndSorting rt now
               {| searchTerm := s; filter := f; sortBy := by_created_at; sortOrder := order |}
               tasks in
  Forall (sortable rt by_created_at) tasks ->
  nth_error out i = Some a -> nth_error out j = Some b -> (i < j)%nat ->
  Date_parse rt (created_at a) = Some ta ->
  Date_parse rt (created_at b) = Some tb ->
  match order with
  | asc => tb <= ta
  | desc => ta <= tb
  end.
Proof.
  intros out _ Hi Hj Hij Ha Hb.
  pose proof (output_ordered
                {| searchTerm := s; filter := f; sortBy := by_created_at; sortOrder := order |}
                tasks i j a b) as H.
  simpl in H. specialize (H ltac:(discriminate) Hi Hj Hij). unfold ArraySort.precedes, comparator, comparison, getTime in H.
  rewrite Ha, Hb in H.
  destruct order; simpl in H; apply Z.ltb_ge in H; lia.
Qed.

(** X7: with the sort key 'due_date', when every due date of the
    collection parses, of two displayed tasks that have due dates the one
    displayed first is due earlier (or at the same time) when the
    direction is 'asc', and later (or at the same time) when it is
    'desc'.  (With a due date that does not parse the comparator returns
    [NaN] against it, and where the tasks end up is left to the sort of
    the engine.) *)
Theorem due_date_order_of_output s f order tasks i j a b da db ta tb :
  let out := applyFiltersAndSorting rt now
               {| searchTerm := s; filter := f; sortBy := by_due_date; sortOrder := order |}
               tasks in
  Forall (sortable rt by_due_date) tasks ->
  nth_error out i = Some a -> nth_error out j = Some b -> (i < j)%nat ->
  due_date a = Some da -> da <> EmptyString -> Date_parse rt da = Some ta ->
  due_date b = Some db -> db <> EmptyString -> Date_parse rt db = Some tb ->
  match order with
  | asc => ta <= tb
  | desc => tb <= ta
  end.
Proof.
  intros out _ Hi Hj Hij Ha Hda Hta Hb Hdb Htb.
  pose proof (output_ordered
                {| searchTerm := s; filter := f; sortBy := by_due_date; sortOrder := order |}
                tasks i j a b) as H.
  simpl in H. specialize (H ltac:(discriminate) Hi Hj Hij). unfold ArraySort.precedes, comparator, comparison, getTime in H.
  rewrite Ha, Hb in H. simpl in H.
  destruct da as [|ca da]; [congruence|]. destruct db as [|cb db]; [congruence|].
  simpl in H. rewrite Hta, Htb in H.
  destruct order; simpl in H; apply Z.ltb_ge in H; lia.
Qed.

End KeyOrder.

(** ** Sorting and filtering *)

Section SortFilter.
Context {A : Type}.
Variable comparefn : A -> A -> Num.
Variable dom : A -> Prop.
Variable q : A -> bool.

Local Abbreviation precedes := (ArraySort.precedes comparefn).
Local Abbreviation insert := (ArraySort.insert comparefn).
Local Abbreviation sort := (ArraySort.sort comparefn).

Hypothesis order : strict precedes.
Hypothesis rank : ranked dom precedes.

Lemma insert_front x acc :
  Forall (fun e => precedes x e = true) acc -> insert x acc = x :: acc.
Proof.
  destruct 1 as [|e rest He _]; simpl; [reflexivity|].
  rewrite He. reflexivity.
Qed.

Lemma Forall_filter (P : A -> Prop) (l : list A) :
  Forall P l -> Forall P (List.filter q l).
Proof.
  rewrite !List.Forall_forall. intros H x Hx.
  apply filter_In in Hx as [Hx _]. apply H, Hx.
Qed.

Lemma filter_insert x acc :
  dom x -> Forall dom acc -> ordered precedes acc ->
  List.filter q (insert x acc)
  = if q x then insert x (List.filter q acc) else List.filter q acc.
Proof.
  intros Hx Hdom Hord. induction Hord as [|e rest Hall Hord IH].
  - simpl. destruct (q x); reflexivity.
  - inversion Hdom as [|? ? He Hrest]; subst.
    simpl. destruct (precedes x e) eqn:Hxe.
    + assert (Hfront : Forall (fun e' => precedes x e' = true) (e :: rest)).
      { constructor; [exact Hxe|].
        rewrite List.Forall_forall in Hall, Hrest. apply List.Forall_forall.
        intros e' He'.
        destruct (rank x e e' Hx He (Hrest e' He') Hxe) as [H|H]; [exact H|].
        rewrite (Hall e' He') in H. discriminate. }
      change (List.filter q (x :: e :: rest))
        with (if q x then x :: List.filter q (e :: rest) else List.filter q (e :: rest)).
      destruct (q x); [|reflexivity].
      symmetry. apply insert_front, Forall_filter, Hfront.
    + simpl. rewrite (IH Hrest).
      destruct (q e), (q x); simpl; rewrite ?Hxe; reflexivity.
Qed.

Lemma Forall_insert (P : A -> Prop) x acc :
  P x -> Forall P acc -> Forall P (insert x acc).
Proof.
  intros Hx Hacc. apply List.Forall_forall. intros y Hy.
  apply (Permutation_in _ (insert_perm comparefn x acc)) in Hy.
  destruct Hy as [<-|Hy]; [exact Hx|].
  rewrite List.Forall_forall in Hacc. apply Hacc, Hy.
Qed.

Lemma filter_sort_from l : forall acc,
  Forall dom acc -> Forall dom l -> ordered precedes acc ->
  List.filter q (fold_left (fun sorted pivot => insert pivot sorted) l acc)
  = fold_left (fun sorted pivot => insert pivot sorted)
      (List.filter q l) (List.filter q acc).
Proof.
  induction l as [|x l IH]; intros acc Hacc Hl Hord; simpl.
  - reflexivity.
  - inversion Hl as [|? ? Hx Hl']; subst.
    rewrite IH.
    + rewrite (filter_insert x acc Hx Hacc Hord).
      destruct (q x); reflexivity.
    + apply Forall_insert; assumption.
    + exact Hl'.
    + apply insert_ordered; assumption.
Qed.

(** Filtering a sorted array gives what sorting the filtered array gives. *)
Lemma filter_sort l :
  Forall dom l -> List.filter q (sort l) = sort (List.filter q l).
Proof.
  intros Hl. unfold ArraySort.sort.
  apply (filter_sort_from l []); [constructor | exact Hl | constructor].
Qed.

End SortFilter.

Lemma ordered_when_unrelated {A : Type} (R : A -> A -> bool) (l : list A) :
  (forall a b, In a l -> In b l -> R a b = false) -> ordered R l.
Proof.
  induction l as [|x l IH]; intros H; constructor.
  - apply List.Forall_forall. intros b Hb. apply H; [right; exact Hb | left; reflexivity].
  - apply IH. intros a b Ha Hb. apply H; right; assumption.
Qed.

Section PipelineStability.
Import TasksPage.
Variable rt : Runtime.
Variable now : Z.

Ltac sign_cases :=
  repeat match goal with
         | H : context [(?x <? ?y)] |- _ => destruct (Z.ltb_spec x y)
         | |- context [(?x <? ?y)] => destruct (Z.ltb_spec x y)
         end;
  try discriminate; try (left; reflexivity); try (right; reflexivity); try lia.

Lemma comparator_ranked key order :
  (key = by_title -> RankedCollation rt) ->
  ranked (sortable rt key) (ArraySort.precedes (comparator rt key order)).
Proof.
  intros Hcol a b c Ha Hb Hc.
  unfold ArraySort.precedes, comparator.
  destruct key; simpl in Ha, Hb, Hc.
  - (* created_at *)
    unfold comparison, getTime, num_sub.
    destruct (Date_parse rt (created_at a)); [|congruence].
    destruct (Date_parse rt (created_at b)); [|congruence].
    destruct (Date_parse rt (created_at c)); [|congruence].
    destruct order; simpl; intros H; sign_cases.
  - (* due_date *)
    unfold comparison, getTime, num_sub. unfold hasDueDate in Ha, Hb, Hc.
    destruct (truthy_opt (due_date a));
      [destruct (Date_parse rt (default EmptyString (due_date a)));
       [|exfalso; apply Ha; reflexivity]|];
      (destruct (truthy_opt (due_date b));
       [destruct (Date_parse rt (default EmptyString (due_date b)));
        [|exfalso; apply Hb; reflexivity]|]);
      (destruct (truthy_opt (due_date c));
       [destruct (Date_parse rt (default EmptyString (due_date c)));
        [|exfalso; apply Hc; reflexivity]|]);
      destruct order; simpl; intros H; sign_cases.
  - (* priority *)
    unfold comparison.
    destruct order; simpl; intros H; sign_cases.
  - (* title *)
    destruct (Hcol eq_refl) as [[Hswap _] Hrank].
    unfold comparison. destruct order; simpl; rewrite !Z.ltb_lt; intros H.
    + apply Hrank. exact H.
    + assert (H' : localeCompare rt (title b) (title a) < 0) by (apply Hswap; lia).
      destruct (Hrank _ _ (title c) H') as [H1|H1]; apply Hswap in H1; [right|left]; lia.
Qed.

Lemma Forall_trivial {A : Type} (l : list A) : Forall (fun _ => True) l.
Proof. apply List.Forall_forall. auto. Qed.

(** X8: with the sort key 'priority', in either direction, the displayed
    tasks of one priority stand in the order they have in the collection:
    the sort does not reorder tasks that rank alike. *)
Theorem same_priority_keeps_collection_order s f order tasks p :
  let v := {| searchTerm := s; filter := f; sortBy := by_priority; sortOrder := order |} in
  List.filter (fun t => priority_eqb (priority t) p) (applyFiltersAndSorting rt now v tasks)
  = List.filter (fun t => priority_eqb (priority t) p) (List.filter (passes rt now v) tasks).
Proof.
  intros v. rewrite pipeline_filtered. simpl.
  rewrite (filter_sort _ (fun _ => True)).
  - apply sort_ordered_id, ordered_when_unrelated.
    intros a b Ha Hb.
    apply filter_In in Ha as [_ Ha]. apply filter_In in Hb as [_ Hb].
    rewrite precedes_by_priority.
    destruct (priority a), (priority b), p, order; try discriminate; reflexivity.
  - apply comparator_strict. discriminate.
  - apply (comparator_ranked by_priority order). discriminate.
  - apply Forall_trivial.
Qed.

(** X9: removing the tasks with one identifier from the collection, as a
    successful delete does, removes them from the displayed list and
    changes nothing else in it, provided the dates that the sort key
    reads parse (and, for the key 'title', that [localeCompare] ranks the
    strings). *)
Theorem removal_commutes_with_display v tasks taskId :
  (sortBy v = by_title -> RankedCollation rt) ->
  Forall (sortable rt (sortBy v)) tasks ->
  applyFiltersAndSorting rt now v (List.filter (fun t => negb (id t =? taskId)) tasks)
  = List.filter (fun t => negb (id t =? taskId)) (applyFiltersAndSorting rt now v tasks).
Proof.
  intros Hcol Hdates. rewrite !pipeline_filtered.
  rewrite (filter_sort _ (sortable rt (sortBy v))).
  - f_equal. rewrite !filter_filter. apply filter_ext. intros t. apply andb_comm.
  - apply comparator_strict. intros E. apply Hcol, E.
  - apply comparator_ranked, Hcol.
  - apply Forall_filter, Hdates.
Qed.

End PipelineStability.

(** ** The life of the activity feed *)

Section FeedLife.
Import Activity RecentActivity.

Lemma fetchActivities_cases c token st :
  let st' := fetchActivities c token st in
  loading st' = false
  /\ ((error st' <> None /\ activities st' = activities st)
      \/ (error st' = None
          /\ exists headers response,
               ApiClient.get c "/activities/recent" headers = Fulfilled response
               /\ match ApiClient.data response with
                  | Some (ApiClient.PActivities acts) => activities st' = firstn 10 acts
                  | _ => activities st' = []
                  end)).
Proof.
  unfold fetchActivities.
  destruct (truthy_opt token); simpl.
  - match goal with |- context [ApiClient.get c ?p ?h] =>
      destruct (ApiClient.get c p h) as [response|reason] eqn:Hget end.
    + destruct (ApiClient.success response); simpl.
      * destruct (ApiClient.data response) as [[t|ts|acts]|] eqn:Hdata; simpl;
          (split; [reflexivity|]);
          try (left; split; [discriminate | reflexivity]);
          right; (split; [reflexivity|]); eexists; eexists; (split; [exact Hget|]);
          rewrite Hdata; reflexivity.
      * split; [reflexivity|]. left. split; [discriminate | reflexivity].
    + split; [reflexivity|]. left. split; [discriminate | reflexivity].
  - split; [reflexivity|]. left. split; [discriminate | reflexivity].
Qed.

Lemma handleTaskActivity_bounded detail prev :
  (length (handleTaskActivity detail prev) <= 10)%nat.
Proof.
  rewrite handleTaskActivity_unfold. simpl. rewrite length_firstn. lia.
Qed.

Lemma handleTaskActivity_distinct detail prev :
  List.NoDup (ids prev) -> List.NoDup (ids (handleTaskActivity detail prev)).
Proof.
  intros Hprev. rewrite handleTaskActivity_unfold. unfold ids. simpl. constructor.
  - intros Hin. apply in_map_iff in Hin as (x & Hx & Hin).
    apply firstn_In in Hin. apply filter_In in Hin as [_ Hin].
    apply negb_true_iff in Hin.
    assert (Heq : strict_eqb (id x) (detail_id detail) = true)
      by (apply strict_eqb_eq, Hx).
    congruence.
  - rewrite <- firstn_map. apply firstn_NoDup.
    apply (ids_filter_NoDup _ prev Hprev).
Qed.

(** X10: whatever the clients answer and whatever events arrive, in any
    order, the feed never holds more than 10 entries. *)
Theorem feed_never_exceeds_ten steps :
  (length (activities (Feed.run steps)) <= 10)%nat.
Proof.
  unfold Feed.run.
  assert (H : (length (activities Feed.mounted) <= 10)%nat) by (simpl; lia).
  revert H. generalize Feed.mounted.
  induction steps as [|s steps IH]; intros st H; simpl; [exact H|].
  apply IH. destruct s as [c token|d]; simpl.
  - destruct (fetchActivities_cases c token st) as [_ [[_ Hsame]|[_ (h & r & _ & Hacts)]]].
    + rewrite Hsame. exact H.
    + destruct (ApiClient.data r) as [[t|ts|acts]|]; rewrite Hacts; simpl; try lia.
      rewrite length_firstn. lia.
  - apply handleTaskActivity_bounded.
Qed.

(** X11: when the answers of the server are activity records of which no
    two have the same identifier, the feed never holds two entries with
    the same identifier, whatever events arrive and in whatever order. *)
Theorem feed_has_distinct_ids steps :
  Forall distinct_answers steps ->
  List.NoDup (ids (activities (Feed.run steps))).
Proof.
  unfold Feed.run.
  assert (H : List.NoDup (ids (activities Feed.mounted))) by constructor.
  revert H. generalize Feed.mounted.
  induction steps as [|s steps IH]; intros st H Hsteps; simpl; [exact H|].
  inversion Hsteps as [|? ? Hs Hrest]; subst.
  apply IH; [|exact Hrest]. destruct s as [c token|d]; simpl.
  - destruct (fetchActivities_cases c token st) as [_ [[_ Hsame]|[_ (h & r & Hget & Hacts)]]].
    + rewrite Hsame. exact H.
    + simpl in Hs. specialize (Hs h r Hget).
      destruct (ApiClient.data r) as [[t|ts|acts]|]; rewrite Hacts; try constructor.
      unfold ids. rewrite <- firstn_map. apply firstn_NoDup. exact Hs.
  - apply handleTaskActivity_distinct, H.
Qed.

(** X12: an event that arrives twice counts once: merging it into the
    feed a second time changes nothing. *)
Theorem merge_idempotent detail prev :
  handleTaskActivity detail (handleTaskActivity detail prev)
  = handleTaskActivity detail prev.
Proof.
  rewrite !handleTaskActivity_unfold.
  set (others := List.filter _ prev).
  assert (Hself : strict_eqb (id (convertedActivity detail)) (detail_id detail) = true).
  { apply strict_eqb_eq. reflexivity. }
  simpl List.filter. simpl in Hself. rewrite Hself. simpl negb. cbv iota.
  rewrite filter_keeps_all.
  - rewrite firstn_firstn. reflexivity.
  - intros x Hx. apply firstn_In in Hx. apply filter_In in Hx as [_ Hx]. exact Hx.
Qed.

(** X13: an event whose identifier is not in the feed goes to the front
    and the entries move down in their order; with fewer than 10 entries
    none is lost, with 10 the last one is dropped. *)
Theorem merge_of_new_identifier detail prev :
  ~ In (detail_id detail) (ids prev) ->
  handleTaskActivity detail prev = convertedActivity detail :: firstn 9 prev
  /\ ((length prev < 10)%nat ->
        handleTaskActivity detail prev = convertedActivity detail :: prev)
  /\ (length prev = 10%nat ->
        handleTaskActivity detail prev = convertedActivity detail :: removelast prev).
Proof.
  intros Hnew. rewrite handleTaskActivity_unfold.
  rewrite filter_keeps_all.
  - split; [reflexivity|]. split; intros Hlen.
    + rewrite firstn_all2 by lia. reflexivity.
    + rewrite removelast_firstn_len, Hlen. reflexivity.
  - intros x Hx. apply negb_true_iff.
    destruct (strict_eqb (id x) (detail_id detail)) eqn:E; [|reflexivity].
    apply strict_eqb_eq in E. exfalso. apply Hnew. rewrite <- E.
    unfold ids. apply in_map, Hx.
Qed.

(** X14: a fetch ends with [loading] off, and a fetch that ends with an
    error (no token, a failure reported by the client, a rejected
    request) leaves the entries of the feed as they were. *)
Theorem failed_fetch_keeps_feed c token st :
  loading (fetchActivities c token st) = false
  /\ (error (fetchActivities c token st) <> None ->
        activities (fetchActivities c token st) = activities st)
  /\ (truthy_opt token = false ->
        error (fetchActivities c token st) = Some "Authentication token not available").
Proof.
  destruct (fetchActivities_cases c token st) as [Hload Hcases].
  split; [exact Hload|]. split.
  - intros Herr. destruct Hcases as [[_ H]|[H _]]; [exact H | congruence].
  - intros Htok. unfold fetchActivities. rewrite Htok. reflexivity.
Qed.

End FeedLife.

(** ** More on the relative-time formatter *)

Section TimeMore.
Import TimeUtils.
Variable rt : Runtime.
Variable now : Z.

(** X15: a timestamp that does not parse is shown as "Invalid Date",
    as long as the host does not print today's or yesterday's date with
    these very words. *)
Theorem formatTimeAgo_invalid s :
  truthy_string s = true ->
  Date_parse rt s = None ->
  toDateString rt now <> "Invalid Date" ->
  toDateString rt (previousDay rt now) <> "Invalid Date" ->
  formatTimeAgo rt now (Some s) = "Invalid Date".
Proof.
  intros Hs Hparse Htoday Hyesterday.
  unfold formatTimeAgo, truthy_opt. rewrite Hs. simpl default. rewrite Hparse.
  cbv beta iota zeta delta [negb num_sub num_floor_div num_ltb date_text].
  destruct (String.eqb_spec "Invalid Date" (toDateString rt now)) as [E|_];
    [congruence|].
  destruct (String.eqb_spec "Invalid Date" (toDateString rt (previousDay rt now))) as [E|_];
    [congruence|].
  reflexivity.
Qed.

Lemma formatTimeAgo_within_day s t :
  truthy_string s = true ->
  Date_parse rt s = Some t ->
  (60000 <= now - t < 3600000 ->
     formatTimeAgo rt now (Some s) = ago ((now - t) / 60000) "minute")
  /\ (3600000 <= now - t < 86400000 ->
        formatTimeAgo rt now (Some s) = ago ((now - t) / 3600000) "hour").
Proof.
  intros Hs Ht.
  unfold formatTimeAgo, truthy_opt. rewrite Hs. simpl default. rewrite Ht.
  unfold num_sub, num_floor_div, num_ltb, negb.
  rewrite !seconds_of_delta by lia.
  change (1000 * 60) with 60000. change (1000 * 3600) with 3600000.
  change (1000 * 86400) with 86400000.
  split; intros Hd.
  - destruct (Z.ltb_spec (now - t) 60000); [lia|].
    destruct (Z.ltb_spec (now - t) 3600000); [|lia].
    rewrite Z.div_div by lia. change (1000 * 60) with 60000.
    unfold ago, num_text, num_is_not_one.
    destruct ((now - t) / 60000 =? 1); reflexivity.
  - destruct (Z.ltb_spec (now - t) 60000); [lia|].
    destruct (Z.ltb_spec (now - t) 3600000); [lia|].
    destruct (Z.ltb_spec (now - t) 86400000); [|lia].
    rewrite Z.div_div by lia. change (1000 * 3600) with 3600000.
    unfold ago, num_text, num_is_not_one.
    destruct ((now - t) / 3600000 =? 1); reflexivity.
Qed.

(** X16: for a timestamp between one minute and one day before now the
    text counts whole minutes from 1 to 59 or whole hours from 1 to 23: it
    never reads "0 minutes", "60 minutes" or "24 hours". *)
Theorem formatTimeAgo_counts s t :
  truthy_string s = true ->
  Date_parse rt s = Some t ->
  60000 <= now - t < 86400000 ->
  exists n,
    (formatTimeAgo rt now (Some s) = ago n "minute" /\ 1 <= n <= 59)
    \/ (formatTimeAgo rt now (Some s) = ago n "hour" /\ 1 <= n <= 23).
Proof.
  intros Hs Ht Hd.
  destruct (formatTimeAgo_within_day s t Hs Ht) as (Hminutes & Hhours).
  destruct (Z.lt_ge_cases (now - t) 3600000) as [Hlt|Hge].
  - exists ((now - t) / 60000). left. split; [apply Hminutes; lia|].
    split.
    + apply Z.div_le_lower_bound; lia.
    + apply Z.lt_succ_r. apply Z.div_lt_upper_bound; lia.
  - exists ((now - t) / 3600000). right. split; [apply Hhours; lia|].
    split.
    + apply Z.div_le_lower_bound; lia.
    + apply Z.lt_succ_r. apply Z.div_lt_upper_bound; lia.
Qed.

End TimeMore.

(** ** More on the task API *)

Section TasksApiMore.
Import ApiClient TasksApi.
Variable c : Client.

(** No operation hides a rejected request: when the client rejects
    the request of an operation, the operation is rejected for the same
    reason. *)
Theorem tasksApi_passes_rejections_on token taskId createData updateData reason :
  (get c "/tasks" (bearer token) = Rejected reason ->
     getAllTasks c token = Rejected reason)
  /\ (post c "/tasks" (BCreate createData) (bearer token) = Rejected reason ->
        createTask c createData token = Rejected reason)
  /\ (put c ("/tasks/" ++ decimal taskId)%string (BUpdate updateData) (bearer token)
      = Rejected reason ->
        updateTask c taskId updateData token = Rejected reason)
  /\ (delete c ("/tasks/" ++ decimal taskId)%string (bearer token) = Rejected reason ->
        deleteTask c taskId token = Rejected reason)
  /\ (get c ("/tasks/" ++ decimal taskId)%string (bearer token) = Rejected reason ->
        getTaskById c taskId token = Rejected reason).
Proof.
  unfold getAllTasks, createTask, updateTask, deleteTask, getTaskById.
  repeat apply conj; intros H; rewrite H; reflexivity.
Qed.

(** X17: an answer that reports success but carries no data is passed on
    as a success by [getAllTasks] (without [tasks]) and by [deleteTask],
    and turned into a failure, with the client's error if any, by
    [createTask], [updateTask] and [getTaskById]. *)
Theorem success_without_data token taskId createData updateData response :
  success response = true ->
  data response = None ->
  (get c "/tasks" (bearer token) = Fulfilled response ->
     getAllTasks c token
     = Fulfilled {| r_success := true; r_tasks := None; r_task := None; r_error := None |})
  /\ (delete c ("/tasks/" ++ decimal taskId)%string (bearer token) = Fulfilled response ->
        deleteTask c taskId token
        = Fulfilled {| r_success := true; r_tasks := None; r_task := None; r_error := None |})
  /\ (post c "/tasks" (BCreate createData) (bearer token) = Fulfilled response ->
        createTask c createData token
        = Fulfilled {| r_success := false; r_tasks := None; r_task := None;
                       r_error := error response |})
  /\ (put c ("/tasks/" ++ decimal taskId)%string (BUpdate updateData) (bearer token)
      = Fulfilled response ->
        updateTask c taskId updateData token
        = Fulfilled {| r_success := false; r_tasks := None; r_task := None;
                       r_error := error response |})
  /\ (get c ("/tasks/" ++ decimal taskId)%string (bearer token) = Fulfilled response ->
        getTaskById c taskId token
        = Fulfilled {| r_success := false; r_tasks := None; r_task := None;
                       r_error := error response |}).
Proof.
  intros Hs Hd.
  unfold getAllTasks, createTask, updateTask, deleteTask, getTaskById.
  repeat apply conj; intros H; rewrite H; simpl; rewrite Hs, ?Hd; reflexivity.
Qed.

End TasksApiMore.

(** ** More on the new-task form *)

Section NewTaskMore.
Import ApiClient NewTaskPage.

Lemma append_assoc (s t u : string) : ((s ++ t) ++ u = s ++ (t ++ u))%string.
Proof.
  induction s as [|ch s IH]; [reflexivity|].
  change (String ch ((s ++ t) ++ u) = String ch (s ++ (t ++ u)))%string.
  f_equal. exact IH.
Qed.

(** What [firstUnit] splits off is the start of the text. *)
Lemma firstUnit_append s first rest :
  firstUnit s = Some (first, rest) -> s = (first ++ rest)%string.
Proof.
  unfold firstUnit. destruct s as [|c1 r1]; [discriminate|].
  destruct (nat_of_ascii c1 <? 192)%nat; [intros [= <- <-]; reflexivity|].
  destruct (nat_of_ascii c1 <? 224)%nat.
  { destruct r1 as [|c2 r2]; intros [= <- <-]; reflexivity. }
  destruct (nat_of_ascii c1 <? 240)%nat; [|discriminate].
  destruct r1 as [|c2 [|c3 r3]]; intros [= <- <-]; reflexivity.
Qed.

(** X18: with a title that is not blank the form is sent right after the
    default of the event is prevented, and it is sent once, whatever the
    client answers.  What is sent is the form as typed but for the
    title: when the title starts with a character of the Basic
    Multilingual Plane, that character is replaced by its upper case and
    what follows it is sent as typed, so that the title is not trimmed;
    otherwise the title is sent as typed.  The form data of the page are
    not changed. *)
Theorem submitted_title_capitalized rt c host token st :
  blank (c_title (formData st)) = false ->
  let typed := c_title (formData st) in
  let sent := with_title (formData st) (capitalized rt typed) in
  (exists rest,
      snd (handleSubmit rt c host token st)
      = preventDefault :: callCreateTask sent token :: rest
      /\ forall d t, ~ In (callCreateTask d t) rest)
  /\ (forall first rest,
        firstUnit typed = Some (first, rest) ->
        typed = (first ++ rest)%string
        /\ c_title sent = (toUpperCase rt first ++ rest)%string)
  /\ (firstUnit typed = None -> c_title sent = typed)
  /\ (c_description sent, c_priority sent, c_due_date sent, c_recurring sent,
      c_category sent)
     = (c_description (formData st), c_priority (formData st),
        c_due_date (formData st), c_recurring (formData st),
        c_category (formData st))
  /\ formData (fst (handleSubmit rt c host token st)) = formData st.
Proof.
  intros Hblank typed sent.
  split; [|split; [|split; [|split]]].
  - unfold handleSubmit.
    destruct (trim (c_title (formData st))) eqn:Ht;
      [apply trim_empty_blank in Ht; congruence|].
    simpl negb. cbv iota. fold typed. fold sent. cbv zeta.
    destruct (TasksApi.createTask c sent token) as [result|reason].
    + destruct (TasksApi.r_success result), (TasksApi.r_task result);
        eexists; (split; [reflexivity|]); intros d t; simpl;
        intuition discriminate.
    + eexists; split; [reflexivity|]. intros d t; simpl; intuition discriminate.
  - intros first rest H. split; [apply firstUnit_append, H|].
    unfold sent, capitalized. simpl. rewrite H. reflexivity.
  - intros H. unfold sent, capitalized. simpl. rewrite H. reflexivity.
  - reflexivity.
  - unfold handleSubmit.
    destruct (trim (c_title (formData st))); simpl negb; cbv iota; [reflexivity|].
    destruct (TasksApi.createTask c _ token) as [result|reason]; [|reflexivity].
    destruct (TasksApi.r_success result), (TasksApi.r_task result); reflexivity.
Qed.

(** X19: with a title that is not blank, when the client reports a
    failure, the page shows the client's error, or 'Failed to create
    task' without one, and when the request is rejected it shows 'An
    error occurred while creating the task'; in both cases [loading] is
    off again, no event is dispatched and the page does not navigate. *)
Theorem failed_submit_stays_on_page rt c host token st :
  blank (c_title (formData st)) = false ->
  let sent := with_title (formData st) (capitalized rt (c_title (formData st))) in
  (forall response,
      post c "/tasks" (BCreate sent) (TasksApi.bearer token) = Fulfilled response ->
      success response = false ->
      handleSubmit rt c host token st
      = ({| formData := formData st; loading := false;
            error := if truthy_opt (ApiClient.error response)
                     then default EmptyString (ApiClient.error response)
                     else "Failed to create task" |},
         [preventDefault; callCreateTask sent token]))
  /\ (forall reason,
        post c "/tasks" (BCreate sent) (TasksApi.bearer token) = Rejected reason ->
        handleSubmit rt c host token st
        = ({| formData := formData st; loading := false;
              error := "An error occurred while creating the task" |},
           [preventDefault; callCreateTask sent token;
            consoleError "Error creating task:"])).
Proof.
  intros Hblank sent.
  assert (Htrim : truthy_string (trim (c_title (formData st))) = true).
  { destruct (trim (c_title (formData st))) eqn:Ht; [|reflexivity].
    apply trim_empty_blank in Ht. congruence. }
  split.
  - intros response Hpost Hfail.
    unfold handleSubmit. rewrite Htrim. simpl negb. cbv iota.
    unfold sent in *.
    unfold TasksApi.createTask. rewrite Hpost. simpl. rewrite Hfail.
    reflexivity.
  - intros reason Hpost.
    unfold handleSubmit. rewrite Htrim. simpl negb. cbv iota.
    unfold sent in *.
    unfold TasksApi.createTask. rewrite Hpost. reflexivity.
Qed.

(** X20: with a title that is not blank, when the client answers with
    the created task, the page dispatches 'task-updated', then
    'task-activity', then navigates to '/tasks'; merged into any feed,
    the event becomes the first entry,
    its line reads "Task '<title>' was created" with the title of the
    created task, and its time is the task's creation time, or the
    current time when the task has none. *)
Theorem created_task_reaches_feed rt c host token st response newTask prev :
  blank (c_title (formData st)) = false ->
  let sent := with_title (formData st) (capitalized rt (c_title (formData st))) in
  post c "/tasks" (BCreate sent) (TasksApi.bearer token) = Fulfilled response ->
  success response = true ->
  data response = Some (PTask newTask) ->
  exists activity entry rest,
    snd (handleSubmit rt c host token st)
    = [preventDefault; callCreateTask sent token;
       dispatchEvent "task-updated" None;
       dispatchEvent "task-activity" (Some activity);
       routerPush "/tasks"]
    /\ RecentActivity.handleTaskActivity activity prev = entry :: rest
    /\ Feed.getActivityMessage entry
       = ("Task '" ++ title newTask ++ "' was created")%string
    /\ Activity.created_at entry
       = (if truthy_string (created_at newTask) then created_at newTask
          else nowISOString host).
Proof.
  intros Hblank sent Hpost Hok Hdata.
  assert (Htrim : truthy_string (trim (c_title (formData st))) = true).
  { destruct (trim (c_title (formData st))) eqn:Ht; [|reflexivity].
    apply trim_empty_blank in Ht. congruence. }
  exists (createdActivity host (PTask newTask)).
  eexists. eexists.
  split; [|split; [apply handleTaskActivity_unfold|split]].
  - unfold handleSubmit. rewrite Htrim. simpl negb. cbv iota.
    unfold sent in *.
    unfold TasksApi.createTask. rewrite Hpost. simpl.
    rewrite Hok, Hdata. reflexivity.
  - unfold Feed.getActivityMessage, Feed.squoted.
    change (Activity.action _) with "task_created".
    change (Activity.task_title _) with (Some (title newTask)).
    cbv beta iota zeta delta [String.eqb Ascii.eqb Bool.eqb default from_option].
    rewrite !append_assoc. reflexivity.
  - simpl. destruct (created_at newTask); reflexivity.
Qed.

End NewTaskMore.

(** ** The dashboard *)

Section DashboardFacts.
Import ApiClient Dashboard.

Lemma filter_length_split {A : Type} (p : A -> bool) (l : list A) :
  (length (List.filter p l) + length (List.filter (fun x => negb (p x)) l))%nat = length l.
Proof.
  rewrite <- length_app. apply Permutation_length, filter_split_perm.
Qed.

(** X21: from an answer with the list of tasks the dashboard shows their
    number as total, the number of completed tasks as completed and the
    number of the others as pending, so that total = completed + pending;
    the pending number is the number of active tasks that the tasks page
    announces for this list, and the length of the list it displays for
    'active' without a search term. *)
Theorem dashboard_counts rt now key order c token stats tasks :
  truthy_opt token = true ->
  TasksApi.getAllTasks c (default EmptyString token)
  = Fulfilled {| TasksApi.r_success := true; TasksApi.r_tasks := Some (PTasks tasks);
                 TasksApi.r_task := None; TasksApi.r_error := None |} ->
  let shown := fst (fetchTaskStats c true token stats) in
  total shown = Z.of_nat (length tasks)
  /\ completed_count shown = Z.of_nat (length (List.filter completed tasks))
  /\ total shown = completed_count shown + pending shown
  /\ pending shown
     = Z.of_nat (length
                   (TasksPage.applyFiltersAndSorting rt now
                      {| TasksPage.searchTerm := EmptyString;
                         TasksPage.filter := TasksPage.active;
                         TasksPage.sortBy := key;
                         TasksPage.sortOrder := order |}
                      tasks))
  /\ forall st, TasksPageHandlers.tasks st = tasks ->
       pending shown = Z.of_nat (TasksPageHandlers.activeCount st).
Proof.
  intros Htok Hget shown. unfold shown, fetchTaskStats.
  rewrite Htok, Hget. simpl.
  pose proof (filter_length_split (fun task => completed task) tasks) as Hsplit.
  cbv beta in Hsplit.
  assert (Hactive : length (TasksPage.applyFiltersAndSorting rt now
                      {| TasksPage.searchTerm := EmptyString;
                         TasksPage.filter := TasksPage.active;
                         TasksPage.sortBy := key;
                         TasksPage.sortOrder := order |} tasks)
                    = length (List.filter (fun x => negb (completed x)) tasks)).
  { unfold TasksPage.applyFiltersAndSorting. simpl. rewrite sort_length. reflexivity. }
  split; [reflexivity|]. split; [reflexivity|]. split; [lia|]. split.
  - rewrite Hactive. lia.
  - intros st Hst. unfold TasksPageHandlers.activeCount. rewrite Hst. lia.
Qed.

(** X22: the dashboard shows zeros whenever the tasks could not be read:
    when the client reports a failure, when the request is rejected, and
    when the answer carries no list.  Without a session it asks nothing
    and leaves the numbers as they are. *)
Theorem dashboard_failures_show_zero c isAuthenticated token stats :
  (isAuthenticated = false \/ truthy_opt token = false ->
     fetchTaskStats c isAuthenticated token stats = (stats, []))
  /\ (isAuthenticated = true -> truthy_opt token = true ->
        (forall result,
            TasksApi.getAllTasks c (default EmptyString token) = Fulfilled result ->
            TasksApi.r_success result = false \/ TasksApi.r_tasks result = None ->
            fetchTaskStats c isAuthenticated token stats
            = (noStats, [callGetAllTasks (default EmptyString token)]))
        /\ (forall reason,
              TasksApi.getAllTasks c (default EmptyString token) = Rejected reason ->
              fetchTaskStats c isAuthenticated token stats
              = (noStats, [callGetAllTasks (default EmptyString token);
                           consoleError "Error fetching tasks:"]))).
Proof.
  unfold fetchTaskStats. split.
  - intros [H | H]; rewrite H; [reflexivity|]. rewrite orb_true_r. reflexivity.
  - intros Hauth Htok. rewrite Hauth, Htok. simpl. split.
    + intros result Hget [H | H]; rewrite Hget, H.
      * reflexivity.
      * destruct (TasksApi.r_success result); reflexivity.
    + intros reason Hget. rewrite Hget. reflexivity.
Qed.

End DashboardFacts.

(** ** The handlers of the tasks page *)

Section HandlerFacts.
Import ApiClient TasksPageHandlers.

(** X23: when the API answers a toggle with the updated task, the list
    keeps its length and every task its place; the tasks with the
    identifier of the toggled task are replaced by the task of the answer
    and the others are left as they are.  The page dispatches
    'task-updated' and then an activity of type 'task_completed' when the
    task was not completed, 'task_uncompleted' when it was. *)
Theorem toggle_replaces_in_place c host token task result updatedTask :
  truthy_opt token = true ->
  TasksApi.updateTask c (id task) (completedOnly (negb (completed task)))
    (default EmptyString token) = Fulfilled result ->
  TasksApi.r_success result = true ->
  TasksApi.r_task result = Some (PTask updatedTask) ->
  exists outcome activity,
    handleToggleComplete c host token task = Some outcome
    /\ (forall st,
          length (tasks (update outcome st)) = length (tasks st)
          /\ (forall i t, nth_error (tasks st) i = Some t ->
                nth_error (tasks (update outcome st)) i
                = Some (if id t =? id task then updatedTask else t))
          /\ loading (update outcome st) = loading st
          /\ editingTask (update outcome st) = editingTask st)
    /\ effects outcome
       = [callUpdateTask (id task) (completedOnly (negb (completed task)))
            (default EmptyString token);
          dispatchEvent "task-updated" None;
          dispatchEvent "task-activity" (Some activity)]
    /\ Activity.type activity
       = (if completed task then "task_uncompleted" else "task_completed")
    /\ Activity.taskTitle activity = Some (title updatedTask).
Proof.
  intros Htok Hcall Hok Htask.
  unfold handleToggleComplete. rewrite Htok. simpl negb. cbv iota.
  rewrite Hcall, Hok, Htask.
  eexists. eexists. split; [reflexivity|]. split; [|split; [reflexivity|split]].
  - intros st. simpl. split; [apply length_map|]. split; [|split; reflexivity].
    intros i t Hi. rewrite nth_error_map, Hi. reflexivity.
  - simpl. destruct (completed task); reflexivity.
  - reflexivity.
Qed.

(** X24: a failure reported by the API is silent for a toggle and for a
    delete: the state is not changed, nothing is dispatched and the user
    is not alerted; only a rejected request alerts.  Without a token
    neither handler does anything. *)
Theorem failed_toggle_and_delete_are_silent c host token task rendered taskId :
  (truthy_opt token = false ->
     handleToggleComplete c host token task
     = Some {| update := fun st => st; effects := [] |}
     /\ handleDeleteTask c host token rendered taskId
        = {| update := fun st => st; effects := [] |})
  /\ (truthy_opt token = true ->
        (forall result,
            TasksApi.updateTask c (id task) (completedOnly (negb (completed task)))
              (default EmptyString token) = Fulfilled result ->
            TasksApi.r_success result = false ->
            handleToggleComplete c host token task
            = Some {| update := fun st => st;
                      effects := [callUpdateTask (id task)
                                    (completedOnly (negb (completed task)))
                                    (default EmptyString token)] |})
        /\ (forall result,
              TasksApi.deleteTask c taskId (default EmptyString token) = Fulfilled result ->
              TasksApi.r_success result = false ->
              handleDeleteTask c host token rendered taskId
              = {| update := fun st => st;
                   effects := [callDeleteTask taskId (default EmptyString token)] |})
        /\ (forall reason,
              TasksApi.updateTask c (id task) (completedOnly (negb (completed task)))
                (default EmptyString token) = Rejected reason ->
              handleToggleComplete c host token task
              = Some {| update := fun st => st;
                        effects := [callUpdateTask (id task)
                                      (completedOnly (negb (completed task)))
                                      (default EmptyString token);
                                    alert "Failed to update task."] |})
        /\ (forall reason,
              TasksApi.deleteTask c taskId (default EmptyString token) = Rejected reason ->
              handleDeleteTask c host token rendered taskId
              = {| update := fun st => st;
                   effects := [callDeleteTask taskId (default EmptyString token);
                               alert "Could not delete task."] |})).
Proof.
  unfold handleToggleComplete, handleDeleteTask. split.
  - intros Htok. rewrite Htok. split; reflexivity.
  - intros Htok. rewrite Htok. simpl negb. cbv iota.
    split; [|split; [|split]].
    + intros result Hcall Hfail. rewrite Hcall, Hfail. reflexivity.
    + intros result Hcall Hfail. rewrite Hcall, Hfail. reflexivity.
    + intros reason Hcall. rewrite Hcall. reflexivity.
    + intros reason Hcall. rewrite Hcall. reflexivity.
Qed.

Lemma find_task_spec taskId l :
  match findTask taskId l with
  | Some t => In t l /\ id t = taskId
  | None => forall t, In t l -> id t <> taskId
  end.
Proof.
  unfold findTask. destruct (List.find _ l) as [t|] eqn:Hfind.
  - apply find_some in Hfind as [Hin Hid]. apply Z.eqb_eq in Hid. auto.
  - intros t Hin Hid. apply (find_none _ _ Hfind) in Hin.
    apply Z.eqb_neq in Hin. contradiction.
Qed.

(** X25: when the API confirms a delete, the list loses the tasks with
    that identifier and nothing else: the others keep their order, no
    task with the identifier is left, and applying the update again
    changes nothing.  An activity of type 'task_deleted' is dispatched
    exactly when the list the handler was created with holds a task with
    that identifier. *)
Theorem confirmed_delete_removes_task c host token rendered taskId result :
  truthy_opt token = true ->
  TasksApi.deleteTask c taskId (default EmptyString token) = Fulfilled result ->
  TasksApi.r_success result = true ->
  let outcome := handleDeleteTask c host token rendered taskId in
  (forall st,
      tasks (update outcome st)
      = List.filter (fun t => negb (id t =? taskId)) (tasks st)
      /\ (forall t, In t (tasks (update outcome st)) <-> In t (tasks st) /\ id t <> taskId)
      /\ update outcome (update outcome st) = update outcome st)
  /\ ((exists activity,
          In (dispatchEvent "task-activity" (Some activity)) (effects outcome)
          /\ Activity.type activity = "task_deleted")
      <-> exists t, In t (tasks rendered) /\ id t = taskId).
Proof.
  intros Htok Hcall Hok outcome. unfold outcome, handleDeleteTask.
  rewrite Htok. simpl negb. cbv iota. rewrite Hcall, Hok.
  split.
  - intros st. simpl. split; [reflexivity|]. split.
    + intros t. rewrite filter_In, negb_true_iff, Z.eqb_neq. reflexivity.
    + unfold setTasks. simpl. f_equal.
      apply filter_keeps_all. intros t Ht. apply filter_In in Ht as [_ Ht]. exact Ht.
  - simpl. pose proof (find_task_spec taskId (tasks rendered)) as Hfind.
    destruct (findTask taskId (tasks rendered)) as [deleted|].
    + split.
      * intros _. exists deleted. exact Hfind.
      * intros _. eexists. split; [right; right; left; reflexivity | reflexivity].
    + split.
      * intros (activity & [H|[H|[]]] & _); discriminate.
      * intros (t & Hin & Hid). exfalso. exact (Hfind t Hin Hid).
Qed.

(** X26: without a session [loadTasks] sends the user to '/login' and
    does not touch the state, [loading] included; with a session it asks
    for the tasks and ends with [loading] off, and the tasks are replaced
    only by a successful answer: by its list, or by the empty list when
    it carries none. *)
Theorem loadTasks_outcomes c isAuthenticated token :
  (isAuthenticated = false \/ truthy_opt token = false ->
     loadTasks c isAuthenticated token
     = Some {| update := fun st => st; effects := [routerPush "/login"] |})
  /\ (isAuthenticated = true -> truthy_opt token = true ->
        forall outcome st,
          loadTasks c isAuthenticated token = Some outcome ->
          loading (update outcome st) = false
          /\ In (callGetAllTasks (default EmptyString token)) (effects outcome)
          /\ match TasksApi.getAllTasks c (default EmptyString token) with
             | Fulfilled result =>
                 if TasksApi.r_success result
                 then match TasksApi.r_tasks result with
                      | Some (PTasks loaded) => tasks (update outcome st) = loaded
                      | _ => tasks (update outcome st) = []
                      end
                 else tasks (update outcome st) = tasks st
             | Rejected _ => tasks (update outcome st) = tasks st
             end).
Proof.
  unfold loadTasks. split.
  - intros [H | H]; rewrite H; [reflexivity|]. rewrite orb_true_r. reflexivity.
  - intros Hauth Htok outcome st. rewrite Hauth, Htok. simpl negb. simpl orb. cbv iota.
    destruct (TasksApi.getAllTasks c (default EmptyString token)) as [result|reason].
    + destruct (TasksApi.r_success result).
      * destruct (TasksApi.r_tasks result) as [[t|loaded|acts]|];
          intros H; try discriminate; injection H as <-; simpl; auto.
      * intros H. injection H as <-. simpl. auto.
    + intros H. injection H as <-. simpl. auto.
Qed.

Ltac pick_call Hshape :=
  let Hin := fresh "Hin" in
  intros Hin; simpl in Hin;
  repeat (destruct Hin as [Hin|Hin];
          [first [discriminate Hin
                 | injection Hin as <- <- <-; split; [reflexivity | exact Hshape]] |]);
  contradiction.

(** X27: saving an edit without a token or without a task being edited
    does nothing.  With a due date in the form that does not parse, no
    request is made: the user is told that the save failed and the state
    is left as it is.  With an empty due date the request carries no due
    date, and in every request the title is the title of the form with
    its first character in upper case. *)
Theorem save_edit_requests rt c host token rendered :
  (truthy_opt token = false \/ editingTask rendered = None ->
     handleSaveEdit rt c host token rendered
     = Some {| update := fun st => st; effects := [] |})
  /\ (forall editing,
        truthy_opt token = true -> editingTask rendered = Some editing ->
        (formattedData rt (editFormData rendered) = None ->
           handleSaveEdit rt c host token rendered
           = Some {| update := fun st => st;
                     effects :=
                       [consoleError "Error updating task:";
                        alert "Save failed. Please check your connection and try again."] |})
        /\ (forall outcome taskId taskData tok,
              handleSaveEdit rt c host token rendered = Some outcome ->
              In (callUpdateTask taskId taskData tok) (effects outcome) ->
              taskId = id editing
              /\ u_title taskData = Some (capitalized rt (c_title (editFormData rendered)))
              /\ u_completed taskData = None
              /\ (truthy_opt (c_due_date (editFormData rendered)) = false ->
                    u_due_date taskData = None)))
  /\ (formattedData rt (editFormData rendered) = None <->
        truthy_opt (c_due_date (editFormData rendered)) = true
        /\ Date_parse rt (default EmptyString (c_due_date (editFormData rendered))
                            ++ "T00:00:00")%string = None).
Proof.
  split; [|split].
  - unfold handleSaveEdit. intros [H | H]; rewrite H; [reflexivity|].
    destruct (truthy_opt token); reflexivity.
  - intros editing Htok Hediting. unfold handleSaveEdit. rewrite Htok, Hediting.
    split.
    + intros Hdata. rewrite Hdata. reflexivity.
    + intros outcome taskId taskData tok.
      destruct (formattedData rt (editFormData rendered)) as [data|] eqn:Hdata.
      * assert (Hshape : u_title data = Some (capitalized rt (c_title (editFormData rendered)))
                         /\ u_completed data = None
                         /\ (truthy_opt (c_due_date (editFormData rendered)) = false ->
                               u_due_date data = None)).
        { unfold formattedData in Hdata.
          destruct (truthy_opt (c_due_date (editFormData rendered))).
          - destruct (Date_parse rt _); [|discriminate].
            injection Hdata as <-. simpl. repeat split. discriminate.
          - injection Hdata as <-. simpl. auto. }
        destruct (TasksApi.updateTask c (id editing) data (default EmptyString token))
          as [result|reason].
        -- destruct (TasksApi.r_success result);
             [destruct (TasksApi.r_task result) as [[t|ts|acts]|]|];
             intros H; try discriminate; injection H as <-; pick_call Hshape.
        -- intros H. injection H as <-. pick_call Hshape.
      * intros H. injection H as <-. simpl. intros [E|[E|[]]]; discriminate.
  - unfold formattedData.
    destruct (truthy_opt (c_due_date (editFormData rendered))).
    + destruct (Date_parse rt _); split; try discriminate; auto.
      intros [_ H]. discriminate.
    + split; [discriminate | intros [H _]; discriminate].
Qed.

(** X28: when the API answers a save with the updated task, the editor
    is closed and the tasks with the identifier of the edited task are
    replaced by the task of the answer, in place, whose due date is
    absent whenever the answer gave none or an empty one.  When the API
    reports a failure the editor stays open on the task, the list is not
    changed, and the user is shown the API's error or, without one, a
    fixed text. *)
Theorem save_edit_closes_on_success rt c host token rendered editing data result :
  truthy_opt token = true ->
  editingTask rendered = Some editing ->
  formattedData rt (editFormData rendered) = Some data ->
  TasksApi.updateTask c (id editing) data (default EmptyString token) = Fulfilled result ->
  (forall updatedTask,
      TasksApi.r_success result = true ->
      TasksApi.r_task result = Some (PTask updatedTask) ->
      exists outcome,
        handleSaveEdit rt c host token rendered = Some outcome
        /\ forall st,
             editingTask (update outcome st) = None
             /\ (forall i t, nth_error (tasks st) i = Some t ->
                   nth_error (tasks (update outcome st)) i
                   = Some (if id t =? id editing
                           then withDueDateOrUndefined updatedTask else t))
             /\ due_date (withDueDateOrUndefined updatedTask) <> Some EmptyString)
  /\ (TasksApi.r_success result = false ->
        handleSaveEdit rt c host token rendered
        = Some {| update := fun st => st;
                  effects :=
                    [callUpdateTask (id editing) data (default EmptyString token);
                     alert (if truthy_opt (TasksApi.r_error result)
                            then default EmptyString (TasksApi.r_error result)
                            else "Failed to update task. Please try again.")] |}).
Proof.
  intros Htok Hediting Hdata Hcall.
  unfold handleSaveEdit. rewrite Htok, Hediting, Hdata, Hcall. split.
  - intros updatedTask Hok Htask. rewrite Hok, Htask.
    eexists. split; [reflexivity|]. intros st. simpl.
    split; [reflexivity|]. split.
    + intros i t Hi. rewrite nth_error_map, Hi. reflexivity.
    + unfold truthy_opt. destruct (due_date updatedTask) as [[|ch s]|]; discriminate.
  - intros Hfail. rewrite Hfail. reflexivity.
Qed.

End HandlerFacts.

(** ** The due-date badge of a task item *)

Section BadgeFacts.
Import TaskItem.
Variable rt : Runtime.
Variable now : Z.

Lemma ceil_days diff :
  let days := - ((- diff) / msPerDay) in
  (- msPerDay < diff <= 0 -> days = 0)
  /\ (diff <= - msPerDay -> days <= -1 /\ Z.abs days = (- diff) / msPerDay)
  /\ (0 < diff -> 1 <= days).
Proof.
  intros days. unfold days, msPerDay. split; [|split]; intros H.
  - rewrite Z.div_small; lia.
  - assert (1 <= (- diff) / 86400000) by (apply Z.div_le_lower_bound; lia). lia.
  - assert ((- diff) / 86400000 < 0) by (apply Z.div_lt_upper_bound; lia). lia.
Qed.

Lemma daysUntilDue_value task s :
  due_date task = Some s -> s <> EmptyString ->
  truthy_opt (due_date task) = true
  /\ daysUntilDue rt now task
     = Some (match dueInstant rt s with
             | Some t => Some (- ((- (startOfDay rt t - startOfDay rt now)) / msPerDay))
             | None => None
             end).
Proof.
  intros Hdue Hs. unfold daysUntilDue, dueInstant. rewrite Hdue.
  destruct s as [|ch s]; [congruence|]. simpl truthy_opt. simpl truthy_string.
  split; [reflexivity|].
  destruct (includes (String ch s) "T");
    match goal with |- context [Date_parse rt ?x] => destruct (Date_parse rt x) end;
    reflexivity.
Qed.

Lemma dueBadge_of_days task s t :
  due_date task = Some s -> s <> EmptyString -> dueInstant rt s = Some t ->
  let days := - ((- (startOfDay rt t - startOfDay rt now)) / msPerDay) in
  dueBadge rt now task
  = Some (if days =? 0 then "bg-orange-100 text-orange-800"
          else if negb (days =? 0) && (days <? 0) then "bg-red-100 text-red-800"
               else "bg-blue-100 text-blue-800",
          if days =? 0 then "Due Today"
          else if negb (days =? 0) && (days <? 1)
               then ("Overdue " ++ decimal (Z.abs days) ++ " day")%string
               else ("In " ++ decimal days ++ " day")%string).
Proof.
  intros Hdue Hs Ht days.
  destruct (daysUntilDue_value task s Hdue Hs) as [Htruthy Hdays].
  unfold dueBadge. rewrite Htruthy, Hdays, Ht. reflexivity.
Qed.

(** X29: the badge of a task with a due date reads the days between the
    start of today and the start of the due day, rounded up: "Due Today"
    (orange) from less than a day before today up to today, "Overdue <n>
    day" (red) with the number of whole days for a day or more before
    today, "In <n> day" (blue) with at least 1 for a later day; the word
    "day" takes no plural, and a due date that does not parse reads "In
    NaN day" (blue). *)
Theorem due_badge_by_days task s :
  due_date task = Some s -> s <> EmptyString ->
  (forall t, dueInstant rt s = Some t ->
     let diff := startOfDay rt t - startOfDay rt now in
     (- msPerDay < diff <= 0 ->
        dueBadge rt now task = Some ("bg-orange-100 text-orange-800", "Due Today"))
     /\ (diff <= - msPerDay ->
           dueBadge rt now task
           = Some ("bg-red-100 text-red-800",
                   ("Overdue " ++ decimal ((- diff) / msPerDay) ++ " day")%string)
           /\ 1 <= (- diff) / msPerDay)
     /\ (0 < diff ->
           dueBadge rt now task
           = Some ("bg-blue-100 text-blue-800",
                   ("In " ++ decimal (- ((- diff) / msPerDay)) ++ " day")%string)
           /\ 1 <= - ((- diff) / msPerDay)))
  /\ (dueInstant rt s = None ->
        dueBadge rt now task = Some ("bg-blue-100 text-blue-800", "In NaN day")).
Proof.
  intros Hdue Hs. split.
  - intros t Ht. rewrite (dueBadge_of_days task s t Hdue Hs Ht).
    set (diff := startOfDay rt t - startOfDay rt now).
    destruct (ceil_days diff) as (Hzero & Hneg & Hpos).
    set (days := - ((- diff) / msPerDay)) in *.
    split; [|split]; intros H.
    + rewrite (Hzero H). reflexivity.
    + destruct (Hneg H) as [Hle Habs].
      destruct (Z.eqb_spec days 0); [lia|].
      destruct (Z.ltb_spec days 0); [|lia].
      destruct (Z.ltb_spec days 1); [|lia].
      simpl. rewrite Habs. split; [reflexivity | lia].
    + specialize (Hpos H).
      destruct (Z.eqb_spec days 0); [lia|].
      destruct (Z.ltb_spec days 0); [lia|].
      destruct (Z.ltb_spec days 1); [lia|].
      simpl. split; [reflexivity | exact Hpos].
  - intros Hnone.
    destruct (daysUntilDue_value task s Hdue Hs) as [Htruthy Hdays].
    unfold dueBadge. rewrite Htruthy, Hdays, Hnone. reflexivity.
Qed.

(** X30: for an incomplete task whose due date is written with a time
    (it holds a [T]), so that the badge and the status filter read the
    same instant: a red "Overdue" badge implies that the filter 'overdue'
    keeps the task, and a task that the filter 'overdue' keeps has the
    red badge unless its due day starts less than a day before today, in
    which case the badge reads "Due Today". *)
Theorem badge_and_overdue_filter task s t :
  due_date task = Some s -> s <> EmptyString ->
  includes s "T" = true ->
  Date_parse rt s = Some t ->
  completed task = false ->
  let diff := startOfDay rt t - startOfDay rt now in
  let kept := TasksPage.statusKeeps rt (TasksPage.getToday rt now) TasksPage.overdue task in
  (kept = true <-> diff < 0)
  /\ (option_map fst (dueBadge rt now task) = Some "bg-red-100 text-red-800"
      <-> diff <= - msPerDay)
  /\ (- msPerDay < diff < 0 ->
        kept = true /\ option_map snd (dueBadge rt now task) = Some "Due Today").
Proof.
  intros Hdue Hs HT Hparse Hdone diff kept.
  assert (Hinstant : dueInstant rt s = Some t).
  { unfold dueInstant. rewrite HT. exact Hparse. }
  rewrite (dueBadge_of_days task s t Hdue Hs Hinstant). fold diff.
  destruct (ceil_days diff) as (Hzero & Hneg & Hpos).
  set (days := - ((- diff) / msPerDay)) in *.
  assert (Hkept : kept = true <-> diff < 0).
  { unfold kept, TasksPage.statusKeeps, TasksPage.taskDate, TasksPage.getToday.
    rewrite Hdue, Hdone. destruct s as [|ch s]; [congruence|]. simpl truthy_string.
    cbv iota. rewrite Hparse. simpl. rewrite Z.ltb_lt. unfold diff. lia. }
  split; [exact Hkept|]. split; [split|].
  - intros Hred. simpl in Hred.
    destruct (Z.le_gt_cases diff (- msPerDay)) as [H|H]; [exact H|].
    exfalso. destruct (Z.le_gt_cases diff 0) as [H0|H0].
    + rewrite (Hzero (conj H H0)) in Hred. discriminate.
    + specialize (Hpos H0).
      destruct (Z.eqb_spec days 0); [lia|].
      destruct (Z.ltb_spec days 0); [lia|]. discriminate.
  - intros H. destruct (Hneg H) as [Hle _]. simpl.
    destruct (Z.eqb_spec days 0); [lia|].
    destruct (Z.ltb_spec days 0); [|lia]. reflexivity.
  - intros H. split; [apply Hkept; lia|].
    simpl. rewrite Hzero by lia. reflexivity.
Qed.

End BadgeFacts.

(** ** The further properties at sample inputs *)

Section MoreInstances.
Import TasksPage Sample MoreSamples.

(** X3 on 2024-03-10 for a task due on 2024-03-05. *)
Lemma overdue_and_upcoming_within_active_witness :
  In past_due
     (applyFiltersAndSorting ExampleHost.host march10
        (withFilter (view all by_due_date asc) active) [dated; past_due])
  /\ ~ In past_due
         (applyFiltersAndSorting ExampleHost.host march10
            (withFilter (view all by_due_date asc) upcoming) [dated; past_due]).
Proof.
  apply (proj1 (overdue_and_upcoming_within_active ExampleHost.host march10
                  (view all by_due_date asc) [dated; past_due] past_due)).
  vm_compute. left. reflexivity.
Defined.

(** X4 for the terms MILK and milk. *)
Lemma search_term_case_insensitive_witness :
  applyFiltersAndSorting ExampleHost.host march10
    {| searchTerm := "MILK"; filter := all; sortBy := by_title; sortOrder := asc |}
    [older; newer]
  = applyFiltersAndSorting ExampleHost.host march10
      {| searchTerm := "milk"; filter := all; sortBy := by_title; sortOrder := asc |}
      [older; newer].
Proof.
  apply search_term_case_insensitive. reflexivity.
Defined.

(** X5 for a low and a high task under 'desc'. *)
Lemma priority_order_of_display_witness :
  pOrder (priority older) <= pOrder (priority newer).
Proof.
  apply (priority_order_of_display ExampleHost.host march10 EmptyString all desc
           [newer; older] 0%nat 1%nat older newer).
  - reflexivity.
  - reflexivity.
  - lia.
Defined.

(** X6 for tasks created on 2024-01-01 and on 2024-02-01, under 'desc'. *)
Lemma created_at_order_of_output_witness : 1704099600000 <= 1706778000000.
Proof.
  apply (created_at_order_of_output ExampleHost.host march10 EmptyString all desc
           [newer; older] 0%nat 1%nat older newer 1704099600000 1706778000000).
  - repeat constructor; vm_compute; discriminate.
  - reflexivity.
  - reflexivity.
  - lia.
  - vm_compute. reflexivity.
  - vm_compute. reflexivity.
Defined.

(** X7 for tasks due on 2024-03-11 and on 2024-03-12, under 'asc'. *)
Lemma due_date_order_of_output_witness : 1710144000000 <= 1710201600000.
Proof.
  apply (due_date_order_of_output ExampleHost.host march10 EmptyString all asc
           [older; newer] 0%nat 1%nat newer older
           "2024-03-11T08:00:00" "2024-03-12" 1710144000000 1710201600000).
  - repeat constructor; simpl; intros _; vm_compute; discriminate.
  - reflexivity.
  - reflexivity.
  - lia.
  - reflexivity.
  - discriminate.
  - vm_compute. reflexivity.
  - reflexivity.
  - discriminate.
  - vm_compute. reflexivity.
Defined.

(** X9 for the removal of the task 6 under the key 'due_date'. *)
Lemma removal_commutes_with_display_witness :
  applyFiltersAndSorting ExampleHost.host march10 (view all by_due_date asc)
    (List.filter (fun t => negb (id t =? 6)) [older; newer; past_due])
  = List.filter (fun t => negb (id t =? 6))
      (applyFiltersAndSorting ExampleHost.host march10 (view all by_due_date asc)
         [older; newer; past_due]).
Proof.
  apply removal_commutes_with_display.
  - simpl. discriminate.
  - repeat constructor; simpl; intros _; vm_compute; discriminate.
Defined.

(** X11 for a fetch that brings two records, followed by an event. *)
Lemma feed_has_distinct_ids_witness :
  List.NoDup
    (ids (RecentActivity.activities
            (Feed.run [Feed.fetched (answering recent) (Some "token");
                       Feed.received local_detail]))).
Proof.
  apply feed_has_distinct_ids.
  constructor; [|constructor; [exact I | constructor]].
  intros headers response Hget. injection Hget as <-. simpl.
  repeat constructor; simpl; intuition discriminate.
Defined.

(** X13 for an event merged into a feed of two records. *)
Lemma merge_of_new_identifier_witness :
  RecentActivity.handleTaskActivity local_detail [server_item 7 "Dated"; server_item 8 "Past"]
  = RecentActivity.convertedActivity local_detail
      :: [server_item 7 "Dated"; server_item 8 "Past"].
Proof.
  destruct (merge_of_new_identifier local_detail
              [server_item 7 "Dated"; server_item 8 "Past"]) as (_ & Hshort & _).
  - simpl. intuition discriminate.
  - apply Hshort. simpl. lia.
Defined.

(** X14 for a client that reports a network error. *)
Lemma failed_fetch_keeps_feed_witness :
  RecentActivity.activities
    (RecentActivity.fetchActivities (answering failure) (Some "token")
       {| RecentActivity.activities := [server_item 7 "Dated"];
          RecentActivity.loading := true;
          RecentActivity.error := None |})
  = [server_item 7 "Dated"].
Proof.
  destruct (failed_fetch_keeps_feed (answering failure) (Some "token")
              {| RecentActivity.activities := [server_item 7 "Dated"];
                 RecentActivity.loading := true;
                 RecentActivity.error := None |}) as (_ & Hkeep & _).
  apply Hkeep. discriminate.
Defined.

(** X15 for the timestamp "soon". *)
Lemma formatTimeAgo_invalid_witness :
  TimeUtils.formatTimeAgo ExampleHost.host march10 (Some "soon") = "Invalid Date".
Proof.
  apply formatTimeAgo_invalid.
  - reflexivity.
  - reflexivity.
  - vm_compute. discriminate.
  - vm_compute. discriminate.
Defined.

(** X16 for a timestamp 90 seconds before now. *)
Lemma formatTimeAgo_counts_witness :
  exists n,
    (TimeUtils.formatTimeAgo ExampleHost.host march10 (Some "2024-03-10T11:58:30")
     = ago n "minute" /\ 1 <= n <= 59)
    \/ (TimeUtils.formatTimeAgo ExampleHost.host march10 (Some "2024-03-10T11:58:30")
        = ago n "hour" /\ 1 <= n <= 23).
Proof.
  apply (formatTimeAgo_counts ExampleHost.host march10 "2024-03-10T11:58:30" 1710071910000).
  - reflexivity.
  - vm_compute. reflexivity.
  - unfold march10. lia.
Defined.

(** X17 for [createTask] and an answer that reports success without data. *)
Lemma success_without_data_witness :
  TasksApi.createTask (answering (answer true None))
    (NewTaskPage.formData (form "Buy milk")) "token"
  = Fulfilled {| TasksApi.r_success := false; TasksApi.r_tasks := None;
                 TasksApi.r_task := None; TasksApi.r_error := None |}.
Proof.
  destruct (success_without_data (answering (answer true None)) "token" 1
              (NewTaskPage.formData (form "Buy milk")) no_update (answer true None)
              eq_refl eq_refl) as (_ & _ & Hcreate & _).
  apply Hcreate. reflexivity.
Defined.

(** X18 for the title "buy milk" followed by a space. *)
Lemma submitted_title_capitalized_witness :
  exists rest,
    snd (NewTaskPage.handleSubmit ExampleHost.host (answering failure) page_host "token"
           (form "buy milk "))
    = NewTaskPage.preventDefault
        :: NewTaskPage.callCreateTask (NewTaskPage.formData (form "Buy milk ")) "token"
        :: rest
    /\ forall d t, ~ In (NewTaskPage.callCreateTask d t) rest.
Proof.
  destruct (submitted_title_capitalized ExampleHost.host (answering failure) page_host
              "token" (form "buy milk ")) as (Hsent & _).
  - reflexivity.
  - exact Hsent.
Defined.

(** X19 for a client that reports a network error. *)
Lemma failed_submit_stays_on_page_witness :
  NewTaskPage.handleSubmit ExampleHost.host (answering failure) page_host "token"
    (form "buy milk")
  = ({| NewTaskPage.formData := NewTaskPage.formData (form "buy milk");
        NewTaskPage.loading := false;
        NewTaskPage.error := "Network error" |},
     [NewTaskPage.preventDefault;
      NewTaskPage.callCreateTask (NewTaskPage.formData (form "Buy milk")) "token"]).
Proof.
  destruct (failed_submit_stays_on_page ExampleHost.host (answering failure) page_host
              "token" (form "buy milk")) as (Hfail & _).
  - reflexivity.
  - apply (Hfail failure); reflexivity.
Defined.

(** X20 for a client that answers with the created task. *)
Lemma created_task_reaches_feed_witness :
  exists activity entry rest,
    snd (NewTaskPage.handleSubmit ExampleHost.host
           (answering (answer true (Some (ApiClient.PTask dated))))
           page_host "token" (form "dated"))
    = [NewTaskPage.preventDefault;
       NewTaskPage.callCreateTask (NewTaskPage.formData (form "Dated")) "token";
       NewTaskPage.dispatchEvent "task-updated" None;
       NewTaskPage.dispatchEvent "task-activity" (Some activity);
       NewTaskPage.routerPush "/tasks"]
    /\ RecentActivity.handleTaskActivity activity [server_item 7 "Past"] = entry :: rest
    /\ Feed.getActivityMessage entry = "Task 'Dated' was created"
    /\ Activity.created_at entry = "2024-01-01T09:00:00".
Proof.
  apply (created_task_reaches_feed ExampleHost.host
           (answering (answer true (Some (ApiClient.PTask dated)))) page_host "token"
           (form "dated") (answer true (Some (ApiClient.PTask dated))) dated
           [server_item 7 "Past"]); reflexivity.
Defined.

(** X21 for a list of three tasks of which one is completed. *)
Lemma dashboard_counts_witness :
  let shown :=
    fst (Dashboard.fetchTaskStats
           (answering (answer true (Some (ApiClient.PTasks [older; newer; past_due]))))
           true (Some "token") Dashboard.noStats) in
  Dashboard.total shown = 3
  /\ Dashboard.completed_count shown = 1
  /\ Dashboard.total shown = Dashboard.completed_count shown + Dashboard.pending shown.
Proof.
  destruct (dashboard_counts ExampleHost.host march10 by_priority asc
              (answering (answer true (Some (ApiClient.PTasks [older; newer; past_due]))))
              (Some "token") Dashboard.noStats [older; newer; past_due]
              eq_refl eq_refl) as (Htotal & Hdone & Hsum & _).
  intros shown. split; [exact Htotal | split; [exact Hdone | exact Hsum]].
Defined.

(** X22 for a client that reports a network error. *)
Lemma dashboard_failures_show_zero_witness :
  Dashboard.fetchTaskStats (answering failure) true (Some "token")
    {| Dashboard.total := 3; Dashboard.completed_count := 1; Dashboard.pending := 2 |}
  = (Dashboard.noStats, [Dashboard.callGetAllTasks "token"]).
Proof.
  destruct (dashboard_failures_show_zero (answering failure) true (Some "token")
              {| Dashboard.total := 3; Dashboard.completed_count := 1;
                 Dashboard.pending := 2 |}) as (_ & Hfail).
  destruct (Hfail eq_refl eq_refl) as (Hreported & _).
  apply (Hreported _ eq_refl). left. reflexivity.
Defined.

(** X23 for the toggle of the task 5, answered with the task completed. *)
Lemma toggle_replaces_in_place_witness :
  exists outcome,
    TasksPageHandlers.handleToggleComplete
      (answering (answer true (Some (ApiClient.PTask past_due)))) page_host
      (Some "token") older
    = Some outcome
    /\ length (TasksPageHandlers.tasks (TasksPageHandlers.update outcome page)) = 3%nat.
Proof.
  destruct (toggle_replaces_in_place
              (answering (answer true (Some (ApiClient.PTask past_due)))) page_host
              (Some "token") older
              {| TasksApi.r_success := true; TasksApi.r_tasks := None;
                 TasksApi.r_task := Some (ApiClient.PTask past_due);
                 TasksApi.r_error := None |}
              past_due eq_refl eq_refl eq_refl eq_refl)
    as (outcome & activity & Hrun & Hstate & _).
  exists outcome. split; [exact Hrun|].
  destruct (Hstate page) as (Hlen & _). rewrite Hlen. reflexivity.
Defined.

(** X24 for a delete that the API refuses. *)
Lemma failed_toggle_and_delete_are_silent_witness :
  TasksPageHandlers.handleDeleteTask (answering failure) page_host (Some "token") page 6
  = {| TasksPageHandlers.update := fun st => st;
       TasksPageHandlers.effects := [TasksPageHandlers.callDeleteTask 6 "token"] |}.
Proof.
  destruct (failed_toggle_and_delete_are_silent (answering failure) page_host
              (Some "token") older page 6) as (_ & Hwith).
  destruct (Hwith eq_refl) as (_ & Hdelete & _).
  apply (Hdelete _ eq_refl). reflexivity.
Defined.

(** X25 for a confirmed delete of the task 6. *)
Lemma confirmed_delete_removes_task_witness :
  TasksPageHandlers.tasks
    (TasksPageHandlers.update
       (TasksPageHandlers.handleDeleteTask (answering (answer true None)) page_host
          (Some "token") page 6)
       page)
  = [older; past_due].
Proof.
  destruct (confirmed_delete_removes_task (answering (answer true None)) page_host
              (Some "token") page 6
              {| TasksApi.r_success := true; TasksApi.r_tasks := None;
                 TasksApi.r_task := None; TasksApi.r_error := None |}
              eq_refl eq_refl eq_refl) as (Hstate & _).
  destruct (Hstate page) as (Htasks & _). rewrite Htasks. reflexivity.
Defined.

(** X26 for a session and a client that reports a network error. *)
Lemma loadTasks_outcomes_witness :
  exists outcome,
    TasksPageHandlers.loadTasks (answering failure) true (Some "token") = Some outcome
    /\ TasksPageHandlers.loading (TasksPageHandlers.update outcome page) = false.
Proof.
  destruct (loadTasks_outcomes (answering failure) true (Some "token")) as (_ & Hwith).
  eexists. split; [reflexivity|].
  apply (Hwith eq_refl eq_refl _ page eq_refl).
Defined.

(** X27 for a due date in the editor that does not parse. *)
Lemma save_edit_requests_witness :
  TasksPageHandlers.handleSaveEdit ExampleHost.host (answering failure) page_host
    (Some "token") (page_with_due "tomorrow")
  = Some {| TasksPageHandlers.update := fun st => st;
            TasksPageHandlers.effects :=
              [TasksPageHandlers.consoleError "Error updating task:";
               TasksPageHandlers.alert
                 "Save failed. Please check your connection and try again."] |}.
Proof.
  destruct (save_edit_requests ExampleHost.host (answering failure) page_host
              (Some "token") (page_with_due "tomorrow")) as (_ & Hwith & _).
  destruct (Hwith newer eq_refl eq_refl) as (Hinvalid & _).
  apply Hinvalid. reflexivity.
Defined.

(** X28 for a save that the API refuses. *)
Lemma save_edit_closes_on_success_witness :
  exists outcome,
    TasksPageHandlers.handleSaveEdit ExampleHost.host (answering failure) page_host
      (Some "token") (page_with_due "2024-03-20")
    = Some outcome
    /\ TasksPageHandlers.editingTask (TasksPageHandlers.update outcome page) = Some newer.
Proof.
  destruct (save_edit_closes_on_success ExampleHost.host (answering failure) page_host
              (Some "token") (page_with_due "2024-03-20") newer
              {| ApiClient.u_title := Some "Newer task";
                 ApiClient.u_description := None;
                 ApiClient.u_completed := None;
                 ApiClient.u_priority := Some high;
                 ApiClient.u_due_date := Some "2024-03-20T00:00:00.000Z";
                 ApiClient.u_recurring := None;
                 ApiClient.u_category := None |}
              {| TasksApi.r_success := false; TasksApi.r_tasks := None;
                 TasksApi.r_task := None; TasksApi.r_error := Some "Network error" |}
              eq_refl eq_refl eq_refl eq_refl) as (_ & Hfail).
  eexists. split; [apply Hfail; reflexivity|]. reflexivity.
Defined.

(** X29 on 2024-03-10 for a task due on 2024-03-05. *)
Lemma due_badge_by_days_witness :
  TaskItem.dueBadge ExampleHost.host march10 past_due
  = Some ("bg-red-100 text-red-800", "Overdue 5 day").
Proof.
  destruct (due_badge_by_days ExampleHost.host march10 past_due "2024-03-05")
    as (Hparsed & _).
  - reflexivity.
  - discriminate.
  - destruct (Hparsed 1709596800000) as (_ & Hover & _).
    + vm_compute. reflexivity.
    + destruct Hover as [Heq _]; [vm_compute; discriminate|].
      rewrite Heq. reflexivity.
Defined.

(** X30 on 2024-03-12 for a task due on 2024-03-11 at 08:00. *)
Lemma badge_and_overdue_filter_witness :
  option_map fst (TaskItem.dueBadge ExampleHost.host march12 timed)
  = Some "bg-red-100 text-red-800"
  /\ statusKeeps ExampleHost.host (getToday ExampleHost.host march12) overdue timed = true.
Proof.
  destruct (badge_and_overdue_filter ExampleHost.host march12 timed
              "2024-03-11T08:00:00" 1710144000000) as (Hkept & Hred & _).
  - reflexivity.
  - discriminate.
  - reflexivity.
  - vm_compute. reflexivity.
  - reflexivity.
  - split.
    + apply Hred. vm_compute. discriminate.
    + apply Hkept. vm_compute. reflexivity.
Defined.

End MoreInstances.
